(** * Verification of the ProxyRule validation and conflict engine of mortar-backend

    Shallow embedding of [internal/validation] (proxyrule.go, request.go),
    of the ProxyRule handlers (internal/handlers/proxyrules.go:
    CreateProxyRule, UpdateProxyRule, checkDuplicateDomain) and of the
    in-memory dynamic client of [internal/testutil].

    Conventions.
    - Go strings are byte strings: [string] of the Standard Library.
      [strings.ToLower] / [strings.ToUpper] are modelled by Go's ASCII
      path, which is exact on ASCII strings.
    - A decoded JSON / unstructured value is [value]; a Go
      [map[string]interface{}] is an association list.  Go iterates maps
      in an unspecified order; the model iterates in list order.
    - A float64 is [VFloat m e], the number m * 2^e.
    - [net.ParseIP] is [netip.ParseAddr] with an empty zone (Go >= 1.22).
      Its IPv4 parser is written out; its IPv6 parser is a parameter
      [parseIPv6] of the development (library code, no claim depends on
      it). *)

From Stdlib Require Import String Ascii ZArith List Bool Lia.
From stdpp Require Import base gmap strings list pretty.
Import ListNotations.
Open Scope string_scope.
Open Scope Z_scope.
Open Scope list_scope.
Set Warnings "-register-all".

(** ** Decoded JSON / unstructured values *)

Inductive value : Type :=
| VNull
| VBool (b : bool)
| VInt (z : Z)
| VFloat (m e : Z)
| VString (s : string)
| VList (l : list value)
| VMap (kvs : list (string * value)).

(** [map[string]interface{}] *)
Abbreviation obj := (list (string * value)).

Fixpoint assoc (k : string) (m : obj) : option value :=
  match m with
  | [] => None
  | (k', v) :: m' => if String.eqb k k' then Some v else assoc k m'
  end.

(** [m[k] = v] on a Go map: overwrite the key or add it. *)
Fixpoint map_set (k : string) (v : value) (m : obj) : obj :=
  match m with
  | [] => [(k, v)]
  | (k', v') :: m' =>
      if String.eqb k k' then (k', v) :: m' else (k', v') :: map_set k v m'
  end.

(** ** unstructured helpers (k8s.io/apimachinery) *)

(** Result of a nested lookup: (value, found, err) of the Go helpers. *)
Inductive nested (A : Type) : Type :=
| NFound (x : A)
| NMissing
| NError.
Arguments NFound {A} x.
Arguments NMissing {A}.
Arguments NError {A}.

(** [NestedFieldNoCopy]: walk the fields from the top-level map. *)
Fixpoint nested_field_go (v : value) (fields : list string) : nested value :=
  match fields with
  | [] => NFound v
  | f :: fs =>
      match v with
      | VNull => NMissing
      | VMap m =>
          match assoc f m with
          | None => NMissing
          | Some v' => nested_field_go v' fs
          end
      | _ => NError
      end
  end.

Definition NestedFieldNoCopy (o : obj) (fields : list string) : nested value :=
  nested_field_go (VMap o) fields.

Definition NestedString (o : obj) (fields : list string) : nested string :=
  match NestedFieldNoCopy o fields with
  | NFound (VString s) => NFound s
  | NFound _ => NError
  | NMissing => NMissing
  | NError => NError
  end.

Fixpoint all_strings (l : list value) : option (list string) :=
  match l with
  | [] => Some []
  | VString s :: l' =>
      match all_strings l' with Some r => Some (s :: r) | None => None end
  | _ :: _ => None
  end.

Definition NestedStringSlice (o : obj) (fields : list string) : nested (list string) :=
  match NestedFieldNoCopy o fields with
  | NFound (VList l) =>
      match all_strings l with Some r => NFound r | None => NError end
  | NFound _ => NError
  | NMissing => NMissing
  | NError => NError
  end.

Definition NestedMap (o : obj) (fields : list string) : nested obj :=
  match NestedFieldNoCopy o fields with
  | NFound (VMap m) => NFound m
  | NFound _ => NError
  | NMissing => NMissing
  | NError => NError
  end.

(** [getNestedString]: the accessor behind [GetName], [GetKind], ... *)
Definition getNestedString (o : obj) (fields : list string) : string :=
  match NestedString o fields with NFound s => s | _ => "" end.

Definition GetName (o : obj) : string := getNestedString o ["metadata"; "name"].
Definition GetNamespace (o : obj) : string := getNestedString o ["metadata"; "namespace"].
Definition GetAPIVersion (o : obj) : string := getNestedString o ["apiVersion"].
Definition GetKind (o : obj) : string := getNestedString o ["kind"].

(** [SetNestedField]: create missing intermediate maps; a non-map
    intermediate value makes it fail, and the setters ignore that error. *)
Fixpoint set_nested (o : obj) (fields : list string) (v : value) : obj :=
  match fields with
  | [] => o
  | [f] => map_set f v o
  | f :: fs =>
      match assoc f o with
      | None => map_set f (VMap (set_nested [] fs v)) o
      | Some (VMap m) => map_set f (VMap (set_nested m fs v)) o
      | Some _ => o
      end
  end.

Definition SetAPIVersion (o : obj) (s : string) : obj := set_nested o ["apiVersion"] (VString s).
Definition SetKind (o : obj) (s : string) : obj := set_nested o ["kind"] (VString s).
(** [SetNamespace] with a non-empty argument (the only use here). *)
Definition SetNamespace (o : obj) (s : string) : obj :=
  set_nested o ["metadata"; "namespace"] (VString s).

(** ** Strings and the regular expressions of proxyrule.go *)

Definition is_digit (c : ascii) : bool :=
  Nat.leb (nat_of_ascii "0") (nat_of_ascii c) && Nat.leb (nat_of_ascii c) (nat_of_ascii "9").

Definition is_lower_alnum (c : ascii) : bool :=
  is_digit c || (Nat.leb (nat_of_ascii "a") (nat_of_ascii c)
                 && Nat.leb (nat_of_ascii c) (nat_of_ascii "z")).

Definition is_upper (c : ascii) : bool :=
  Nat.leb (nat_of_ascii "A") (nat_of_ascii c) && Nat.leb (nat_of_ascii c) (nat_of_ascii "Z").

Definition ascii_lower (c : ascii) : ascii :=
  if is_upper c then ascii_of_nat (nat_of_ascii c + 32) else c.

Definition is_lower (c : ascii) : bool :=
  Nat.leb (nat_of_ascii "a") (nat_of_ascii c) && Nat.leb (nat_of_ascii c) (nat_of_ascii "z").

Definition ascii_upper (c : ascii) : ascii :=
  if is_lower c then ascii_of_nat (nat_of_ascii c - 32) else c.

Fixpoint string_map (f : ascii -> ascii) (s : string) : string :=
  match s with
  | EmptyString => EmptyString
  | String c s' => String (f c) (string_map f s')
  end.

(** [strings.ToLower] / [strings.ToUpper] on ASCII strings. *)
Definition strings_ToLower (s : string) : string := string_map ascii_lower s.
Definition strings_ToUpper (s : string) : string := string_map ascii_upper s.

Fixpoint is_ascii (s : string) : bool :=
  match s with
  | EmptyString => true
  | String c s' => Nat.ltb (nat_of_ascii c) 128 && is_ascii s'
  end.

Fixpoint string_all (p : ascii -> bool) (s : string) : bool :=
  match s with
  | EmptyString => true
  | String c s' => p c && string_all p s'
  end.

Fixpoint string_last (s : string) : option ascii :=
  match s with
  | EmptyString => None
  | String c EmptyString => Some c
  | String _ s' => string_last s'
  end.

Definition strings_HasPrefix (s p : string) : bool := String.prefix p s.

Fixpoint strings_HasSuffix (s p : string) : bool :=
  if String.eqb s p then true
  else match s with
       | EmptyString => false
       | String _ s' => strings_HasSuffix s' p
       end.

Fixpoint strings_Contains (s p : string) : bool :=
  String.prefix p s ||
  match s with
  | EmptyString => false
  | String _ s' => strings_Contains s' p
  end.

(** Pieces of [s] between the separator [c] (always at least one). *)
Fixpoint split_on (c : ascii) (s : string) : list string :=
  match s with
  | EmptyString => [EmptyString]
  | String a s' =>
      let rest := split_on c s' in
      if Ascii.eqb a c then EmptyString :: rest
      else match rest with
           | x :: r => String a x :: r
           | [] => [String a EmptyString]
           end
  end.

(** One DNS label: [[a-z0-9]([-a-z0-9]*[a-z0-9])?]. *)
Definition is_label (s : string) : bool :=
  match s with
  | EmptyString => false
  | String c _ =>
      is_lower_alnum c
      && string_all (fun a => is_lower_alnum a || Ascii.eqb a "-") s
      && match string_last s with Some l => is_lower_alnum l | None => false end
  end.

(** [dnsNameRegex]: [^label(\.label)*$]. *)
Definition dnsNameRegex_Match (s : string) : bool :=
  forallb is_label (split_on "." s).

(** [k8sNameRegex]: [^label$]. *)
Definition k8sNameRegex_Match (s : string) : bool := is_label s.

(** [\d+] (RE2's [\d] is [[0-9]]). *)
Definition digit_group (g : string) : bool := negb (String.eqb g "") && string_all is_digit g.

(** [ipv4Pattern]: [^\d+\.\d+\.\d+\.\d+$]. *)
Definition ipv4Pattern_Match (s : string) : bool :=
  match split_on "." s with
  | [a; b; c; d] => forallb digit_group [a; b; c; d]
  | _ => false
  end.

(** ** IP address parsing (net.ParseIP) *)

Definition digit_val (c : ascii) : Z := Z.of_nat (nat_of_ascii c) - 48.

(** [netip.parseIPv4Fields] over the whole string: [prev] is [s[i-1]]
    ([None] at [i = 0]); [val], [pos], [digLen] are the loop variables. *)
Fixpoint parseIPv4Fields (s : string) (prev : option ascii) (val pos digLen : Z)
    (fields : list Z) : option (list Z) :=
  match s with
  | EmptyString => if pos <? 3 then None else Some (fields ++ [val])
  | String c rest =>
      if is_digit c then
        if (digLen =? 1) && (val =? 0) then None
        else
          let val' := val * 10 + digit_val c in
          if val' >? 255 then None
          else parseIPv4Fields rest (Some c) val' pos (digLen + 1) fields
      else if Ascii.eqb c "." then
        if match prev with None => true | Some p => Ascii.eqb p "." end
           || String.eqb rest "" then None
        else if pos =? 3 then None
        else parseIPv4Fields rest (Some c) 0 (pos + 1) 0 (fields ++ [val])
      else None
  end.

Definition parseIPv4 (s : string) : option (list Z) := parseIPv4Fields s None 0 0 0 [].

(** The first of '.', ':' or '%' in [s]: [netip.ParseAddr] dispatches on it. *)
Fixpoint first_sep (s : string) : option ascii :=
  match s with
  | EmptyString => None
  | String c s' =>
      if Ascii.eqb c "." || Ascii.eqb c ":" || Ascii.eqb c "%" then Some c
      else first_sep s'
  end.

(** ** Validation errors *)

Record ValidationError := mkVE { Field : string; Message : string }.

(** Text of the accessor errors of the unstructured helpers, printed by
    the ["%v"] verbs. *)
Definition accessor_error : string := "accessor error".

Definition maxNameLength : Z := 253.
Definition maxDomainLength : Z := 253.
Definition minPort : Z := 1.
Definition maxPort : Z := 65535.

Definition msg_invalid_ipv4 : string :=
  "destination appears to be an IPv4 address but is invalid (octets must be 0-255)".
Definition msg_dest_required : string := "either destination or destinations is required".

Definition slen (s : string) : Z := Z.of_nat (String.length s).

Definition validateMetadata (o : obj) : list ValidationError :=
  let name := GetName o in
  if String.eqb name "" then [mkVE "metadata.name" "name is required"]
  else
    (if slen name >? maxNameLength
     then [mkVE "metadata.name" "name must not exceed 253 characters"] else [])
    ++ (if negb (k8sNameRegex_Match name)
        then [mkVE "metadata.name" "name must consist of lower case alphanumeric characters or '-', and must start and end with an alphanumeric character"]
        else []).

Definition validateDomain (domain : string) : list ValidationError :=
  (if slen domain >? maxDomainLength
   then [mkVE "spec.domain" "domain must not exceed 253 characters"] else [])
  ++ (if negb (dnsNameRegex_Match (strings_ToLower domain))
      then [mkVE "spec.domain" "domain must be a valid DNS name (lowercase alphanumeric characters, '-', and '.' only)"]
      else [])
  ++ (if strings_HasPrefix domain "." || strings_HasSuffix domain "."
      then [mkVE "spec.domain" "domain must not start or end with a dot"] else [])
  ++ (if strings_Contains domain ".."
      then [mkVE "spec.domain" "domain must not contain consecutive dots"] else []).

Definition validatePort (port : Z) : list ValidationError :=
  if (port <? minPort) || (port >? maxPort)
  then [mkVE "spec.port" "port must be between 1 and 65535"] else [].

(** Truncation toward zero of m * 2^e. *)
Definition float_trunc (m e : Z) : Z :=
  if 0 <=? e then m * 2 ^ e else Z.quot m (2 ^ (- e)).

(** Go's [int64(f)] for a float64 f (amd64: out-of-range values give
    the integer indefinite -2^63). *)
Definition int64_of_float64 (m e : Z) : Z :=
  let t := float_trunc m e in
  if (- 2 ^ 63 <=? t) && (t <? 2 ^ 63) then t else - 2 ^ 63.

(** The [spec.port] block of [validateSpec], given [spec["port"]]. *)
Definition validateSpecPort (portVal : value) : list ValidationError :=
  let '(port, ok, errs) :=
    match portVal with
    | VInt p => (p, true, [])
    | VFloat m e => (int64_of_float64 m e, false, [])
    | _ => (0, false, [mkVE "spec.port" "port must be an integer"])
    end in
  errs ++ (if ok || negb (port =? 0) then validatePort port else []).

Definition validateSpecTLS (tlsVal : value) : list ValidationError :=
  match tlsVal with
  | VBool _ => []
  | _ => [mkVE "spec.tls" "tls must be a boolean"]
  end.

Definition validateSpecAnnotations (annotationsVal : value) : list ValidationError :=
  match annotationsVal with
  | VMap kvs =>
      flat_map (fun kv =>
        match kv.2 with
        | VString _ => []
        | _ => [mkVE (String.append "spec.annotations." kv.1) "annotation value must be a string"]
        end) kvs
  | _ => [mkVE "spec.annotations" "annotations must be a map of strings"]
  end.

(** ** Request body (request.go) *)

Definition MaxRequestBodySize : Z := 1 * 1024 * 1024.

Definition ValidateRequestBody (body : list Byte.byte) : option ValidationError :=
  if Nat.eqb (length body) 0 then Some (mkVE "body" "request body is required")
  else if Z.of_nat (length body) >? MaxRequestBodySize
  then Some (mkVE "body" "request body size exceeds maximum of 1048576 bytes")
  else None.

(** [ValidationError.Error] and [ValidationErrors.Error] (proxyrule.go). *)
Definition ValidationError_Error (e : ValidationError) : string :=
  String.append "validation error on field '"
    (String.append (Field e) (String.append "': " (Message e))).

(** [strings.Join]. *)
Fixpoint strings_Join (elems : list string) (sep : string) : string :=
  match elems with
  | [] => ""
  | [x] => x
  | x :: rest => String.append x (String.append sep (strings_Join rest sep))
  end.

Definition ValidationErrors_Error (es : list ValidationError) : string :=
  match es with
  | [] => ""
  | _ => strings_Join (map ValidationError_Error es) "; "
  end.

(** The error values reaching [HandleValidationError]: a
    [*ValidationError], a [ValidationErrors], [io.ErrUnexpectedEOF], the
    [*http.MaxBytesError] of [http.MaxBytesReader], any other error. *)
Inductive go_error : Type :=
| ErrValidation (e : ValidationError)
| ErrValidations (es : list ValidationError)
| ErrUnexpectedEOF
| ErrMaxBytes
| ErrOther (msg : string).

Definition error_Error (err : go_error) : string :=
  match err with
  | ErrValidation e => ValidationError_Error e
  | ErrValidations es => ValidationErrors_Error es
  | ErrUnexpectedEOF => "unexpected EOF"
  | ErrMaxBytes => "http: request body too large"
  | ErrOther msg => msg
  end.

(** An HTTP response: [http.Error(w, msg, code)] (the message without
    its trailing newline), a JSON-encoded object or list, or an empty
    response with a status code. *)
Inductive Response : Type :=
| RError (code : Z) (msg : string)
| RObject (code : Z) (o : obj)
| RList (code : Z) (items : list obj)
| RStatus (code : Z).

Definition StatusCode (r : Response) : Z :=
  match r with
  | RError c _ | RObject c _ | RList c _ | RStatus c => c
  end.

(** [HandleValidationError] (request.go). *)
Definition HandleValidationError (err : go_error) : Response :=
  let fallback :=
    if match err with ErrUnexpectedEOF => true | _ => false end
       || String.eqb (error_Error err) "http: request body too large"
    then RError 413 "request body too large (max 1048576 bytes)"
    else RError 400 (String.append "validation error: " (error_Error err)) in
  match err with
  | ErrValidation e => RError 400 (ValidationError_Error e)
  | ErrValidations es =>
      if Nat.ltb 0 (length es) then RError 400 (ValidationErrors_Error es) else fallback
  | _ => fallback
  end.

(** [ValidateJSONRequest] (request.go): the method and the first
    Content-Type header value ("" when absent).  The [MaxBytesReader] it
    installs on the body is [ReadAll_MaxBytesReader] below. *)
Definition ValidateJSONRequest (method contentType : string) : option ValidationError :=
  if String.eqb method "POST" || String.eqb method "PUT" || String.eqb method "PATCH" then
    if String.eqb contentType "" then
      Some (mkVE "Content-Type" "Content-Type header is required")
    else if negb (String.eqb contentType "application/json")
            && negb (String.eqb contentType "application/json; charset=utf-8") then
      Some (mkVE "Content-Type"
              (String.append "Content-Type must be 'application/json', got '"
                 (String.append contentType "'")))
    else None
  else None.

(** [io.ReadAll] of a body wrapped by [http.MaxBytesReader(w, body, n)]:
    a body of more than [n] bytes fails with a [*http.MaxBytesError]. *)
Definition ReadAll_MaxBytesReader (n : Z) (body : list Byte.byte) : go_error + list Byte.byte :=
  if Z.of_nat (length body) <=? n then inr body else inl ErrMaxBytes.

(** The request checks of the [CreateProxyRule] handler before the JSON
    decoding: method, [ValidateJSONRequest], reading the body and
    [ValidateRequestBody].  [inl] is the response sent, [inr] the body. *)
Definition CreateProxyRule_readBody (method contentType : string) (body : list Byte.byte)
    : Response + list Byte.byte :=
  if negb (String.eqb method "POST") then inl (RError 405 "Method not allowed")
  else
    match ValidateJSONRequest method contentType with
    | Some e => inl (HandleValidationError (ErrValidation e))
    | None =>
        match ReadAll_MaxBytesReader MaxRequestBodySize body with
        | inl err => inl (HandleValidationError err)
        | inr b =>
            match ValidateRequestBody b with
            | Some e => inl (HandleValidationError (ErrValidation e))
            | None => inr b
            end
        end
    end.

(** ** Paths of the handlers *)

(** [strings.Trim(s, cutset)] for a one-byte cutset: [trimLeftByte]
    then [trimRightByte]. *)
Fixpoint trimLeftByte (s : string) (c : ascii) : string :=
  match s with
  | EmptyString => EmptyString
  | String a s' => if Ascii.eqb a c then trimLeftByte s' c else s
  end.

Fixpoint trimRightByte (s : string) (c : ascii) : string :=
  match s with
  | EmptyString => EmptyString
  | String a s' =>
      let r := trimRightByte s' c in
      if String.eqb r "" && Ascii.eqb a c then EmptyString else String a r
  end.

Definition strings_Trim (s : string) (c : ascii) : string :=
  trimRightByte (trimLeftByte s c) c.

(** [strings.Split(strings.Trim(r.URL.Path, "/"), "/")]. *)
Definition path_parts (path : string) : list string :=
  split_on "/" (strings_Trim path "/").

Definition msg_invalid_path : string :=
  "Invalid path format. Expected: /api/proxyrules/{name}".

Section Engine.

(** Acceptance of [netip.parseIPv6] with an empty zone (standard library). *)
Variable parseIPv6 : string -> bool.

(** [net.ParseIP s != nil]. *)
Definition ParseIP (s : string) : bool :=
  match first_sep s with
  | Some c =>
      if Ascii.eqb c "." then match parseIPv4 s with Some _ => true | None => false end
      else if Ascii.eqb c ":" then parseIPv6 s
      else false
  | None => false
  end.

Definition validateDestination (destination : string) : list ValidationError :=
  if ipv4Pattern_Match destination then
    if negb (ParseIP destination) then [mkVE "spec.destination" msg_invalid_ipv4] else []
  else if ParseIP destination then []
  else
    (if negb (dnsNameRegex_Match (strings_ToLower destination))
     then [mkVE "spec.destination" "destination must be a valid IP address or DNS name"]
     else [])
    ++ (if strings_HasPrefix destination "." || strings_HasSuffix destination "."
        then [mkVE "spec.destination" "destination must not start or end with a dot"] else [])
    ++ (if strings_Contains destination ".."
        then [mkVE "spec.destination" "destination must not contain consecutive dots"] else []).

(** The loop over [destinations], with the index [i] of each entry. *)
Fixpoint validateDestinationsFrom (i : nat) (dests : list string) : list ValidationError :=
  match dests with
  | [] => []
  | dest :: rest =>
      let field := String.append "spec.destinations[" (String.append (pretty i) "]") in
      (if String.eqb dest "" then [mkVE field "destination cannot be empty"]
       else map (fun e => mkVE field (Message e)) (validateDestination dest))
      ++ validateDestinationsFrom (S i) rest
  end.

Definition validateSpec (o : obj) : list ValidationError :=
  match NestedMap o ["spec"] with
  | NError => [mkVE "spec" (String.append "invalid spec structure: " accessor_error)]
  | NMissing => [mkVE "spec" "spec is required"]
  | NFound spec =>
      let e_domain :=
        match NestedString spec ["domain"] with
        | NError => [mkVE "spec.domain" (String.append "invalid domain type: " accessor_error)]
        | NMissing => [mkVE "spec.domain" "domain is required"]
        | NFound domain =>
            if String.eqb domain "" then [mkVE "spec.domain" "domain is required"]
            else validateDomain domain
        end in
      let dest := NestedString spec ["destination"] in
      let dests := NestedStringSlice spec ["destinations"] in
      let e_required :=
        if match dest with NFound d => String.eqb d "" | _ => true end
           && match dests with NFound l => Nat.eqb (length l) 0 | _ => true end
        then [mkVE "spec.destination/destinations" msg_dest_required] else [] in
      let e_dest :=
        match dest with
        | NError => [mkVE "spec.destination" (String.append "invalid destination type: " accessor_error)]
        | NFound d => if String.eqb d "" then [] else validateDestination d
        | NMissing => []
        end in
      let e_dests :=
        match dests with
        | NError => [mkVE "spec.destinations" (String.append "invalid destinations type: " accessor_error)]
        | NFound l => if Nat.ltb 0 (length l) then validateDestinationsFrom 0 l else []
        | NMissing => []
        end in
      let e_port := match assoc "port" spec with Some v => validateSpecPort v | None => [] end in
      let e_tls := match assoc "tls" spec with Some v => validateSpecTLS v | None => [] end in
      let e_ann :=
        match assoc "annotations" spec with Some v => validateSpecAnnotations v | None => [] end in
      e_domain ++ e_required ++ e_dest ++ e_dests ++ e_port ++ e_tls ++ e_ann
  end.

Definition ValidateProxyRuleCreate (o : obj) : list ValidationError :=
  validateMetadata o ++ validateSpec o.

Definition ValidateProxyRuleUpdate (o : obj) : list ValidationError :=
  validateSpec o.

(** ** The in-memory dynamic client (internal/testutil)

    [resources] is [map[namespace]map[name]*Unstructured]: it holds
    pointers into [heap].  [DeepCopy] allocates a fresh cell. *)

Record State := mkState {
  heap : gmap N obj;
  next : N;
  resources : gmap string (gmap string N)
}.

Definition deref (st : State) (l : N) : obj := default [] (heap st !! l).

Definition alloc (st : State) (o : obj) : State * N :=
  (mkState (<[next st := o]> (heap st)) (N.succ (next st)) (resources st), next st).

(** [*p = o] for the handler's working copy at [l]. *)
Definition heap_write (st : State) (l : N) (o : obj) : State :=
  mkState (<[l := o]> (heap st)) (next st) (resources st).

Definition ns_map (st : State) (ns : string) : gmap string N :=
  default ∅ (resources st !! ns).

Definition set_resources (st : State) (r : gmap string (gmap string N)) : State :=
  mkState (heap st) (next st) r.

(** [Create]: [None] is the "already exists" error. *)
Definition store_create (st : State) (ns : string) (o : obj) : State * option N :=
  let st0 := set_resources st (<[ns := ns_map st ns]> (resources st)) in
  let name := GetName o in
  match ns_map st0 ns !! name with
  | Some _ => (st0, None)
  | None =>
      let '(st1, l) := alloc st0 o in
      (set_resources st1 (<[ns := <[name := l]> (ns_map st1 ns)]> (resources st1)), Some l)
  end.

(** [Update]: [None] is the "not found" error. *)
Definition store_update (st : State) (ns : string) (o : obj) : State * option N :=
  let name := GetName o in
  match resources st !! ns with
  | None => (st, None)
  | Some m =>
      match m !! name with
      | None => (st, None)
      | Some _ =>
          let '(st1, l) := alloc st o in
          (set_resources st1 (<[ns := <[name := l]> m]> (resources st1)), Some l)
      end
  end.

(** [Get]: a deep copy of the stored object; [None] is "not found". *)
Definition store_get (st : State) (ns name : string) : State * option N :=
  match resources st !! ns with
  | None => (st, None)
  | Some m =>
      match m !! name with
      | None => (st, None)
      | Some l => let '(st1, l1) := alloc st (deref st l) in (st1, Some l1)
      end
  end.

(** [List]: copies of the live records, in map order. *)
Definition store_list (st : State) (ns : string) : list obj :=
  map (fun nl => deref st nl.2) (map_to_list (ns_map st ns)).

(** What a client of the store can observe: namespace -> name -> record. *)
Definition store_view (st : State) : gmap string (gmap string obj) :=
  fmap (fun m : gmap string N => fmap (deref st) m) (resources st).

(** Every pointer held by the store is below the allocation frontier. *)
Definition store_wf (st : State) : Prop :=
  forall ns m name l, resources st !! ns = Some m -> m !! name = Some l -> (l < next st)%N.

(** ** The handlers (internal/handlers/proxyrules.go) *)

Definition proxyRulesNamespace : string := "proxy-rules".

Inductive outcome : Type :=
| Created (o : obj)
| Updated (o : obj)
| ValidationFailed (errs : list ValidationError)
| NameConflict (name : string)
| DomainConflict (domain owner : string)
| NotFound (name : string)
| StoreError
| BadRequest
| Panic.

(** The loop of [checkDuplicateDomain] over the listed items. *)
Fixpoint checkDuplicateDomainItems (domain excludeName : string) (items : list obj)
    : option (string * string) :=
  match items with
  | [] => None
  | item :: rest =>
      if negb (String.eqb excludeName "") && String.eqb (GetName item) excludeName
      then checkDuplicateDomainItems domain excludeName rest
      else match NestedString item ["spec"; "domain"] with
           | NFound existingDomain =>
               if String.eqb existingDomain domain then Some (domain, GetName item)
               else checkDuplicateDomainItems domain excludeName rest
           | _ => checkDuplicateDomainItems domain excludeName rest
           end
  end.

(** [checkDuplicateDomain]: [Some (domain, owner)] is the conflict error. *)
Definition checkDuplicateDomain (st : State) (o : obj) (excludeName : string)
    : option (string * string) :=
  match NestedString o ["spec"; "domain"] with
  | NFound domain =>
      if String.eqb domain "" then None
      else checkDuplicateDomainItems domain excludeName (store_list st proxyRulesNamespace)
  | _ => None
  end.

(** Defaulting of apiVersion, kind and namespace in [CreateProxyRule]. *)
Definition create_defaults (o0 : obj) : obj :=
  let o1 := if String.eqb (GetAPIVersion o0) "" then SetAPIVersion o0 "bausteln.io/v1" else o0 in
  let o2 := if String.eqb (GetKind o1) "" then SetKind o1 "Proxyrule" else o1 in
  if String.eqb (GetNamespace o2) "" then SetNamespace o2 proxyRulesNamespace else o2.

(** [CreateProxyRule] from the decoded request body [o0] on (the
    content type, size and JSON checks before it are request.go's). *)
Definition CreateProxyRule (st : State) (o0 : obj) : State * outcome :=
  let o := create_defaults o0 in
  let errs := ValidateProxyRuleCreate o in
  if Nat.ltb 0 (length errs) then (st, ValidationFailed errs)
  else
    let '(st1, existingByName) := store_get st proxyRulesNamespace (GetName o) in
    match existingByName with
    | Some _ => (st1, NameConflict (GetName o))
    | None =>
        match checkDuplicateDomain st1 o "" with
        | Some (d, owner) => (st1, DomainConflict d owner)
        | None =>
            let '(st2, result) := store_create st1 proxyRulesNamespace o in
            match result with
            | None => (st2, StoreError)
            | Some l => (st2, Created (deref st2 l))
            end
        end
    end.

(** The metadata merge of [UpdateProxyRule] on the working copy:
    [None] is the panic of the unchecked [.(map[string]interface{})]. *)
Definition merge_metadata (existing updates : obj) : option obj :=
  match assoc "metadata" updates with
  | Some (VMap metadata) =>
      match assoc "metadata" existing with
      | Some (VMap existingMetadata) =>
          let m1 := match assoc "labels" metadata with
                    | Some labels => map_set "labels" labels existingMetadata
                    | None => existingMetadata end in
          let m2 := match assoc "annotations" metadata with
                    | Some annotations => map_set "annotations" annotations m1
                    | None => m1 end in
          Some (map_set "metadata" (VMap m2) existing)
      | _ => None
      end
  | _ => Some existing
  end.

(** [UpdateProxyRule] for the rule [name] of the path and the decoded
    request body [updates] (read, checked and decoded after the fetch). *)
Definition UpdateProxyRule (st : State) (name : string) (updates : obj) : State * outcome :=
  if String.eqb name "" then (st, BadRequest)
  else
    let '(st1, existing) := store_get st proxyRulesNamespace name in
    match existing with
    | None => (st1, NotFound name)
    | Some l =>
        let st2 := match assoc "spec" updates with
                   | Some spec => heap_write st1 l (map_set "spec" spec (deref st1 l))
                   | None => st1 end in
        match merge_metadata (deref st2 l) updates with
        | None => (st2, Panic)
        | Some merged =>
            let st3 := heap_write st2 l merged in
            let errs := ValidateProxyRuleUpdate (deref st3 l) in
            if Nat.ltb 0 (length errs) then (st3, ValidationFailed errs)
            else
              match checkDuplicateDomain st3 (deref st3 l) name with
              | Some (d, owner) => (st3, DomainConflict d owner)
              | None =>
                  let '(st4, result) := store_update st3 proxyRulesNamespace (deref st3 l) in
                  match result with
                  | None => (st4, StoreError)
                  | Some l' => (st4, Updated (deref st4 l'))
                  end
              end
        end
    end.

(** [Delete] of the in-memory client: [None] is the "not found" error
    (the state is then unchanged). *)
Definition store_delete (st : State) (ns name : string) : option State :=
  match resources st !! ns with
  | None => None
  | Some m =>
      match m !! name with
      | None => None
      | Some _ => Some (set_resources st (<[ns := delete name m]> (resources st)))
      end
  end.

(** [GetProxyRules]. *)
Definition GetProxyRules (st : State) (method : string) : State * Response :=
  if negb (String.eqb method "GET") then (st, RError 405 "Method not allowed")
  else (st, RList 200 (store_list st proxyRulesNamespace)).

(** [GetProxyRule]. *)
Definition GetProxyRule (st : State) (method path : string) : State * Response :=
  if negb (String.eqb method "GET") then (st, RError 405 "Method not allowed")
  else
    let parts := path_parts path in
    if negb (Nat.eqb (length parts) 3) then (st, RError 400 msg_invalid_path)
    else
      let name := nth 2 parts "" in
      if String.eqb name "" then (st, RError 400 "Rule name is required")
      else
        let '(st1, rule) := store_get st proxyRulesNamespace name in
        match rule with
        | None =>
            (st1, RError 404 (String.append "Error fetching proxyrule: resource "
                                (String.append name " not found")))
        | Some l => (st1, RObject 200 (deref st1 l))
        end.

(** [DeleteProxyRule]. *)
Definition DeleteProxyRule (st : State) (method path : string) : State * Response :=
  if negb (String.eqb method "DELETE") then (st, RError 405 "Method not allowed")
  else
    let parts := path_parts path in
    if negb (Nat.eqb (length parts) 3) then (st, RError 400 msg_invalid_path)
    else
      let name := nth 2 parts "" in
      if String.eqb name "" then (st, RError 400 "Rule name is required")
      else
        match store_delete st proxyRulesNamespace name with
        | None =>
            (st, RError 404 (String.append "Error deleting proxyrule: resource "
                               (String.append name " not found")))
        | Some st1 => (st1, RStatus 204)
        end.

End Engine.

(** The request checks of [UpdateProxyRule] before the JSON decoding:
    method, path, [ValidateJSONRequest], the fetch of the existing rule
    (a copy, as [Get] returns), reading the body through the
    [MaxBytesReader] and [ValidateRequestBody].  [inl] is the response
    sent, [inr] the existing rule's copy and the body. *)
Definition UpdateProxyRule_readBody (st : State) (method path contentType : string)
    (body : list Byte.byte) : State * (Response + (N * list Byte.byte)) :=
  if negb (String.eqb method "PUT") then (st, inl (RError 405 "Method not allowed"))
  else
    let parts := path_parts path in
    if negb (Nat.eqb (length parts) 3) then (st, inl (RError 400 msg_invalid_path))
    else
      let name := nth 2 parts "" in
      if String.eqb name "" then (st, inl (RError 400 "Rule name is required"))
      else
        match ValidateJSONRequest method contentType with
        | Some e => (st, inl (HandleValidationError (ErrValidation e)))
        | None =>
            let '(st1, existing) := store_get st proxyRulesNamespace name in
            match existing with
            | None =>
                (st1, inl (RError 404 (String.append "Error fetching existing proxyrule: resource "
                                         (String.append name " not found"))))
            | Some l =>
                match ReadAll_MaxBytesReader MaxRequestBodySize body with
                | inl err => (st1, inl (HandleValidationError err))
                | inr b =>
                    match ValidateRequestBody b with
                    | Some e => (st1, inl (HandleValidationError (ErrValidation e)))
                    | None => (st1, inr (l, b))
                    end
                end
            end
        end.

(** ** Test helpers of internal/testutil *)

Definition NewFakeDynamicClient : State := mkState ∅ 0%N ∅.

Definition NewProxyRule (name domain destination : string) (port : Z) : obj :=
  [("apiVersion", VString "bausteln.io/v1");
   ("kind", VString "Proxyrule");
   ("metadata", VMap [("name", VString name); ("namespace", VString "proxy-rules")]);
   ("spec", VMap ([("domain", VString domain); ("destination", VString destination);
                   ("tls", VBool true)]
                  ++ (if 0 <? port then [("port", VInt port)] else [])))].

Definition SeedProxyRule (st : State) (name namespace domain destination : string) (port : Z)
    : State :=
  let st0 := set_resources st (<[namespace := ns_map st namespace]> (resources st)) in
  let o := SetNamespace (NewProxyRule name domain destination port) namespace in
  let '(st1, l) := alloc st0 o in
  set_resources st1 (<[namespace := <[name := l]> (ns_map st1 namespace)]> (resources st1)).

(** ** Vocabulary of the properties *)

Definition port_field (e : ValidationError) : bool := String.eqb (Field e) "spec.port".

Definition dest_field (e : ValidationError) : bool := String.prefix "spec.destination" (Field e).

Fixpoint decimal_from (acc : Z) (g : string) : Z :=
  match g with
  | EmptyString => acc
  | String c g' => decimal_from (acc * 10 + digit_val c) g'
  end.

Definition decimal (g : string) : Z := decimal_from 0 g.

(** A dotted-decimal group as [net.ParseIP] accepts it: at most 255, no
    leading zero. *)
Definition octet_ok (g : string) : bool :=
  (decimal g <=? 255) && (Nat.eqb (String.length g) 1 || negb (String.prefix "0" g)).

Definition is_failure (r : outcome) : bool :=
  match r with Created _ | Updated _ => false | _ => true end.

Definition spec_domain (o : obj) : nested string := NestedString o ["spec"; "domain"].

(** The records of a namespace, by name. *)
Definition ns_view (st : State) (ns : string) : gmap string obj :=
  fmap (deref st) (ns_map st ns).

(** Every record is stored under its own [metadata.name]. *)
Definition names_match (st : State) : Prop :=
  forall ns m name l, resources st !! ns = Some m -> m !! name = Some l ->
  GetName (deref st l) = name.

(** No two live rules of the namespace share a [spec.domain]. *)
Definition unique_domains (st : State) : Prop :=
  forall n1 n2 o1 o2 d,
  ns_view st proxyRulesNamespace !! n1 = Some o1 ->
  ns_view st proxyRulesNamespace !! n2 = Some o2 ->
  spec_domain o1 = NFound d -> spec_domain o2 = NFound d -> n1 = n2.

(** The store is well formed and every record sits under its own name. *)
Definition store_inv (st : State) : Prop := store_wf st /\ names_match st.

(** A piece of a dotted name that is not empty. *)
Definition nonempty_piece (p : string) : bool := negb (String.eqb p "").

(** The spec's valid domain (spec.md: "a DNS name (<=253 chars, valid
    label/dot grammar, no leading/trailing/consecutive dots);
    case-insensitive", with [label = [a-z0-9]([-a-z0-9]*[a-z0-9])?]
    matched case-insensitively): this follows the spec's words and is
    compared with [validateDomain] by C8. *)
Definition spec_alnum (c : ascii) : bool := is_digit c || is_lower c || is_upper c.

Definition spec_label_char (c : ascii) : bool := spec_alnum c || Ascii.eqb c "-".

Definition spec_label (l : string) : bool :=
  match l with
  | EmptyString => false
  | String c _ =>
      spec_alnum c && string_all spec_label_char l
      && match string_last l with Some x => spec_alnum x | None => false end
  end.

Definition spec_valid_domain (d : string) : bool :=
  Nat.leb (String.length d) 253 && forallb spec_label (split_on "." d).

(** Every pointer held by the store is below [b]. *)
Definition refs_below (st : State) (b : N) : Prop :=
  forall ns m name l, resources st !! ns = Some m -> m !! name = Some l -> (l < b)%N.

(** [st'] holds the same pointers as [st] and agrees with it on the
    cells below [b]. *)
Definition frames (b : N) (st st' : State) : Prop :=
  resources st' = resources st /\ forall l, (l < b)%N -> heap st' !! l = heap st !! l.

(** ** Fixtures *)

(** A client with no IPv6 support in its address parser: none of the
    fixtures below uses an IPv6 literal. *)
Definition no_ipv6 (s : string) : bool := false.

(** The fake client seeded with rule1 for example.com. *)
Definition example_store : State :=
  SeedProxyRule NewFakeDynamicClient "rule1" proxyRulesNamespace "example.com" "10.0.0.50" 3000.

(** The record [example_store] holds for rule1. *)
Definition example_rule : obj :=
  SetNamespace (NewProxyRule "rule1" "example.com" "10.0.0.50" 3000) proxyRulesNamespace.

(** A record with a valid domain and destination and the given port value. *)
Definition port_spec (port : value) : obj :=
  [("domain", VString "example.com"); ("destination", VString "10.0.0.50"); ("port", port)].

Definition port_request (port : value) : obj :=
  [("metadata", VMap [("name", VString "rule1")]); ("spec", VMap (port_spec port))].

(** A decoded create body with a name, a domain and a destination. *)
Definition create_request (name domain destination : string) : obj :=
  [("metadata", VMap [("name", VString name)]);
   ("spec", VMap [("domain", VString domain); ("destination", VString destination)])].

(** A decoded update body replacing the spec. *)
Definition update_request (domain destination : string) : obj :=
  [("spec", VMap [("domain", VString domain); ("destination", VString destination)])].

(** ** Properties *)

Section Properties.

Variable parseIPv6 : string -> bool.

(** Tactic: case on every boolean test in the goal. *)
Ltac split_ifs :=
  repeat match goal with
         | |- context [if ?b then _ else _] => destruct b
         end.

(** ** Field names of the validators *)

Lemma validateDomain_fields (d : string) :
  Forall (fun e => Field e = "spec.domain") (validateDomain d).
Proof. unfold validateDomain; rewrite !Forall_app; split_ifs; repeat constructor. Qed.

Lemma validateDestination_fields (d : string) :
  Forall (fun e => Field e = "spec.destination") (validateDestination parseIPv6 d).
Proof. unfold validateDestination; split_ifs; rewrite ?Forall_app; split_ifs; repeat constructor. Qed.

Lemma validateDestinationsFrom_fields (i : nat) (l : list string) :
  Forall (fun e => exists x, Field e = String.append "spec.destinations[" x)
    (validateDestinationsFrom parseIPv6 i l).
Proof.
  revert i; induction l as [|d l IH]; intros i; simpl; [constructor|].
  apply Forall_app; split; [|apply IH].
  destruct (String.eqb d "").
  - constructor; [eexists; reflexivity | constructor].
  - apply List.Forall_forall; intros e He; apply in_map_iff in He as (e' & <- & _).
    eexists; reflexivity.
Qed.

Lemma validateSpecPort_fields (v : value) :
  Forall (fun e => Field e = "spec.port") (validateSpecPort v).
Proof.
  unfold validateSpecPort, validatePort; destruct v; simpl; split_ifs; repeat constructor.
Qed.

Lemma validateSpecTLS_fields (v : value) :
  Forall (fun e => Field e = "spec.tls") (validateSpecTLS v).
Proof. destruct v; simpl; repeat constructor. Qed.

Lemma validateSpecAnnotations_fields (v : value) :
  Forall (fun e => Field e = "spec.annotations"
                   \/ exists k, Field e = String.append "spec.annotations." k)
    (validateSpecAnnotations v).
Proof.
  destruct v as [| | | | | |kvs]; simpl; try (constructor; [left; reflexivity | constructor]).
  induction kvs as [|[k v] kvs IH]; simpl; [constructor|].
  apply Forall_app; split; [|exact IH].
  destruct v; simpl; first [apply List.Forall_nil | apply List.Forall_cons; [right; eexists; reflexivity | apply List.Forall_nil]].
Qed.

Lemma filter_none (f : ValidationError -> bool) (P : ValidationError -> Prop) l :
  Forall P l -> (forall e, P e -> f e = false) -> List.filter f l = [].
Proof.
  intros HF Hf; induction HF as [|e l He _ IH]; simpl; [reflexivity|].
  rewrite (Hf e He); exact IH.
Qed.

Lemma filter_all (f : ValidationError -> bool) (P : ValidationError -> Prop) l :
  Forall P l -> (forall e, P e -> f e = true) -> List.filter f l = l.
Proof.
  intros HF Hf; induction HF as [|e l He _ IH]; simpl; [reflexivity|].
  rewrite (Hf e He), IH; reflexivity.
Qed.

(** Closes [List.filter f X = []] / [= X] from the field lemmas. *)
Ltac field_case :=
  intros ? Hf; cbv beta in Hf;
  repeat match type of Hf with
         | _ \/ _ => destruct Hf as [Hf|Hf]
         | @ex _ _ => destruct Hf as [? Hf]
         end;
  unfold port_field, dest_field; rewrite Hf; reflexivity.

Ltac fields_tac :=
  first
  [ reflexivity
  | eapply filter_none; [apply validateDomain_fields | field_case]
  | eapply filter_none; [apply validateDestination_fields | field_case]
  | eapply filter_none; [apply validateDestinationsFrom_fields | field_case]
  | eapply filter_none; [apply validateSpecPort_fields | field_case]
  | eapply filter_none; [apply validateSpecTLS_fields | field_case]
  | eapply filter_none; [apply validateSpecAnnotations_fields | field_case]
  | eapply filter_all; [apply validateSpecPort_fields | field_case] ].

Lemma filter_port_validateDomain d : List.filter port_field (validateDomain d) = [].
Proof. fields_tac. Qed.
Lemma filter_port_validateDestination d :
  List.filter port_field (validateDestination parseIPv6 d) = [].
Proof. fields_tac. Qed.
Lemma filter_port_validateDestinationsFrom i l :
  List.filter port_field (validateDestinationsFrom parseIPv6 i l) = [].
Proof. fields_tac. Qed.
Lemma filter_port_validateSpecTLS v : List.filter port_field (validateSpecTLS v) = [].
Proof. fields_tac. Qed.
Lemma filter_port_validateSpecAnnotations v :
  List.filter port_field (validateSpecAnnotations v) = [].
Proof. fields_tac. Qed.
Lemma filter_port_validateSpecPort v :
  List.filter port_field (validateSpecPort v) = validateSpecPort v.
Proof. fields_tac. Qed.

Lemma validateSpec_port_filter (o spec : obj) (portVal : value) :
  NestedMap o ["spec"] = NFound spec -> assoc "port" spec = Some portVal ->
  List.filter port_field (validateSpec parseIPv6 o) = validateSpecPort portVal.
Proof.
  intros Hspec Hport; unfold validateSpec; rewrite Hspec, Hport; cbv zeta.
  rewrite !List.filter_app, filter_port_validateSpecPort.
  destruct (NestedString spec ["domain"]) as [d| |];
    [destruct (String.eqb d ""); [|rewrite filter_port_validateDomain] | |];
  (destruct (NestedString spec ["destination"]) as [x| |];
    [destruct (String.eqb x ""); [|rewrite filter_port_validateDestination] | |]);
  (destruct (NestedStringSlice spec ["destinations"]) as [l| |];
    [destruct (Nat.ltb 0 (length l)); [rewrite filter_port_validateDestinationsFrom|] | |]);
  (destruct (assoc "tls" spec); [rewrite filter_port_validateSpecTLS|]);
  (destruct (assoc "annotations" spec); [rewrite filter_port_validateSpecAnnotations|]);
  split_ifs; simpl; rewrite ?app_nil_r; reflexivity.
Qed.

(** ** C4 *)

(** C4: the [spec.port] errors of structural validation for a present
    port value, exactly: an int64 p gets the single range error iff p is
    outside [1, 65535]; a float64 is truncated toward zero to an integer
    t, and gets the single range error iff t is not 0 and outside
    [1, 65535], while a float64 that truncates to 0 (0.0, which is how
    JSON decodes a port of 0, or -0.5) gets no port error at all: the
    inner [ok] of the float64 type assertion shadows the outer one, so
    the guard [ok || port != 0] skips [validatePort]; a value of any
    other type gets the single error "port must be an integer". *)
Theorem validateSpec_port_rule (o spec : obj) (portVal : value) :
  NestedMap o ["spec"] = NFound spec -> assoc "port" spec = Some portVal ->
  List.filter port_field (validateSpec parseIPv6 o) =
  match portVal with
  | VInt p =>
      if (1 <=? p) && (p <=? 65535) then []
      else [mkVE "spec.port" "port must be between 1 and 65535"]
  | VFloat m e =>
      if int64_of_float64 m e =? 0 then []
      else if (1 <=? int64_of_float64 m e) && (int64_of_float64 m e <=? 65535) then []
      else [mkVE "spec.port" "port must be between 1 and 65535"]
  | _ => [mkVE "spec.port" "port must be an integer"]
  end.
Proof.
  intros Hspec Hport; rewrite (validateSpec_port_filter o spec portVal Hspec Hport).
  unfold validateSpecPort, validatePort, minPort, maxPort.
  destruct portVal as [| |p|m e| | |]; try reflexivity.
  - cbn [orb app].
    destruct (Z.ltb_spec p 1), (Z.gtb_spec p 65535), (Z.leb_spec 1 p), (Z.leb_spec p 65535);
      cbn [orb andb]; try reflexivity; lia.
  - destruct (Z.eqb_spec (int64_of_float64 m e) 0) as [Ht|Ht].
    { rewrite Ht; reflexivity. }
    cbn [orb negb app].
    destruct (Z.ltb_spec (int64_of_float64 m e) 1), (Z.gtb_spec (int64_of_float64 m e) 65535),
             (Z.leb_spec 1 (int64_of_float64 m e)), (Z.leb_spec (int64_of_float64 m e) 65535);
      cbn [orb andb]; try reflexivity; lia.
Qed.

(** ** C9 *)

Lemma NestedString_single (m : obj) (k : string) :
  NestedString m [k] =
  match assoc k m with
  | Some (VString s) => NFound s
  | Some _ => NError
  | None => NMissing
  end.
Proof.
  unfold NestedString, NestedFieldNoCopy; simpl; destruct (assoc k m) as [[]|]; reflexivity.
Qed.

Lemma NestedStringSlice_single (m : obj) (k : string) :
  NestedStringSlice m [k] =
  match assoc k m with
  | Some (VList l) => match all_strings l with Some r => NFound r | None => NError end
  | Some _ => NError
  | None => NMissing
  end.
Proof.
  unfold NestedStringSlice, NestedFieldNoCopy; simpl; destruct (assoc k m) as [[]|]; reflexivity.
Qed.

Lemma filter_dest_validateDomain d : List.filter dest_field (validateDomain d) = [].
Proof. fields_tac. Qed.
Lemma filter_dest_validateSpecPort v : List.filter dest_field (validateSpecPort v) = [].
Proof. fields_tac. Qed.
Lemma filter_dest_validateSpecTLS v : List.filter dest_field (validateSpecTLS v) = [].
Proof. fields_tac. Qed.
Lemma filter_dest_validateSpecAnnotations v :
  List.filter dest_field (validateSpecAnnotations v) = [].
Proof. fields_tac. Qed.

(** C9: a [spec.destination] equal to the empty string, with
    [destinations] absent or an empty list, counts as absent: among the
    errors on the destination fields there is exactly the "either
    destination or destinations is required" error, and no syntax error
    of the empty destination. *)
Theorem validateSpec_empty_destination (o spec : obj) :
  NestedMap o ["spec"] = NFound spec ->
  assoc "destination" spec = Some (VString "") ->
  assoc "destinations" spec = None \/ assoc "destinations" spec = Some (VList []) ->
  List.filter dest_field (validateSpec parseIPv6 o)
  = [mkVE "spec.destination/destinations" msg_dest_required].
Proof.
  intros Hspec Hdest Hdests; unfold validateSpec; rewrite Hspec; cbv zeta.
  rewrite NestedString_single with (k := "destination"), Hdest.
  rewrite NestedStringSlice_single.
  assert (Hmissing : match assoc "destinations" spec with
                     | Some (VList l) =>
                         match all_strings l with Some r => NFound r | None => NError end
                     | Some _ => NError
                     | None => NMissing
                     end = NMissing \/
                     match assoc "destinations" spec with
                     | Some (VList l) =>
                         match all_strings l with Some r => NFound r | None => NError end
                     | Some _ => NError
                     | None => NMissing
                     end = NFound []).
  { destruct Hdests as [H|H]; rewrite H; [left|right]; reflexivity. }
  destruct Hmissing as [Hm|Hm]; rewrite Hm;
  rewrite !List.filter_app;
  destruct (NestedString spec ["domain"]) as [d| |];
    try (destruct (String.eqb d ""); [|rewrite filter_dest_validateDomain]);
  (destruct (assoc "port" spec); [rewrite filter_dest_validateSpecPort|]);
  (destruct (assoc "tls" spec); [rewrite filter_dest_validateSpecTLS|]);
  (destruct (assoc "annotations" spec); [rewrite filter_dest_validateSpecAnnotations|]);
  reflexivity.
Qed.

(** ** Letter maps that keep dots *)

Lemma ascii_lower_upper (c : ascii) : ascii_lower (ascii_upper c) = ascii_lower c.
Proof. destruct c as [[] [] [] [] [] [] [] []]; reflexivity. Qed.

Lemma ascii_upper_dot (c : ascii) : ascii_upper c = "."%char <-> c = "."%char.
Proof.
  destruct c as [[] [] [] [] [] [] [] []]; split; intros H; try reflexivity; discriminate.
Qed.

Lemma length_string_map (f : ascii -> ascii) (s : string) :
  String.length (string_map f s) = String.length s.
Proof. induction s; simpl; congruence. Qed.

Lemma ToLower_ToUpper (s : string) : strings_ToLower (strings_ToUpper s) = strings_ToLower s.
Proof.
  unfold strings_ToLower, strings_ToUpper; induction s as [|c s IH]; simpl;
    [reflexivity | rewrite ascii_lower_upper, IH; reflexivity].
Qed.

Lemma prefix_cons (a b : ascii) (p s : string) :
  String.prefix (String a p) (String b s) = if ascii_dec a b then String.prefix p s else false.
Proof. reflexivity. Qed.

Lemma HasSuffix_cons (c : ascii) (s p : string) :
  strings_HasSuffix (String c s) p
  = if String.eqb (String c s) p then true else strings_HasSuffix s p.
Proof. reflexivity. Qed.

Lemma Contains_cons (c : ascii) (s p : string) :
  strings_Contains (String c s) p = String.prefix p (String c s) || strings_Contains s p.
Proof. reflexivity. Qed.

Section DotPreserving.

Variable f : ascii -> ascii.
Hypothesis Hf : forall c, f c = "."%char <-> c = "."%char.

Lemma prefix_map_dots (p s : string) :
  string_all (fun a => Ascii.eqb a ".") p = true ->
  String.prefix p (string_map f s) = String.prefix p s.
Proof.
  revert s; induction p as [|a p IH]; intros s Hp; [destruct s; reflexivity|].
  simpl in Hp; apply andb_prop in Hp as [Ha Hp]; apply Ascii.eqb_eq in Ha; subst a.
  destruct s as [|c s]; [reflexivity|].
  change (string_map f (String c s)) with (String (f c) (string_map f s)).
  rewrite !prefix_cons.
  destruct (ascii_dec "." (f c)) as [E|E], (ascii_dec "." c) as [E'|E'].
  - apply IH; exact Hp.
  - exfalso; apply E'; symmetry; apply Hf; symmetry; exact E.
  - exfalso; apply E; symmetry; apply Hf; symmetry; exact E'.
  - reflexivity.
Qed.

Lemma HasPrefix_map_dot (s : string) :
  strings_HasPrefix (string_map f s) "." = strings_HasPrefix s ".".
Proof. apply prefix_map_dots; reflexivity. Qed.

Lemma eqb_map_dot (s : string) : String.eqb (string_map f s) "." = String.eqb s ".".
Proof.
  destruct (String.eqb_spec (string_map f s) ".") as [E|E],
           (String.eqb_spec s ".") as [E'|E']; try reflexivity; exfalso.
  - destruct s as [|c [|c' s]]; try discriminate E.
    simpl in E; injection E as Ec; apply (proj1 (Hf c)) in Ec; rewrite Ec in E'; apply E'; reflexivity.
  - apply E; subst s; simpl; f_equal; apply (proj2 (Hf _)); reflexivity.
Qed.

Lemma HasSuffix_map_dot (s : string) :
  strings_HasSuffix (string_map f s) "." = strings_HasSuffix s ".".
Proof.
  induction s as [|c s IH]; [reflexivity|].
  change (string_map f (String c s)) with (String (f c) (string_map f s)).
  rewrite !HasSuffix_cons, <- (eqb_map_dot (String c s)), IH; reflexivity.
Qed.

Lemma Contains_map_dots (s : string) :
  strings_Contains (string_map f s) ".." = strings_Contains s "..".
Proof.
  induction s as [|c s IH]; [reflexivity|].
  change (string_map f (String c s)) with (String (f c) (string_map f s)).
  rewrite !Contains_cons, <- (prefix_map_dots ".." (String c s)) by reflexivity.
  rewrite IH; reflexivity.
Qed.

End DotPreserving.

(** ** C5 *)

Lemma append_cons (c : ascii) (s r : string) : String c s +:+ r = String c (s +:+ r).
Proof. reflexivity. Qed.

Lemma append_nil_l (r : string) : "" +:+ r = r.
Proof. reflexivity. Qed.

Lemma digit_val_bounds (c : ascii) : is_digit c = true -> 0 <= digit_val c <= 9.
Proof.
  unfold is_digit, digit_val; intros H.
  apply andb_prop in H as [H1 H2]; apply Nat.leb_le in H1, H2.
  change (nat_of_ascii "0") with 48%nat in H1.
  change (nat_of_ascii "9") with 57%nat in H2.
  lia.
Qed.

Lemma digit_val_zero (c : ascii) : is_digit c = true -> (digit_val c = 0 <-> c = "0"%char).
Proof.
  intros _; split; [|intros ->; reflexivity].
  unfold digit_val; intros H.
  assert (E : nat_of_ascii c = 48%nat) by lia.
  rewrite <- (ascii_nat_embedding c), E; reflexivity.
Qed.

Lemma is_digit_seps (c : ascii) : is_digit c = true ->
  Ascii.eqb c "." = false /\ Ascii.eqb c ":" = false /\ Ascii.eqb c "%" = false.
Proof.
  intros H.
  destruct (Ascii.eqb_spec c "."); [subst; discriminate|].
  destruct (Ascii.eqb_spec c ":"); [subst; discriminate|].
  destruct (Ascii.eqb_spec c "%"); [subst; discriminate|].
  auto.
Qed.

Lemma decimal_from_ge (acc : Z) (g : string) :
  0 <= acc -> string_all is_digit g = true -> acc <= decimal_from acc g.
Proof.
  revert acc; induction g as [|c g IH]; intros acc Ha Hg; [reflexivity|].
  cbn [string_all] in Hg; apply andb_prop in Hg as [Hc Hg].
  pose proof (digit_val_bounds c Hc).
  cbn [decimal_from].
  specialize (IH (acc * 10 + digit_val c) ltac:(lia) Hg); lia.
Qed.

(** The separator after a digit run, or the end of the string. *)
Lemma parse_rest_indep (rest : string) (c c0 : ascii) (x pos dl dl' : Z) (fields : list Z) :
  is_digit c = true -> is_digit c0 = true ->
  (rest = "" \/ exists r, rest = String "." r) ->
  parseIPv4Fields rest (Some c) x pos dl fields = parseIPv4Fields rest (Some c0) x pos dl' fields.
Proof.
  intros Hc Hc0 [->|[r ->]]; [reflexivity|].
  cbn [parseIPv4Fields].
  destruct (is_digit_seps c Hc) as [-> _], (is_digit_seps c0 Hc0) as [-> _].
  reflexivity.
Qed.

(** The digits after the first two of a group: no leading-zero test any
    more, and the running value only grows. *)
Lemma run_digits (g rest : string) (c0 : ascii) (v pos dl : Z) (fields : list Z) :
  string_all is_digit g = true -> is_digit c0 = true -> 0 <= v <= 255 -> 2 <= dl ->
  (rest = "" \/ exists r, rest = String "." r) ->
  parseIPv4Fields (g +:+ rest) (Some c0) v pos dl fields =
  if decimal_from v g <=? 255
  then parseIPv4Fields rest (Some c0) (decimal_from v g) pos dl fields else None.
Proof.
  revert c0 v dl; induction g as [|c g IH]; intros c0 v dl Hg Hc0 Hv Hdl Hr.
  - rewrite ?append_cons, ?append_nil_l; cbn [decimal_from].
    rewrite (proj2 (Z.leb_le v 255)) by lia; reflexivity.
  - cbn [string_all] in Hg; apply andb_prop in Hg as [Hc Hg].
    pose proof (digit_val_bounds c Hc).
    rewrite ?append_cons, ?append_nil_l; cbn [parseIPv4Fields decimal_from].
    rewrite Hc, (proj2 (Z.eqb_neq dl 1)) by lia; cbn [andb].
    destruct (Z.gtb_spec (v * 10 + digit_val c) 255) as [Hgt|Hle].
    + pose proof (decimal_from_ge (v * 10 + digit_val c) g ltac:(lia) Hg).
      rewrite (proj2 (Z.leb_gt _ 255)) by lia; reflexivity.
    + rewrite (IH c (v * 10 + digit_val c) (dl + 1)) by (auto; lia).
      destruct (decimal_from (v * 10 + digit_val c) g <=? 255); [|reflexivity].
      apply parse_rest_indep; auto.
Qed.

(** One dotted-decimal group of [parseIPv4Fields]: accepted exactly when
    [octet_ok]; the state after it is the one of any digit. *)
Lemma parse_group (g rest : string) (prev : option ascii) (pos : Z) (fields : list Z) :
  digit_group g = true ->
  (rest = "" \/ exists r, rest = String "." r) ->
  parseIPv4Fields (g +:+ rest) prev 0 pos 0 fields =
  if octet_ok g then parseIPv4Fields rest (Some "0"%char) (decimal g) pos 2 fields else None.
Proof.
  unfold digit_group; intros Hg Hr; apply andb_prop in Hg as [Hne Hg].
  destruct g as [|c g]; [discriminate|].
  cbn [string_all] in Hg; apply andb_prop in Hg as [Hc Hg].
  pose proof (digit_val_bounds c Hc).
  rewrite ?append_cons, ?append_nil_l; cbn [parseIPv4Fields]; rewrite Hc.
  change ((0 =? 1) && (0 =? 0)) with false; cbv iota.
  destruct (Z.gtb_spec (0 * 10 + digit_val c) 255); [lia|].
  unfold octet_ok, decimal.
  destruct g as [|c2 g].
  - rewrite ?append_cons, ?append_nil_l; cbn [decimal_from String.length].
    rewrite (proj2 (Z.leb_le _ 255)) by lia; cbn [Nat.eqb orb andb].
    apply parse_rest_indep; auto.
  - cbn [string_all] in Hg; apply andb_prop in Hg as [Hc2 Hg].
    pose proof (digit_val_bounds c2 Hc2).
    rewrite ?append_cons, ?append_nil_l; cbn [parseIPv4Fields decimal_from String.length Nat.eqb orb].
    rewrite Hc2, prefix_cons.
    change ((0 + 1 =? 1)) with true; cbn [andb].
    destruct (Z.eqb_spec (0 * 10 + digit_val c) 0) as [Hz|Hz].
    + assert (c = "0"%char) as -> by (apply (digit_val_zero c Hc); lia).
      rewrite andb_false_r; reflexivity.
    + destruct (ascii_dec "0" c) as [E|_].
      { subst c; exfalso; apply Hz; reflexivity. }
      cbn [negb]; rewrite andb_true_r.
      destruct (Z.gtb_spec ((0 * 10 + digit_val c) * 10 + digit_val c2) 255); [lia|].
      rewrite run_digits by (auto; lia).
      destruct (_ <=? 255); [|reflexivity].
      apply parse_rest_indep; auto.
Qed.

Lemma append_empty_r (s : string) : s +:+ "" = s.
Proof. induction s as [|c s IH]; [reflexivity|]; rewrite append_cons, IH; reflexivity. Qed.

Lemma parse_group_end (g : string) (prev : option ascii) (fields : list Z) :
  digit_group g = true ->
  parseIPv4Fields g prev 0 3 0 fields = if octet_ok g then Some (fields ++ [decimal g]) else None.
Proof.
  intros Hg; rewrite <- (append_empty_r g) at 1.
  rewrite parse_group by auto; destruct (octet_ok g); reflexivity.
Qed.

Lemma parse_dot (r : string) (x pos : Z) (fields : list Z) :
  r <> "" -> pos <> 3 ->
  parseIPv4Fields (String "." r) (Some "0"%char) x pos 2 fields =
  parseIPv4Fields r (Some "."%char) 0 (pos + 1) 0 (fields ++ [x]).
Proof.
  intros Hr Hp; cbn [parseIPv4Fields].
  change (Ascii.eqb "0" ".") with false; cbn [orb].
  destruct (String.eqb_spec r ""); [contradiction|].
  rewrite (proj2 (Z.eqb_neq pos 3)) by exact Hp; reflexivity.
Qed.

Lemma split_on_group (g r : string) :
  string_all is_digit g = true -> split_on "." (g +:+ String "." r) = g :: split_on "." r.
Proof.
  induction g as [|c g IH]; intros Hg; [reflexivity|].
  cbn [string_all] in Hg; apply andb_prop in Hg as [Hc Hg].
  rewrite ?append_cons, ?append_nil_l; cbn [split_on]; rewrite IH by exact Hg.
  destruct (is_digit_seps c Hc) as [-> _]; reflexivity.
Qed.

Lemma split_on_digits (g : string) :
  string_all is_digit g = true -> split_on "." g = [g].
Proof.
  induction g as [|c g IH]; intros Hg; [reflexivity|].
  cbn [string_all] in Hg; apply andb_prop in Hg as [Hc Hg].
  cbn [split_on]; rewrite IH by exact Hg.
  destruct (is_digit_seps c Hc) as [-> _]; reflexivity.
Qed.

Lemma first_sep_group (g r : string) :
  string_all is_digit g = true -> first_sep (g +:+ String "." r) = Some "."%char.
Proof.
  induction g as [|c g IH]; intros Hg; [reflexivity|].
  cbn [string_all] in Hg; apply andb_prop in Hg as [Hc Hg].
  rewrite ?append_cons, ?append_nil_l; cbn [first_sep].
  destruct (is_digit_seps c Hc) as (-> & -> & ->); apply IH, Hg.
Qed.

Lemma digit_group_digits (g : string) : digit_group g = true -> string_all is_digit g = true.
Proof. unfold digit_group; intros H; apply andb_prop in H; tauto. Qed.

Lemma digit_group_cons (g r : string) : digit_group g = true -> g +:+ r <> "".
Proof. unfold digit_group; destruct g; [discriminate|]; discriminate. Qed.

Lemma digit_group_ne (g : string) : digit_group g = true -> g <> "".
Proof. unfold digit_group; destruct g; [discriminate|]; discriminate. Qed.

(** C5: on four dot-separated runs of decimal digits, [validateDestination]
    returns no error when every group is an accepted octet (at most 255,
    no leading zero), and otherwise exactly the invalid-IPv4 error (and
    none of the DNS or dot checks). *)
Theorem validateDestination_dotted_quad (a b c d : string) :
  forallb digit_group [a; b; c; d] = true ->
  validateDestination parseIPv6 (a +:+ "." +:+ b +:+ "." +:+ c +:+ "." +:+ d)
  = if forallb octet_ok [a; b; c; d] then [] else [mkVE "spec.destination" msg_invalid_ipv4].
Proof.
  intros Hall.
  cbn [forallb] in Hall.
  apply andb_prop in Hall as [Ha Hall]; apply andb_prop in Hall as [Hb Hall];
  apply andb_prop in Hall as [Hc Hall]; apply andb_prop in Hall as [Hd _].
  rewrite ?append_cons, ?append_nil_l.
  unfold validateDestination, ipv4Pattern_Match, ParseIP, parseIPv4.
  rewrite !split_on_group, split_on_digits by (apply digit_group_digits; assumption).
  cbn [forallb]; rewrite Ha, Hb, Hc, Hd; cbn [andb].
  rewrite first_sep_group by (apply digit_group_digits; assumption).
  change (Ascii.eqb "." ".") with true; cbv iota.
  rewrite parse_group by (auto; right; eexists; reflexivity).
  destruct (octet_ok a); [|reflexivity].
  rewrite parse_dot
    by first [apply digit_group_cons; assumption | apply digit_group_ne; assumption | lia].
  rewrite parse_group by (auto; right; eexists; reflexivity).
  destruct (octet_ok b); [|reflexivity].
  rewrite parse_dot
    by first [apply digit_group_cons; assumption | apply digit_group_ne; assumption | lia].
  rewrite parse_group by (auto; right; eexists; reflexivity).
  destruct (octet_ok c); [|reflexivity].
  rewrite parse_dot
    by first [apply digit_group_cons; assumption | apply digit_group_ne; assumption | lia].
  change (0 + 1 + 1 + 1) with 3.
  rewrite parse_group_end by exact Hd.
  destruct (octet_ok d); reflexivity.
Qed.

(** ** The store *)

Lemma frames_refl (b : N) (st : State) : frames b st st.
Proof. split; reflexivity. Qed.

Lemma frames_trans (b : N) (st st1 st2 : State) :
  frames b st st1 -> frames b st1 st2 -> frames b st st2.
Proof.
  intros [R1 H1] [R2 H2]; split; [congruence|].
  intros l Hl; rewrite H2, H1 by exact Hl; reflexivity.
Qed.

Lemma frame_view (b : N) (st st' : State) :
  refs_below st b -> frames b st st' -> store_view st' = store_view st.
Proof.
  intros Hb [Hr Hh]; unfold store_view; rewrite Hr.
  apply map_fmap_ext; intros ns m Hm.
  apply map_fmap_ext; intros name l Hl.
  unfold deref; rewrite (Hh l (Hb ns m name l Hm Hl)); reflexivity.
Qed.

Lemma frame_list (b : N) (st st' : State) (ns : string) :
  refs_below st b -> frames b st st' -> store_list st' ns = store_list st ns.
Proof.
  intros Hb [Hr Hh]; unfold store_list, ns_map; rewrite Hr.
  destruct (resources st !! ns) as [m|] eqn:Hm; cbn [default].
  - apply map_ext_in; intros [name l] Hin.
    apply list_elem_of_In, elem_of_map_to_list in Hin.
    unfold deref; cbn [snd]; rewrite (Hh l (Hb ns m name l Hm Hin)); reflexivity.
  - rewrite map_to_list_empty; reflexivity.
Qed.

Lemma heap_write_frames (b : N) (st : State) (l : N) (o : obj) :
  (b <= l)%N -> frames b st (heap_write st l o).
Proof.
  intros Hl; split; [reflexivity|]; intros l' Hl'; cbn.
  apply lookup_insert_ne; lia.
Qed.

Lemma store_get_frames (b : N) (st : State) (ns name : string) :
  (b <= next st)%N -> frames b st (store_get st ns name).1.
Proof.
  intros Hb; unfold store_get.
  destruct (resources st !! ns) as [m|]; [destruct (m !! name) as [l|]|];
    cbn [fst]; try apply frames_refl.
  split; [reflexivity|]; intros l' Hl'; cbn.
  apply lookup_insert_ne; lia.
Qed.

Lemma store_get_some (st st1 : State) (ns name : string) (l : N) :
  store_get st ns name = (st1, Some l) ->
  l = next st /\ is_Some (ns_map st ns !! name).
Proof.
  unfold store_get, ns_map.
  destruct (resources st !! ns) as [m|]; [|discriminate]; cbn [default].
  destruct (m !! name) as [l0|] eqn:E; [|discriminate].
  intros H; injection H as _ <-; split; [reflexivity | eexists; exact E].
Qed.

Lemma store_get_none (st st1 : State) (ns name : string) :
  store_get st ns name = (st1, None) -> st1 = st /\ ns_map st ns !! name = None.
Proof.
  unfold store_get, ns_map.
  destruct (resources st !! ns) as [m|]; cbn [default].
  - destruct (m !! name) as [l0|] eqn:E; [discriminate|].
    intros H; injection H as <-; auto.
  - intros H; injection H as <-; split; [reflexivity | apply lookup_empty].
Qed.

(** [Create] first makes sure the namespace has a map. *)
Lemma ns_map_touch (st : State) (ns : string) :
  ns_map (set_resources st (<[ns := ns_map st ns]> (resources st))) ns = ns_map st ns.
Proof. unfold ns_map at 1, set_resources; cbn [resources]; rewrite lookup_insert_eq; reflexivity. Qed.

Lemma touch_id (st : State) (ns name : string) (l : N) :
  ns_map st ns !! name = Some l -> <[ns := ns_map st ns]> (resources st) = resources st.
Proof.
  unfold ns_map; destruct (resources st !! ns) as [m|] eqn:E; cbn [default].
  - intros _; apply insert_id; exact E.
  - rewrite lookup_empty; discriminate.
Qed.

Lemma store_create_none (b : N) (st st' : State) (ns : string) (o : obj) :
  store_create st ns o = (st', None) -> frames b st st'.
Proof.
  unfold store_create; cbv zeta; rewrite ns_map_touch.
  destruct (ns_map st ns !! GetName o) as [l|] eqn:Hl.
  - intros H; injection H as <-; split; [cbn; eapply touch_id; exact Hl | reflexivity].
  - unfold alloc; discriminate.
Qed.

Lemma store_create_some (st st' : State) (ns : string) (o : obj) (l : N) :
  store_create st ns o = (st', Some l) -> deref st' l = o.
Proof.
  unfold store_create; cbv zeta; rewrite ns_map_touch.
  destruct (ns_map st ns !! GetName o); [discriminate|].
  unfold alloc, set_resources; intros H; injection H as <- <-.
  unfold deref; cbn; rewrite lookup_insert_eq; reflexivity.
Qed.

Lemma store_update_none (st st' : State) (ns : string) (o : obj) :
  store_update st ns o = (st', None) -> st' = st.
Proof.
  unfold store_update; cbv zeta.
  destruct (resources st !! ns) as [m|]; [destruct (m !! GetName o)|].
  - unfold alloc; discriminate.
  - intros H; injection H as <-; reflexivity.
  - intros H; injection H as <-; reflexivity.
Qed.

Lemma NewFakeDynamicClient_wf : store_wf NewFakeDynamicClient.
Proof.
  intros ns m name l H; unfold NewFakeDynamicClient in H; cbn [resources] in H.
  rewrite lookup_empty in H; discriminate.
Qed.

Lemma SeedProxyRule_wf (st : State) (name namespace domain destination : string) (port : Z) :
  store_wf st -> store_wf (SeedProxyRule st name namespace domain destination port).
Proof.
  unfold SeedProxyRule, alloc, set_resources, store_wf; cbn.
  intros Hwf ns m name' l Hm Hl.
  apply lookup_insert_Some in Hm as [[<- <-]|[Hne Hm]].
  - apply lookup_insert_Some in Hl as [[<- <-]|[_ Hl]]; [lia|].
    unfold ns_map in Hl; cbn in Hl; rewrite lookup_insert_eq in Hl; cbn [default] in Hl.
    unfold ns_map in Hl; destruct (resources st !! namespace) as [m0|] eqn:E; cbn [default id] in Hl.
    + pose proof (Hwf namespace m0 name' l E Hl); lia.
    + rewrite lookup_empty in Hl; discriminate.
  - rewrite lookup_insert_ne in Hm by exact Hne.
    pose proof (Hwf ns m name' l Hm Hl); lia.
Qed.

Ltac next_item IH :=
  let H := fresh in
  intros H; destruct (IH H) as [Hd [it [Hi Hrest]]];
  split; [exact Hd|]; exists it; split; [right; exact Hi | exact Hrest].

(** ** The conflict checker *)

Lemma cdd_items_sound (domain excl : string) (items : list obj) (d' owner : string) :
  checkDuplicateDomainItems domain excl items = Some (d', owner) ->
  d' = domain /\
  exists item, In item items /\ GetName item = owner /\
    NestedString item ["spec"; "domain"] = NFound domain /\
    ~ (excl <> "" /\ GetName item = excl).
Proof.
  induction items as [|item items IH]; cbn [checkDuplicateDomainItems]; [discriminate|].
  destruct (negb (String.eqb excl "") && String.eqb (GetName item) excl) eqn:Ex;
    [next_item IH|].
  destruct (NestedString item ["spec"; "domain"]) as [ed| |] eqn:En; [|next_item IH|next_item IH].
  destruct (String.eqb_spec ed domain) as [<-|_]; [|next_item IH].
  intros H; injection H as <- <-; split; [reflexivity|].
  exists item; split; [left; reflexivity|]; split; [reflexivity|]; split; [exact En|].
  intros [Hne Hn]; apply String.eqb_neq in Hne.
  rewrite Hne, Hn, String.eqb_refl in Ex; discriminate.
Qed.

Lemma cdd_items_complete (domain excl : string) (items : list obj) (item : obj) :
  In item items -> NestedString item ["spec"; "domain"] = NFound domain ->
  ~ (excl <> "" /\ GetName item = excl) ->
  is_Some (checkDuplicateDomainItems domain excl items).
Proof.
  induction items as [|it items IH]; intros Hin Hd Hx; [destruct Hin|].
  cbn [checkDuplicateDomainItems].
  destruct (negb (String.eqb excl "") && String.eqb (GetName it) excl) eqn:Ex.
  - destruct Hin as [<-|Hin]; [|apply IH; assumption].
    exfalso; apply Hx; apply andb_prop in Ex as [E1 E2].
    apply negb_true_iff, String.eqb_neq in E1; apply String.eqb_eq in E2; auto.
  - destruct Hin as [<-|Hin].
    + rewrite Hd, String.eqb_refl; eexists; reflexivity.
    + destruct (NestedString it ["spec"; "domain"]) as [ed| |];
        [destruct (String.eqb ed domain); [eexists; reflexivity|]|..];
        apply IH; assumption.
Qed.

Lemma checkDuplicateDomain_iff (st : State) (o : obj) (excl d : string) :
  spec_domain o = NFound d -> d <> "" ->
  (is_Some (checkDuplicateDomain st o excl) <->
   exists item, In item (store_list st proxyRulesNamespace) /\
     ~ (excl <> "" /\ GetName item = excl) /\ spec_domain item = NFound d).
Proof.
  unfold checkDuplicateDomain, spec_domain; intros Hd Hne; rewrite Hd.
  rewrite (proj2 (String.eqb_neq d "") Hne); split.
  - intros [[d' owner] H].
    destruct (cdd_items_sound _ _ _ _ _ H) as [_ [item (Hi & _ & Hn & Hx)]].
    exists item; auto.
  - intros [item (Hi & Hx & Hn)]; eapply cdd_items_complete; eassumption.
Qed.

Lemma checkDuplicateDomain_some (st : State) (o : obj) (excl d owner : string) :
  checkDuplicateDomain st o excl = Some (d, owner) ->
  spec_domain o = NFound d /\
  exists item, In item (store_list st proxyRulesNamespace) /\ GetName item = owner /\
    spec_domain item = NFound d /\ ~ (excl <> "" /\ GetName item = excl).
Proof.
  unfold checkDuplicateDomain, spec_domain.
  destruct (NestedString o ["spec"; "domain"]) as [x| |]; try discriminate.
  destruct (String.eqb x ""); [discriminate|].
  intros H; destruct (cdd_items_sound _ _ _ _ _ H) as [-> Hi]; auto.
Qed.

(** ** Defaulting and the spec *)

Lemma assoc_map_set_ne (k k' : string) (v : value) (m : obj) :
  k <> k' -> assoc k (map_set k' v m) = assoc k m.
Proof.
  intros Hne; induction m as [|[k0 v0] m IH]; cbn [map_set assoc].
  - rewrite (proj2 (String.eqb_neq k k') Hne); reflexivity.
  - destruct (String.eqb_spec k' k0) as [<-|_]; cbn [assoc].
    + rewrite (proj2 (String.eqb_neq k k') Hne); reflexivity.
    + destruct (String.eqb k k0); [reflexivity | exact IH].
Qed.

Lemma assoc_set_nested_ne (k f : string) (fs : list string) (v : value) (o : obj) :
  k <> f -> assoc k (set_nested o (f :: fs) v) = assoc k o.
Proof.
  intros Hne; destruct fs as [|f' fs]; cbn [set_nested].
  - apply assoc_map_set_ne; exact Hne.
  - destruct (assoc f o) as [v0|]; [destruct v0|]; try reflexivity;
      apply assoc_map_set_ne; exact Hne.
Qed.

Lemma create_defaults_spec (o : obj) : assoc "spec" (create_defaults o) = assoc "spec" o.
Proof.
  assert (Hset : forall o' f fs v, f <> "spec" ->
            assoc "spec" (set_nested o' (f :: fs) v) = assoc "spec" o')
    by (intros; apply assoc_set_nested_ne; congruence).
  unfold create_defaults, SetAPIVersion, SetKind, SetNamespace.
  repeat match goal with |- context [if ?b then _ else _] => destruct b end;
    rewrite ?Hset by discriminate; reflexivity.
Qed.

Lemma spec_domain_eq (o o' : obj) : assoc "spec" o = assoc "spec" o' -> spec_domain o = spec_domain o'.
Proof.
  intros H; unfold spec_domain, NestedString, NestedFieldNoCopy; cbn [nested_field_go].
  rewrite H; reflexivity.
Qed.

Lemma validateSpec_empty_domain (o : obj) :
  spec_domain o = NFound "" -> validateSpec parseIPv6 o <> [].
Proof.
  unfold spec_domain, NestedString, NestedFieldNoCopy; cbn [nested_field_go].
  destruct (assoc "spec" o) as [v|] eqn:Hs; [|discriminate].
  destruct v as [| | | | | |m]; try discriminate.
  intros H; change (NestedString m ["domain"] = NFound "") in H.
  assert (HM : NestedMap o ["spec"] = NFound m)
    by (unfold NestedMap, NestedFieldNoCopy; cbn [nested_field_go]; rewrite Hs; reflexivity).
  unfold validateSpec; rewrite HM; cbv zeta; rewrite H.
  intros E; discriminate E.
Qed.

(** ** The handlers on the store *)

Lemma store_wf_below (st : State) : store_wf st -> refs_below st (next st).
Proof. exact (fun H => H). Qed.

Lemma CreateProxyRule_frames (st st' : State) (o0 : obj) (r : outcome) :
  CreateProxyRule parseIPv6 st o0 = (st', r) -> is_failure r = true -> frames (next st) st st'.
Proof.
  unfold CreateProxyRule; cbv zeta; intros Hc Hf.
  destruct (Nat.ltb 0 _); [injection Hc as <- <-; apply frames_refl|].
  destruct (store_get st proxyRulesNamespace (GetName (create_defaults o0))) as [st1 ex] eqn:Eg.
  pose proof (store_get_frames (next st) st proxyRulesNamespace (GetName (create_defaults o0))
                (N.le_refl _)) as F1.
  rewrite Eg in F1; cbn [fst] in F1.
  destruct ex as [l|]; [injection Hc as <- <-; exact F1|].
  destruct (checkDuplicateDomain st1 (create_defaults o0) "") as [[d owner]|];
    [injection Hc as <- <-; exact F1|].
  destruct (store_create st1 proxyRulesNamespace (create_defaults o0)) as [st2 [l|]] eqn:Ec;
    injection Hc as <- <-; [discriminate Hf|].
  eapply frames_trans; [exact F1 | eapply store_create_none; exact Ec].
Qed.

(** The working copy of [UpdateProxyRule] is the fresh cell [next st]:
    up to its last step the handler only writes there. *)
Lemma UpdateProxyRule_frames (st st' : State) (name : string) (updates : obj) (r : outcome) :
  UpdateProxyRule parseIPv6 st name updates = (st', r) ->
  is_failure r = true -> frames (next st) st st'.
Proof.
  unfold UpdateProxyRule; intros Hc Hf.
  destruct (String.eqb name ""); [injection Hc as <- <-; apply frames_refl|].
  destruct (store_get st proxyRulesNamespace name) as [st1 ex] eqn:Eg.
  pose proof (store_get_frames (next st) st proxyRulesNamespace name (N.le_refl _)) as F1.
  rewrite Eg in F1; cbn [fst] in F1.
  destruct ex as [l|]; [|injection Hc as <- <-; exact F1].
  destruct (store_get_some _ _ _ _ _ Eg) as [-> _].
  match type of Hc with
  | context [merge_metadata (deref ?s2 _) _] =>
      assert (F2 : frames (next st) st s2)
        by (destruct (assoc "spec" updates);
            [eapply frames_trans; [exact F1 | apply heap_write_frames; lia] | exact F1]);
      destruct (merge_metadata (deref s2 (next st)) updates) as [merged|];
        [|injection Hc as <- <-; exact F2];
      assert (F3 : frames (next st) st (heap_write s2 (next st) merged))
        by (eapply frames_trans; [exact F2 | apply heap_write_frames; lia]);
      cbv zeta in Hc;
      destruct (Nat.ltb 0 _); [injection Hc as <- <-; exact F3|];
      destruct (checkDuplicateDomain _ _ name) as [[d owner]|];
        [injection Hc as <- <-; exact F3|];
      destruct (store_update _ _ _) as [st4 [l'|]] eqn:Eu;
        injection Hc as <- <-; [discriminate Hf|];
      apply store_update_none in Eu; subst st4; exact F3
  end.
Qed.

(** The conflict reported by [UpdateProxyRule] names an owner other than
    the rule itself, which holds the candidate domain. *)
Lemma UpdateProxyRule_conflict (st st' : State) (name : string) (updates : obj) (d owner : string) :
  store_wf st ->
  UpdateProxyRule parseIPv6 st name updates = (st', DomainConflict d owner) ->
  owner <> name /\
  exists item, In item (store_list st proxyRulesNamespace) /\ GetName item = owner /\
    spec_domain item = NFound d.
Proof.
  intros Hwf; unfold UpdateProxyRule; intros Hc.
  destruct (String.eqb_spec name "") as [_|Hne]; [discriminate|].
  destruct (store_get st proxyRulesNamespace name) as [st1 ex] eqn:Eg.
  pose proof (store_get_frames (next st) st proxyRulesNamespace name (N.le_refl _)) as F1.
  rewrite Eg in F1; cbn [fst] in F1.
  destruct ex as [l|]; [|discriminate].
  destruct (store_get_some _ _ _ _ _ Eg) as [-> _].
  match type of Hc with
  | context [merge_metadata (deref ?s2 _) _] =>
      assert (F2 : frames (next st) st s2)
        by (destruct (assoc "spec" updates);
            [eapply frames_trans; [exact F1 | apply heap_write_frames; lia] | exact F1]);
      destruct (merge_metadata (deref s2 (next st)) updates) as [merged|]; [|discriminate];
      assert (F3 : frames (next st) st (heap_write s2 (next st) merged))
        by (eapply frames_trans; [exact F2 | apply heap_write_frames; lia]);
      cbv zeta in Hc;
      destruct (Nat.ltb 0 _); [discriminate|];
      destruct (checkDuplicateDomain _ _ name) as [[d' owner']|] eqn:Ecd;
        [|destruct (store_update _ _ _) as [st4 [l'|]]; discriminate];
      injection Hc as _ <- <-;
      destruct (checkDuplicateDomain_some _ _ _ _ _ Ecd) as [_ [item (Hi & Ho & Hd & Hx)]];
      rewrite (frame_list _ _ _ _ (store_wf_below st Hwf) F3) in Hi
  end.
  split; [intros <-; apply Hx; auto|].
  exists item; auto.
Qed.

(** ** C6 *)

(** C6: on a well-formed store, every failing Create or Update
    (validation failure, name or domain conflict, not found, and also a
    store error, a bad request or the panic of the metadata merge) leaves
    what the store holds unchanged: the update works on a copy. *)
Theorem failed_requests_preserve_store (st : State) :
  store_wf st ->
  (forall o0 st' r, CreateProxyRule parseIPv6 st o0 = (st', r) -> is_failure r = true ->
     store_view st' = store_view st) /\
  (forall name updates st' r, UpdateProxyRule parseIPv6 st name updates = (st', r) ->
     is_failure r = true -> store_view st' = store_view st).
Proof.
  intros Hwf; split.
  - intros o0 st' r Hc Hf.
    exact (frame_view _ _ _ (store_wf_below st Hwf) (CreateProxyRule_frames st st' o0 r Hc Hf)).
  - intros name updates st' r Hc Hf.
    exact (frame_view _ _ _ (store_wf_below st Hwf)
             (UpdateProxyRule_frames st st' name updates r Hc Hf)).
Qed.

(** ** C1 *)

(** C1 (as amended): a Create whose candidate carries the domain [d] of a
    live record never stores it and leaves the store unchanged; it fails
    with [ValidationFailed] when the (defaulted) record is invalid, else
    with [NameConflict] when its name is taken, else with
    [DomainConflict d owner] for a live record [owner] holding [d]. *)
Theorem CreateProxyRule_duplicate_domain (st st' : State) (o0 item : obj) (d : string) (r : outcome) :
  store_wf st ->
  spec_domain o0 = NFound d ->
  In item (store_list st proxyRulesNamespace) -> spec_domain item = NFound d ->
  CreateProxyRule parseIPv6 st o0 = (st', r) ->
  store_view st' = store_view st /\
  ((ValidateProxyRuleCreate parseIPv6 (create_defaults o0) <> [] /\
    r = ValidationFailed (ValidateProxyRuleCreate parseIPv6 (create_defaults o0)))
   \/ (ValidateProxyRuleCreate parseIPv6 (create_defaults o0) = [] /\
       is_Some (ns_map st proxyRulesNamespace !! GetName (create_defaults o0)) /\
       r = NameConflict (GetName (create_defaults o0)))
   \/ (ValidateProxyRuleCreate parseIPv6 (create_defaults o0) = [] /\
       ns_map st proxyRulesNamespace !! GetName (create_defaults o0) = None /\
       exists owner owner_item, r = DomainConflict d owner /\
         In owner_item (store_list st proxyRulesNamespace) /\
         GetName owner_item = owner /\ spec_domain owner_item = NFound d)).
Proof.
  intros Hwf Hd Hin Hdi Hc.
  assert (Hd' : spec_domain (create_defaults o0) = NFound d)
    by (rewrite (spec_domain_eq _ _ (create_defaults_spec o0)); exact Hd).
  unfold CreateProxyRule in Hc; cbv zeta in Hc.
  destruct (Nat.ltb 0 (length (ValidateProxyRuleCreate parseIPv6 (create_defaults o0)))) eqn:El.
  - injection Hc as <- <-; split; [reflexivity|]; left.
    split; [intros E; rewrite E in El; discriminate | reflexivity].
  - assert (Ev : ValidateProxyRuleCreate parseIPv6 (create_defaults o0) = [])
      by (destruct (ValidateProxyRuleCreate parseIPv6 (create_defaults o0)); [reflexivity|discriminate]).
    destruct (store_get st proxyRulesNamespace (GetName (create_defaults o0))) as [st1 ex] eqn:Eg.
    pose proof (store_get_frames (next st) st proxyRulesNamespace (GetName (create_defaults o0))
                  (N.le_refl _)) as F1.
    rewrite Eg in F1; cbn [fst] in F1.
    destruct ex as [l|].
    + injection Hc as <- <-; split; [exact (frame_view _ _ _ (store_wf_below st Hwf) F1)|].
      right; left; destruct (store_get_some _ _ _ _ _ Eg) as [_ Hs]; auto.
    + destruct (store_get_none _ _ _ _ Eg) as [-> Hn].
      destruct (checkDuplicateDomain st (create_defaults o0) "") as [[d' owner]|] eqn:Ecd.
      * injection Hc as <- <-; split; [reflexivity|]; right; right.
        split; [exact Ev|]; split; [exact Hn|].
        destruct (checkDuplicateDomain_some _ _ _ _ _ Ecd) as [Hd'' [it (Hi & Ho & Hdom & _)]].
        rewrite Hd' in Hd''; injection Hd'' as <-.
        exists owner, it; auto.
      * exfalso; destruct (String.eqb_spec d "") as [->|Hne].
        -- apply (validateSpec_empty_domain (create_defaults o0) Hd').
           unfold ValidateProxyRuleCreate in Ev; apply app_eq_nil in Ev; tauto.
        -- destruct (proj2 (checkDuplicateDomain_iff st (create_defaults o0) "" d Hd' Hne))
             as [x Hx]; [|rewrite Ecd in Hx; discriminate].
           exists item; split; [exact Hin|]; split; [intros [H _]; apply H; reflexivity | exact Hdi].
Qed.

(** ** C2 *)

(** C2 (as amended): the conflict checker compares domains by exact
    string equality: a candidate with a non-empty domain [d] conflicts
    iff some live record, other than the excluded rule, has exactly the
    domain [d] (no case folding). *)
Theorem checkDuplicateDomain_exact (st : State) (o : obj) (excludeName d : string) :
  spec_domain o = NFound d -> d <> "" ->
  (is_Some (checkDuplicateDomain st o excludeName) <->
   exists item, In item (store_list st proxyRulesNamespace) /\
     ~ (excludeName <> "" /\ GetName item = excludeName) /\ spec_domain item = NFound d).
Proof. exact (checkDuplicateDomain_iff st o excludeName d). Qed.

(** ** C3 *)

(** C3 (as amended): Create stores the spec of the request as it came:
    the record returned by a successful Create has the request's spec
    (no [tls] default is added). *)
Theorem CreateProxyRule_spec_unchanged (st st' : State) (o0 o : obj) :
  CreateProxyRule parseIPv6 st o0 = (st', Created o) -> assoc "spec" o = assoc "spec" o0.
Proof.
  unfold CreateProxyRule; cbv zeta; intros Hc.
  destruct (Nat.ltb 0 _); [discriminate|].
  destruct (store_get st _ _) as [st1 [l|]]; [discriminate|].
  destruct (checkDuplicateDomain st1 _ "") as [[d owner]|]; [discriminate|].
  destruct (store_create st1 proxyRulesNamespace (create_defaults o0)) as [st2 [l|]] eqn:Ec;
    [|discriminate].
  injection Hc as _ <-.
  rewrite (store_create_some _ _ _ _ _ Ec); apply create_defaults_spec.
Qed.

(** ** C7 *)

(** C7: an Update of the rule [name] does not fail with a conflict on a
    domain [d] that, among the live records, only [name] itself holds:
    the check excludes the rule's own pre-image. *)
Theorem UpdateProxyRule_no_self_conflict (st st' : State) (name : string) (updates : obj)
    (d owner : string) :
  store_wf st ->
  (forall item, In item (store_list st proxyRulesNamespace) ->
     spec_domain item = NFound d -> GetName item = name) ->
  UpdateProxyRule parseIPv6 st name updates <> (st', DomainConflict d owner).
Proof.
  intros Hwf Hall Hc.
  destruct (UpdateProxyRule_conflict st st' name updates d owner Hwf Hc)
    as [Hne [item (Hi & Ho & Hd)]].
  apply Hne; rewrite <- Ho; apply Hall; assumption.
Qed.

End Properties.

(** * Witnesses and counterexamples *)

(** C1: rule2 for example.com, held by rule1, is refused with a domain
    conflict and the store is untouched. *)
Lemma CreateProxyRule_duplicate_domain_witness :
  store_view (CreateProxyRule no_ipv6 example_store
                (create_request "rule2" "example.com" "10.0.0.60")).1
  = store_view example_store.
Proof.
  refine (proj1 (CreateProxyRule_duplicate_domain no_ipv6 example_store _
                   (create_request "rule2" "example.com" "10.0.0.60") example_rule
                   "example.com" _ _ _ _ _ _)).
  - exact (SeedProxyRule_wf _ _ _ _ _ _ NewFakeDynamicClient_wf).
  - reflexivity.
  - vm_compute; left; reflexivity.
  - reflexivity.
  - reflexivity.
Defined.

(** C1: a create of rule2 for the domain of rule1 with a missing
    destination fails validation, not with a domain conflict. *)
Lemma CreateProxyRule_duplicate_domain_counterexample :
  spec_domain (create_request "rule2" "example.com" "") = NFound "example.com" /\
  In example_rule (store_list example_store proxyRulesNamespace) /\
  spec_domain example_rule = NFound "example.com" /\
  (CreateProxyRule no_ipv6 example_store (create_request "rule2" "example.com" "")).2
  = ValidationFailed [mkVE "spec.destination/destinations" msg_dest_required].
Proof. split; [reflexivity|]; split; [vm_compute; left; reflexivity|]; split; vm_compute; reflexivity. Qed.

(** C2: with rule1 on example.com, a candidate for example.com conflicts. *)
Lemma checkDuplicateDomain_exact_witness :
  is_Some (checkDuplicateDomain example_store (create_request "rule2" "example.com" "10.0.0.60") "").
Proof.
  apply (proj2 (checkDuplicateDomain_exact example_store
                  (create_request "rule2" "example.com" "10.0.0.60") "" "example.com"
                  eq_refl ltac:(discriminate))).
  exists example_rule; split; [vm_compute; left; reflexivity|].
  split; [intros [H _]; apply H; reflexivity | reflexivity].
Defined.

(** C2: with rule1 on example.com, rule2 for Example.com is created. *)
Lemma checkDuplicateDomain_exact_counterexample :
  In example_rule (store_list example_store proxyRulesNamespace) /\
  spec_domain example_rule = NFound "example.com" /\
  is_failure (CreateProxyRule no_ipv6 example_store
                (create_request "rule2" "Example.com" "10.0.0.60")).2 = false.
Proof. split; [vm_compute; left; reflexivity|]; split; vm_compute; reflexivity. Qed.

(** C3: a create on the empty client stores the request's spec. *)
Lemma CreateProxyRule_spec_unchanged_witness :
  match CreateProxyRule no_ipv6 NewFakeDynamicClient
          (create_request "rule1" "example.com" "10.0.0.50") with
  | (_, Created o) =>
      assoc "spec" o = assoc "spec" (create_request "rule1" "example.com" "10.0.0.50")
  | _ => False
  end.
Proof.
  destruct (CreateProxyRule no_ipv6 NewFakeDynamicClient
              (create_request "rule1" "example.com" "10.0.0.50")) as [st' r] eqn:E.
  destruct r as [o| | | | | | | |]; try (vm_compute in E; discriminate E).
  exact (CreateProxyRule_spec_unchanged no_ipv6 NewFakeDynamicClient st'
           (create_request "rule1" "example.com" "10.0.0.50") o E).
Defined.

(** C3: a request without [spec.tls] is stored without it. *)
Lemma CreateProxyRule_spec_unchanged_counterexample :
  NestedFieldNoCopy (create_request "rule1" "example.com" "10.0.0.50") ["spec"; "tls"] = NMissing /\
  match (CreateProxyRule no_ipv6 NewFakeDynamicClient
           (create_request "rule1" "example.com" "10.0.0.50")).2 with
  | Created o => NestedFieldNoCopy o ["spec"; "tls"] = NMissing
  | _ => False
  end.
Proof. split; vm_compute; reflexivity. Qed.

(** C4: the int64 port 0 gets the single range error. *)
Lemma validateSpec_port_rule_witness :
  List.filter port_field (validateSpec no_ipv6 (port_request (VInt 0)))
  = [mkVE "spec.port" "port must be between 1 and 65535"].
Proof.
  refine (validateSpec_port_rule no_ipv6 (port_request (VInt 0)) (port_spec (VInt 0)) (VInt 0) _ _);
    reflexivity.
Defined.

(** C4: a create request whose JSON port is 0 (decoded as the float64
    0.0 = 0 * 2^0) gets no port error and is created, while [validatePort]
    rejects the port 0 it stands for. *)
Lemma validateSpec_port_rule_counterexample :
  List.filter port_field (validateSpec no_ipv6 (port_request (VFloat 0 0))) = [] /\
  validatePort 0 = [mkVE "spec.port" "port must be between 1 and 65535"] /\
  (CreateProxyRule no_ipv6 NewFakeDynamicClient (port_request (VFloat 0 0))).2
  = Created (create_defaults (port_request (VFloat 0 0))).
Proof. split; [|split]; vm_compute; reflexivity. Qed.

(** C5: 192.168.1.256 is rejected, 10.0.0.50 accepted. *)
Lemma validateDestination_dotted_quad_witness :
  validateDestination no_ipv6 ("192" +:+ "." +:+ "168" +:+ "." +:+ "1" +:+ "." +:+ "256")
  = [mkVE "spec.destination" msg_invalid_ipv4] /\
  validateDestination no_ipv6 ("10" +:+ "." +:+ "0" +:+ "." +:+ "0" +:+ "." +:+ "50") = [].
Proof.
  split.
  - refine (validateDestination_dotted_quad no_ipv6 "192" "168" "1" "256" _); reflexivity.
  - refine (validateDestination_dotted_quad no_ipv6 "10" "0" "0" "50" _); reflexivity.
Defined.

(** C5: 01.2.3.4 has no group above 255 and is rejected all the same. *)
Lemma validateDestination_dotted_quad_counterexample :
  forallb digit_group ["01"; "2"; "3"; "4"] = true /\
  forallb (fun g => decimal g <=? 255) ["01"; "2"; "3"; "4"] = true /\
  validateDestination no_ipv6 "01.2.3.4" = [mkVE "spec.destination" msg_invalid_ipv4].
Proof. split; [|split]; vm_compute; reflexivity. Qed.

(** C6: a create that fails validation leaves [example_store] as it was. *)
Lemma failed_requests_preserve_store_witness :
  store_view (CreateProxyRule no_ipv6 example_store (create_request "rule2" "example.com" "")).1
  = store_view example_store.
Proof.
  apply (proj1 (failed_requests_preserve_store no_ipv6 example_store
                  (SeedProxyRule_wf _ _ _ _ _ _ NewFakeDynamicClient_wf))
           (create_request "rule2" "example.com" "") _
           (CreateProxyRule no_ipv6 example_store (create_request "rule2" "example.com" "")).2).
  - reflexivity.
  - reflexivity.
Defined.

(** [example_store] lists rule1 only. *)
Lemma example_store_list : store_list example_store proxyRulesNamespace = [example_rule].
Proof. vm_compute; reflexivity. Qed.

(** C7: rule1 re-submitting its own domain does not conflict. *)
Lemma UpdateProxyRule_no_self_conflict_witness :
  UpdateProxyRule no_ipv6 example_store "rule1" (update_request "example.com" "10.0.0.60")
  <> (example_store, DomainConflict "example.com" "rule1").
Proof.
  apply (UpdateProxyRule_no_self_conflict no_ipv6 example_store example_store "rule1"
           (update_request "example.com" "10.0.0.60") "example.com" "rule1").
  - exact (SeedProxyRule_wf _ _ _ _ _ _ NewFakeDynamicClient_wf).
  - intros item Hin _; rewrite example_store_list in Hin.
    destruct Hin as [<-|[]]; vm_compute; reflexivity.
Defined.

(** C9: a record with an empty destination and no destinations. *)
Lemma validateSpec_empty_destination_witness :
  List.filter dest_field (validateSpec no_ipv6 (create_request "rule1" "example.com" ""))
  = [mkVE "spec.destination/destinations" msg_dest_required].
Proof.
  apply (validateSpec_empty_destination no_ipv6 (create_request "rule1" "example.com" "")
           [("domain", VString "example.com"); ("destination", VString "")]).
  - reflexivity.
  - reflexivity.
  - left; reflexivity.
Defined.

(** * Further properties of the handlers and validators *)

Section Extras.
Variable parseIPv6 : string -> bool.

Lemma ascii_lower_dot (c : ascii) : ascii_lower c = "."%char <-> c = "."%char.
Proof.
  destruct c as [[] [] [] [] [] [] [] []]; split; intros H; try reflexivity; discriminate.
Qed.

Lemma split_on_dot_cons (s : string) :
  split_on "." (String "." s) = "" :: split_on "." s.
Proof. reflexivity. Qed.

Lemma split_on_other_cons (a : ascii) (s : string) :
  a <> "."%char ->
  split_on "." (String a s) =
  match split_on "." s with x :: r => String a x :: r | [] => [String a ""] end.
Proof.
  intros Ha; cbn [split_on].
  destruct (Ascii.eqb_spec a "."); [contradiction | reflexivity].
Qed.

Lemma tl_pieces_no_dots (s : string) :
  forallb nonempty_piece (tl (split_on "." s)) = true ->
  strings_Contains s ".." = false /\ strings_HasSuffix s "." = false.
Proof.
  induction s as [|a s IH]; [intros; split; reflexivity|].
  destruct (ascii_dec a ".") as [->|Ha].
  - rewrite split_on_dot_cons; cbn [tl]; intros H.
    assert (Ht : forallb nonempty_piece (tl (split_on "." s)) = true).
    { destruct (split_on "." s) as [|x r]; [reflexivity|].
      cbn [forallb] in H; apply andb_prop in H as [_ H]; exact H. }
    destruct (IH Ht) as [IHc IHs].
    rewrite Contains_cons, HasSuffix_cons, IHc, IHs.
    destruct s as [|b s].
    + cbn in H; discriminate H.
    + destruct (ascii_dec b ".") as [->|Hb].
      * rewrite split_on_dot_cons in H; cbn in H; discriminate H.
      * split; [|reflexivity].
        rewrite orb_false_r.
        change (String.prefix ".." (String "." (String b s))) with (String.prefix "." (String b s)).
        rewrite prefix_cons; destruct (ascii_dec "." b) as [E|_]; [congruence | reflexivity].
  - rewrite split_on_other_cons by exact Ha; intros H.
    assert (Ht : forallb nonempty_piece (tl (split_on "." s)) = true)
      by (destruct (split_on "." s); [reflexivity | exact H]).
    destruct (IH Ht) as [IHc IHs].
    rewrite Contains_cons, HasSuffix_cons, IHc, IHs.
    split.
    + rewrite prefix_cons; destruct (ascii_dec "." a) as [E|_]; [congruence | reflexivity].
    + destruct (String.eqb_spec (String a s) ".") as [E|_]; [injection E as E; congruence|reflexivity].
Qed.

Lemma pieces_no_dots (s : string) :
  forallb nonempty_piece (split_on "." s) = true ->
  strings_HasPrefix s "." = false /\ strings_HasSuffix s "." = false /\
  strings_Contains s ".." = false.
Proof.
  intros H.
  assert (Ht : forallb nonempty_piece (tl (split_on "." s)) = true)
    by (destruct (split_on "." s) as [|x r]; [reflexivity|];
        cbn [forallb] in H; apply andb_prop in H as [_ H]; exact H).
  destruct (tl_pieces_no_dots s Ht) as [Hc Hs]; split; [|split; assumption].
  destruct s as [|a s]; [reflexivity|].
  destruct (ascii_dec a ".") as [->|Ha].
  - rewrite split_on_dot_cons in H; discriminate H.
  - unfold strings_HasPrefix; rewrite prefix_cons.
    destruct (ascii_dec "." a) as [E|_]; [congruence|reflexivity].
Qed.

Lemma dnsName_no_dots (s : string) :
  dnsNameRegex_Match s = true ->
  strings_HasPrefix s "." = false /\ strings_HasSuffix s "." = false /\
  strings_Contains s ".." = false.
Proof.
  intros H; apply pieces_no_dots.
  unfold dnsNameRegex_Match in H; rewrite forallb_forall in H.
  apply forallb_forall; intros p Hp; specialize (H p Hp).
  destruct p; [discriminate H | reflexivity].
Qed.

Lemma dnsName_lower_no_dots (s : string) :
  dnsNameRegex_Match (strings_ToLower s) = true ->
  strings_HasPrefix s "." = false /\ strings_HasSuffix s "." = false /\
  strings_Contains s ".." = false.
Proof.
  intros H; destruct (dnsName_no_dots _ H) as (H1 & H2 & H3); unfold strings_ToLower in *.
  rewrite HasPrefix_map_dot in H1 by exact ascii_lower_dot.
  rewrite HasSuffix_map_dot in H2 by exact ascii_lower_dot.
  rewrite Contains_map_dots in H3 by exact ascii_lower_dot.
  auto.
Qed.

(** X1: [validateMetadata] reports nothing exactly when the name is at most 253 characters and matches the Kubernetes name pattern; an empty name gives the single error "name is required". *)
Theorem validateMetadata_result (o : obj) :
  (validateMetadata o = [] <->
   slen (GetName o) <= maxNameLength /\ k8sNameRegex_Match (GetName o) = true) /\
  (GetName o = "" -> validateMetadata o = [mkVE "metadata.name" "name is required"]).
Proof.
  unfold validateMetadata.
  destruct (String.eqb_spec (GetName o) "") as [E|E].
  - rewrite E; split; [|reflexivity].
    split; [discriminate | intros [_ H]; discriminate H].
  - split; [|contradiction].
    unfold maxNameLength.
    destruct (Z.gtb_spec (slen (GetName o)) 253) as [Hl|Hl];
      destruct (k8sNameRegex_Match (GetName o)); cbn;
      split; intros H; try discriminate H;
      try (match type of H with _ /\ _ => destruct H as [H1 H2] end; try discriminate H2; lia); split; (reflexivity || lia).
Qed.

(** X2: [validateDomain] reports nothing exactly when the domain is at most 253 characters and its lower-cased form matches the DNS name pattern. *)
Theorem validateDomain_ok (d : string) :
  validateDomain d = [] <->
  slen d <= maxDomainLength /\ dnsNameRegex_Match (strings_ToLower d) = true.
Proof.
  unfold validateDomain, maxDomainLength; split.
  - intros H; apply app_eq_nil in H as [H1 H]; apply app_eq_nil in H as [H2 _].
    split.
    + destruct (Z.gtb_spec (slen d) 253); [discriminate H1 | lia].
    + destruct (dnsNameRegex_Match (strings_ToLower d)); [reflexivity | discriminate H2].
  - intros [Hl Hr].
    destruct (dnsName_lower_no_dots d Hr) as (H1 & H2 & H3).
    rewrite Hr, H1, H2, H3.
    destruct (Z.gtb_spec (slen d) 253); [lia | reflexivity].
Qed.

(** X3: for a destination that is neither an IPv4 nor an IP literal, [validateDestination] reports nothing exactly when its lower-cased form matches the DNS name pattern. *)
Theorem validateDestination_name (dest : string) :
  ipv4Pattern_Match dest = false -> ParseIP parseIPv6 dest = false ->
  (validateDestination parseIPv6 dest = [] <->
   dnsNameRegex_Match (strings_ToLower dest) = true).
Proof.
  intros Hp Hip; unfold validateDestination; rewrite Hp, Hip; split.
  - intros H; apply app_eq_nil in H as [H _].
    destruct (dnsNameRegex_Match (strings_ToLower dest)); [reflexivity | discriminate H].
  - intros Hr; destruct (dnsName_lower_no_dots dest Hr) as (H1 & H2 & H3).
    rewrite Hr, H1, H2, H3; reflexivity.
Qed.

Lemma NestedMap_spec_domain (o spec : obj) :
  NestedMap o ["spec"] = NFound spec -> spec_domain o = NestedString spec ["domain"].
Proof.
  unfold NestedMap, spec_domain, NestedString, NestedFieldNoCopy; cbn [nested_field_go].
  destruct (assoc "spec" o) as [v|]; [|discriminate].
  destruct v; try discriminate; intros H; injection H as <-; reflexivity.
Qed.

Lemma validateSpec_domain_found (o : obj) :
  validateSpec parseIPv6 o = [] -> exists d, spec_domain o = NFound d /\ d <> "".
Proof.
  unfold validateSpec.
  destruct (NestedMap o ["spec"]) as [spec| |] eqn:Hs; try discriminate.
  rewrite (NestedMap_spec_domain o spec Hs); cbv zeta.
  destruct (NestedString spec ["domain"]) as [d| |]; try discriminate.
  destruct (String.eqb_spec d "") as [_|Hd]; [discriminate|].
  intros _; exists d; auto.
Qed.

(** X4: for a spec with a non-empty domain and destination and no destinations, port, tls or annotations, [validateSpec] reports the domain's errors followed by the destination's. *)
Theorem validateSpec_domain_destination (o spec : obj) (d dest : string) :
  NestedMap o ["spec"] = NFound spec ->
  assoc "domain" spec = Some (VString d) -> d <> "" ->
  assoc "destination" spec = Some (VString dest) -> dest <> "" ->
  assoc "destinations" spec = None -> assoc "port" spec = None ->
  assoc "tls" spec = None -> assoc "annotations" spec = None ->
  validateSpec parseIPv6 o = validateDomain d ++ validateDestination parseIPv6 dest.
Proof.
  intros Hs Hd Hdne Hdest Hdestne Hdests Hp Ht Ha.
  unfold validateSpec; rewrite Hs; cbv zeta.
  rewrite !NestedString_single, NestedStringSlice_single, Hd, Hdest, Hdests, Hp, Ht, Ha.
  rewrite (proj2 (String.eqb_neq d "") Hdne), (proj2 (String.eqb_neq dest "") Hdestne).
  cbn [andb]; rewrite !app_nil_r; reflexivity.
Qed.

(** X5: the destinations loop of [validateSpec] reports nothing exactly when every destination is non-empty and valid. *)
Theorem validateDestinationsFrom_ok (i : nat) (dests : list string) :
  validateDestinationsFrom parseIPv6 i dests = [] <->
  Forall (fun dest => dest <> "" /\ validateDestination parseIPv6 dest = []) dests.
Proof.
  revert i; induction dests as [|dest dests IH]; intros i; cbn [validateDestinationsFrom].
  - split; [constructor | reflexivity].
  - rewrite Forall_cons; split.
    + intros H; apply app_eq_nil in H as [H1 H2].
      destruct (String.eqb_spec dest "") as [_|Hne]; [discriminate H1|].
      split; [split; [exact Hne|] | apply (IH (S i)); exact H2].
      destruct (validateDestination parseIPv6 dest); [reflexivity | discriminate H1].
    + intros [[Hne Hv] Hr].
      rewrite (proj2 (String.eqb_neq dest "") Hne), Hv; cbn [map app].
      apply (IH (S i)); exact Hr.
Qed.

Lemma GetName_NewProxyRule (name domain destination : string) (port : Z) :
  GetName (NewProxyRule name domain destination port) = name.
Proof. unfold NewProxyRule; destruct (0 <? port); reflexivity. Qed.

(** X6: a rule built by [NewProxyRule] from a valid name, domain and destination fails creation validation only on its port, and only when the port is positive. *)
Theorem NewProxyRule_validation (name domain destination : string) (port : Z) :
  slen name <= maxNameLength -> k8sNameRegex_Match name = true ->
  domain <> "" -> validateDomain domain = [] ->
  destination <> "" -> validateDestination parseIPv6 destination = [] ->
  ValidateProxyRuleCreate parseIPv6 (NewProxyRule name domain destination port)
  = if 0 <? port then validatePort port else [].
Proof.
  intros Hl Hk Hd Hvd Hdest Hvdest.
  assert (Hm : validateMetadata (NewProxyRule name domain destination port) = []).
  { apply (proj2 (proj1 (validateMetadata_result _))).
    rewrite GetName_NewProxyRule; auto. }
  unfold ValidateProxyRuleCreate; rewrite Hm, app_nil_l.
  unfold validateSpec, NewProxyRule.
  destruct (0 <? port); cbn -[validateDomain validateDestination validatePort];
    rewrite (proj2 (String.eqb_neq domain "") Hd), (proj2 (String.eqb_neq destination "") Hdest),
      Hvd, Hvdest; cbn [andb app]; rewrite ?app_nil_r; reflexivity.
Qed.

Lemma ValidationError_Error_head (e : ValidationError) :
  exists r, ValidationError_Error e = String "v" r.
Proof. eexists; reflexivity. Qed.

Lemma ValidationErrors_Error_head (es : list ValidationError) :
  es <> [] -> exists r, ValidationErrors_Error es = String "v" r.
Proof.
  destruct es as [|e es]; [contradiction|]; intros _.
  destruct (ValidationError_Error_head e) as [r Hr].
  unfold ValidationErrors_Error; cbn [map].
  destruct es as [|e' es]; cbn [strings_Join]; rewrite Hr; [exists r; reflexivity|].
  eexists; reflexivity.
Qed.

(** X7: the message of a list of validation errors is empty exactly when the list is empty. *)
Theorem ValidationErrors_Error_empty (es : list ValidationError) :
  ValidationErrors_Error es = "" <-> es = [].
Proof.
  split; [|intros ->; reflexivity].
  intros H; destruct es as [|e es]; [reflexivity|].
  destruct (ValidationErrors_Error_head (e :: es)) as [r Hr]; [discriminate|].
  rewrite Hr in H; discriminate H.
Qed.

(** X8: [HandleValidationError] answers 413 for an unexpected end of body or a body over the limit, and 400 for every other error. *)
Theorem HandleValidationError_status (err : go_error) :
  StatusCode (HandleValidationError err) =
  if match err with ErrUnexpectedEOF => true | _ => false end
     || String.eqb (error_Error err) "http: request body too large"
  then 413 else 400.
Proof.
  destruct err as [e|es| | |msg]; cbn [HandleValidationError error_Error orb].
  - destruct (ValidationError_Error_head e) as [r ->]; reflexivity.
  - destruct es as [|e es]; [reflexivity|].
    destruct (ValidationErrors_Error_head (e :: es)) as [r Hr]; [discriminate|].
    rewrite Hr; reflexivity.
  - reflexivity.
  - reflexivity.
  - destruct (String.eqb msg "http: request body too large"); reflexivity.
Qed.

(** X9: [ValidateJSONRequest] accepts a request exactly when its method is not POST, PUT or PATCH, or its content type is application/json (optionally with charset=utf-8). *)
Theorem ValidateJSONRequest_accepts (method contentType : string) :
  ValidateJSONRequest method contentType = None <->
  (method <> "POST" /\ method <> "PUT" /\ method <> "PATCH") \/
  contentType = "application/json" \/ contentType = "application/json; charset=utf-8".
Proof.
  unfold ValidateJSONRequest.
  destruct (String.eqb_spec method "POST") as [Hm1|Hm1];
  destruct (String.eqb_spec method "PUT") as [Hm2|Hm2];
  destruct (String.eqb_spec method "PATCH") as [Hm3|Hm3]; cbn [orb];
  try (split; [intros _; left; auto | reflexivity]);
  (destruct (String.eqb_spec contentType "") as [->|Hc0];
   [split; [discriminate | intros [[? [? ?]]|[H|H]]; try contradiction; discriminate H]|]);
  destruct (String.eqb_spec contentType "application/json") as [Hc1|Hc1];
  destruct (String.eqb_spec contentType "application/json; charset=utf-8") as [Hc2|Hc2];
  cbn [negb andb];
  (split; [intros H; try discriminate H; auto
          | intros [[? [? ?]]|[H|H]]; (contradiction || reflexivity)]).
Qed.

(** X10: once the content type is accepted, the create handler's body reading answers 400 for an empty body, 413 for a body over 1 MiB, and otherwise passes the body on. *)
Theorem CreateProxyRule_readBody_result (contentType : string) (body : list Byte.byte) :
  ValidateJSONRequest "POST" contentType = None ->
  CreateProxyRule_readBody "POST" contentType body =
  if Nat.eqb (length body) 0
  then inl (RError 400 "validation error on field 'body': request body is required")
  else if Z.of_nat (length body) >? MaxRequestBodySize
  then inl (RError 413 "request body too large (max 1048576 bytes)")
  else inr body.
Proof.
  intros Hj; unfold CreateProxyRule_readBody; rewrite String.eqb_refl; cbn [negb]; rewrite Hj.
  unfold ReadAll_MaxBytesReader, ValidateRequestBody.
  destruct (Z.leb_spec (Z.of_nat (length body)) MaxRequestBodySize) as [Hle|Hgt];
    cbv beta iota.
  - destruct (Nat.eqb (length body) 0); [reflexivity|].
    destruct (Z.gtb_spec (Z.of_nat (length body)) MaxRequestBodySize); [lia|reflexivity].
  - assert (E : length body <> 0%nat) by (unfold MaxRequestBodySize in Hgt; lia).
    rewrite (proj2 (Nat.eqb_neq _ _) E).
    destruct (Z.gtb_spec (Z.of_nat (length body)) MaxRequestBodySize); [reflexivity|lia].
Qed.

(** Paths *)

Lemma split_on_nonnil (c : ascii) (s : string) : split_on c s <> [].
Proof.
  destruct s as [|a s]; cbn [split_on]; [discriminate|].
  destruct (Ascii.eqb a c); [discriminate|].
  destruct (split_on c s); discriminate.
Qed.

Lemma split_on_last_empty (c : ascii) (s : string) :
  List.last (split_on c s) "" = "" -> s = "" \/ exists s0, s = s0 +:+ String c "".
Proof.
  induction s as [|a s IH]; intros H; [left; reflexivity|right].
  cbn [split_on] in H; pose proof (split_on_nonnil c s) as Hnn.
  destruct (Ascii.eqb_spec a c) as [->|Hac].
  - destruct (split_on c s) as [|x r] eqn:E; [contradiction|].
    change (List.last ("" :: x :: r) "") with (List.last (x :: r) "") in H.
    destruct (IH H) as [->|[s0 ->]]; [exists ""; reflexivity | exists (String c s0); reflexivity].
  - destruct (split_on c s) as [|x [|y r]] eqn:E; [contradiction | discriminate H|].
    change (List.last (String a x :: y :: r) "") with (List.last (x :: y :: r) "") in H.
    destruct (IH H) as [->|[s0 ->]]; [discriminate E | exists (String a s0); reflexivity].
Qed.

Lemma trimRightByte_no_suffix (s : string) (c : ascii) (s0 : string) :
  trimRightByte s c <> s0 +:+ String c "".
Proof.
  revert s0; induction s as [|a s IH]; intros s0 H; cbn [trimRightByte] in H.
  - destruct s0 as [|b s0]; [rewrite append_nil_l in H | rewrite append_cons in H]; discriminate.
  - destruct (String.eqb_spec (trimRightByte s c) "") as [Hr|Hr];
      destruct (Ascii.eqb_spec a c) as [Hac|Hac]; cbn [andb] in H;
      (destruct s0 as [|b s0]; [rewrite append_nil_l in H | rewrite append_cons in H]);
      try discriminate H; injection H as Ha Hr';
      try contradiction; exact (IH s0 Hr').
Qed.

Lemma path_name_nonempty (path a b name : string) :
  path_parts path = [a; b; name] -> name <> "".
Proof.
  unfold path_parts, strings_Trim; intros H ->.
  assert (Hl : List.last (split_on "/" (trimRightByte (trimLeftByte path "/") "/")) "" = "")
    by (rewrite H; reflexivity).
  destruct (split_on_last_empty _ _ Hl) as [E|[s0 E]].
  - rewrite E in H; discriminate H.
  - exact (trimRightByte_no_suffix _ _ _ E).
Qed.

(** X11: the get and delete handlers never answer "Rule name is required": trimming the path leaves no empty last segment. *)
Theorem rule_name_never_required (st : State) (method path : string) :
  (GetProxyRule st method path).2 <> RError 400 "Rule name is required" /\
  (DeleteProxyRule st method path).2 <> RError 400 "Rule name is required".
Proof.
  split; [unfold GetProxyRule | unfold DeleteProxyRule];
    (destruct (negb _); [intros Habs; discriminate Habs|]); cbv zeta;
    (destruct (path_parts path) as [|a [|b [|n [|x r]]]] eqn:Ep;
     cbn [length Nat.eqb negb]; try (intros Habs; discriminate Habs));
    cbn [nth]; rewrite (proj2 (String.eqb_neq n "") (path_name_nonempty path a b n Ep)).
  - destruct (store_get st proxyRulesNamespace n) as [st1 [l|]];
      intros Habs; discriminate Habs.
  - destruct (store_delete st proxyRulesNamespace n); intros Habs; discriminate Habs.
Qed.

(** Store views *)

Lemma ns_view_lookup (st : State) (ns name : string) :
  ns_view st ns !! name = deref st <$> (ns_map st ns !! name).
Proof. unfold ns_view; apply lookup_fmap. Qed.

Lemma ns_view_store_view (st : State) (ns : string) :
  ns_view st ns = default ∅ (store_view st !! ns).
Proof.
  unfold ns_view, ns_map, store_view; rewrite lookup_fmap.
  destruct (resources st !! ns); cbn [default fmap option_fmap option_map];
    [reflexivity | apply fmap_empty].
Qed.

Lemma view_set (st : State) (ns : string) (m : gmap string N) :
  store_view (set_resources st (<[ns := m]> (resources st))) =
  <[ns := deref st <$> m]> (store_view st).
Proof. unfold store_view, set_resources; cbn [resources]; rewrite fmap_insert; reflexivity. Qed.

Lemma store_get_view (st : State) (ns name : string) :
  store_wf st -> store_view (store_get st ns name).1 = store_view st.
Proof.
  intros Hwf; apply (frame_view (next st)); [exact Hwf|].
  apply store_get_frames; reflexivity.
Qed.

Lemma store_get_result (st : State) (ns name : string) :
  match store_get st ns name with
  | (st1, Some l) => ns_view st ns !! name = Some (deref st1 l)
  | (_, None) => ns_view st ns !! name = None
  end.
Proof.
  unfold store_get; rewrite ns_view_lookup; unfold ns_map.
  destruct (resources st !! ns) as [m|]; cbn [default id].
  - destruct (m !! name) as [l|]; [|reflexivity].
    unfold alloc, deref; cbn; rewrite lookup_insert_eq; reflexivity.
  - rewrite lookup_empty; reflexivity.
Qed.

Lemma GetProxyRule_response (st : State) (path a b name : string) :
  path_parts path = [a; b; name] ->
  (GetProxyRule st "GET" path).2 =
    match ns_view st proxyRulesNamespace !! name with
    | Some o => RObject 200 o
    | None => RError 404 ("Error fetching proxyrule: resource " +:+ (name +:+ " not found"))
    end.
Proof.
  intros Ep; unfold GetProxyRule; rewrite String.eqb_refl; cbn [negb]; cbv zeta.
  rewrite Ep; cbn [length Nat.eqb negb nth].
  rewrite (proj2 (String.eqb_neq name "") (path_name_nonempty path a b name Ep)).
  pose proof (store_get_result st proxyRulesNamespace name) as R.
  destruct (store_get st proxyRulesNamespace name) as [st1 [l|]]; rewrite R; reflexivity.
Qed.

Lemma GetProxyRule_state (st : State) (method path : string) :
  store_wf st -> store_view (GetProxyRule st method path).1 = store_view st.
Proof.
  intros Hwf; unfold GetProxyRule.
  destruct (negb _); [reflexivity|]; cbv zeta.
  destruct (negb (Nat.eqb _ 3)); [reflexivity|].
  destruct (String.eqb _ ""); [reflexivity|].
  pose proof (store_get_view st proxyRulesNamespace (nth 2 (path_parts path) "") Hwf) as V.
  destruct (store_get st proxyRulesNamespace _) as [st1 [l|]]; exact V.
Qed.

(** X12: on a path with three segments, the get handler answers 200 with the stored record of that name or 404, and leaves the rules of the store unchanged. *)
Theorem GetProxyRule_result (st : State) (path a b name : string) :
  store_wf st -> path_parts path = [a; b; name] ->
  (GetProxyRule st "GET" path).2 =
    match ns_view st proxyRulesNamespace !! name with
    | Some o => RObject 200 o
    | None => RError 404 ("Error fetching proxyrule: resource " +:+ (name +:+ " not found"))
    end /\
  store_view (GetProxyRule st "GET" path).1 = store_view st.
Proof.
  intros Hwf Ep; split; [exact (GetProxyRule_response st path a b name Ep)|].
  apply GetProxyRule_state; exact Hwf.
Qed.

Lemma DeleteProxyRule_result_cases (st : State) (path a b name : string) :
  path_parts path = [a; b; name] ->
  (ns_view st proxyRulesNamespace !! name = None ->
   DeleteProxyRule st "DELETE" path =
   (st, RError 404 ("Error deleting proxyrule: resource " +:+ (name +:+ " not found")))) /\
  (forall o, ns_view st proxyRulesNamespace !! name = Some o ->
   exists st', DeleteProxyRule st "DELETE" path = (st', RStatus 204) /\
     store_view st' =
     <[proxyRulesNamespace := delete name (ns_view st proxyRulesNamespace)]> (store_view st)).
Proof.
  intros Ep; unfold DeleteProxyRule; rewrite String.eqb_refl; cbn [negb]; cbv zeta.
  rewrite Ep; cbn [length Nat.eqb negb nth].
  rewrite (proj2 (String.eqb_neq name "") (path_name_nonempty path a b name Ep)).
  unfold store_delete.
  destruct (resources st !! proxyRulesNamespace) as [m|] eqn:Em;
    [destruct (m !! name) as [l|] eqn:El|].
  - assert (Hv : ns_view st proxyRulesNamespace = deref st <$> m)
      by (unfold ns_view, ns_map; rewrite Em; reflexivity).
    split; [intros H; rewrite Hv, lookup_fmap, El in H; discriminate H|].
    intros o _; eexists; split; [reflexivity|].
    rewrite view_set, Hv, fmap_delete; reflexivity.
  - assert (Hv : ns_view st proxyRulesNamespace = deref st <$> m)
      by (unfold ns_view, ns_map; rewrite Em; reflexivity).
    split; [reflexivity|].
    intros o H; rewrite Hv, lookup_fmap, El in H; discriminate H.
  - split; [reflexivity|].
    intros o H; rewrite ns_view_lookup in H; unfold ns_map in H; rewrite Em in H.
    cbn [default] in H; rewrite lookup_empty in H; discriminate H.
Qed.

(** X13: on a path with three segments, the delete handler answers 404 and keeps the store when no rule has that name, and otherwise answers 204 and removes exactly that rule. *)
Theorem DeleteProxyRule_result (st : State) (path a b name : string) :
  path_parts path = [a; b; name] ->
  (ns_view st proxyRulesNamespace !! name = None ->
   DeleteProxyRule st "DELETE" path =
   (st, RError 404 ("Error deleting proxyrule: resource " +:+ (name +:+ " not found")))) /\
  (forall o, ns_view st proxyRulesNamespace !! name = Some o ->
   exists st', DeleteProxyRule st "DELETE" path = (st', RStatus 204) /\
     store_view st' =
     <[proxyRulesNamespace := delete name (ns_view st proxyRulesNamespace)]> (store_view st)).
Proof. apply DeleteProxyRule_result_cases.
Qed.

(** Create *)

Lemma CreateProxyRule_created_shape (st st' : State) (o0 o : obj) :
  CreateProxyRule parseIPv6 st o0 = (st', Created o) ->
  o = create_defaults o0 /\ ValidateProxyRuleCreate parseIPv6 o = [] /\
  ns_map st proxyRulesNamespace !! GetName o = None /\
  checkDuplicateDomain st o "" = None /\
  st' = mkState (<[next st := o]> (heap st)) (N.succ (next st))
          (<[proxyRulesNamespace := <[GetName o := next st]> (ns_map st proxyRulesNamespace)]>
             (resources st)).
Proof.
  unfold CreateProxyRule; cbv zeta; intros Hc.
  destruct (Nat.ltb_spec 0 (length (ValidateProxyRuleCreate parseIPv6 (create_defaults o0))))
    as [_|Hv]; [discriminate|].
  destruct (store_get st proxyRulesNamespace (GetName (create_defaults o0))) as [st1 ex] eqn:Eg.
  destruct ex as [l|]; [discriminate|].
  destruct (store_get_none _ _ _ _ Eg) as [-> Hn].
  destruct (checkDuplicateDomain st (create_defaults o0) "") as [[d owner]|] eqn:Ecd;
    [discriminate|].
  unfold store_create in Hc; cbv zeta in Hc; rewrite ns_map_touch, Hn in Hc.
  unfold alloc, set_resources in Hc; cbn [heap next resources fst snd] in Hc.
  injection Hc as <- Ho.
  unfold deref in Ho; cbn [heap] in Ho; rewrite lookup_insert_eq in Ho; cbn [default id] in Ho.
  subst o; repeat split; auto.
  - destruct (ValidateProxyRuleCreate parseIPv6 (create_defaults o0)); [reflexivity|cbn in Hv; lia].
  - rewrite insert_insert_eq; do 3 f_equal.
    unfold ns_map; cbn [resources]; rewrite lookup_insert_eq; reflexivity.
Qed.

Lemma CreateProxyRule_created_view (st st' : State) (o0 o : obj) :
  store_wf st ->
  CreateProxyRule parseIPv6 st o0 = (st', Created o) ->
  o = create_defaults o0 /\
  ns_view st proxyRulesNamespace !! GetName o = None /\
  store_view st' =
  <[proxyRulesNamespace := <[GetName o := o]> (ns_view st proxyRulesNamespace)]> (store_view st).
Proof.
  intros Hwf Hc.
  destruct (CreateProxyRule_created_shape _ _ _ _ Hc) as (Ho & _ & Hn & _ & ->).
  split; [exact Ho|split; [rewrite ns_view_lookup, Hn; reflexivity|]].
  unfold store_view; cbn [resources]; rewrite fmap_insert.
  f_equal.
  - rewrite fmap_insert; unfold deref at 1; cbn [heap]; rewrite lookup_insert_eq; cbn [default id].
    f_equal; unfold ns_view, ns_map.
    destruct (resources st !! proxyRulesNamespace) as [m|] eqn:Em; cbn [default id];
      [|rewrite !fmap_empty; reflexivity].
    apply map_fmap_ext; intros name l Hl.
    unfold deref; cbn [heap]; rewrite lookup_insert_ne; [reflexivity|].
    pose proof (Hwf _ m name l Em Hl); lia.
  - apply map_fmap_ext; intros ns m Hm.
    apply map_fmap_ext; intros name l Hl.
    unfold deref; cbn [heap]; rewrite lookup_insert_ne; [reflexivity|].
    pose proof (Hwf ns m name l Hm Hl); lia.
Qed.

(** X14: when the create handler answers Created, the record is the request with its defaults, its name was free, and the store gained exactly that record. *)
Theorem CreateProxyRule_created (st st' : State) (o0 o : obj) :
  store_wf st ->
  CreateProxyRule parseIPv6 st o0 = (st', Created o) ->
  o = create_defaults o0 /\
  ns_view st proxyRulesNamespace !! GetName o = None /\
  store_view st' =
  <[proxyRulesNamespace := <[GetName o := o]> (ns_view st proxyRulesNamespace)]> (store_view st).
Proof. exact (CreateProxyRule_created_view st st' o0 o). Qed.

(** X15: a request that passes validation, whose name is free and whose domain no stored rule uses, is created. *)
Theorem CreateProxyRule_succeeds (st : State) (o0 : obj) :
  ValidateProxyRuleCreate parseIPv6 (create_defaults o0) = [] ->
  ns_view st proxyRulesNamespace !! GetName (create_defaults o0) = None ->
  Forall (fun item => spec_domain item <> spec_domain o0) (store_list st proxyRulesNamespace) ->
  (CreateProxyRule parseIPv6 st o0).2 = Created (create_defaults o0).
Proof.
  intros Hv Hn Hd; unfold CreateProxyRule; cbv zeta; rewrite Hv; cbn [length Nat.ltb Nat.leb].
  pose proof (store_get_result st proxyRulesNamespace (GetName (create_defaults o0))) as R.
  destruct (store_get st proxyRulesNamespace (GetName (create_defaults o0)))
    as [st1 [l|]] eqn:Eg; rewrite Hn in R; [discriminate R|].
  destruct (store_get_none _ _ _ _ Eg) as [-> Hn'].
  destruct (checkDuplicateDomain st (create_defaults o0) "") as [[d owner]|] eqn:Ecd.
  - exfalso.
    destruct (checkDuplicateDomain_some _ _ _ _ _ Ecd) as [Ho [item (Hi & _ & Hdi & _)]].
    rewrite List.Forall_forall in Hd; apply (Hd item Hi).
    rewrite Hdi, <- Ho; apply spec_domain_eq; apply create_defaults_spec.
  - destruct (store_create st proxyRulesNamespace (create_defaults o0)) as [st2 [l|]] eqn:Ec.
    + cbn [snd]; f_equal; eapply store_create_some; exact Ec.
    + unfold store_create in Ec; cbv zeta in Ec; rewrite ns_map_touch, Hn' in Ec.
      unfold alloc in Ec; discriminate Ec.
Qed.

(** X16: sending the same create request again after it succeeded answers a name conflict. *)
Theorem CreateProxyRule_again (st st' : State) (o0 o : obj) :
  CreateProxyRule parseIPv6 st o0 = (st', Created o) ->
  (CreateProxyRule parseIPv6 st' o0).2 = NameConflict (GetName o).
Proof.
  intros Hc; destruct (CreateProxyRule_created_shape _ _ _ _ Hc) as (-> & Hv & _ & _ & ->).
  unfold CreateProxyRule; cbv zeta; rewrite Hv; cbn [length Nat.ltb Nat.leb].
  unfold store_get; cbn [resources]; rewrite !lookup_insert_eq; reflexivity.
Qed.

Lemma CreateProxyRule_created_lookup (st st' : State) (o0 o : obj) :
  CreateProxyRule parseIPv6 st o0 = (st', Created o) ->
  ns_view st' proxyRulesNamespace !! GetName o = Some o.
Proof.
  intros Hc; destruct (CreateProxyRule_created_shape _ _ _ _ Hc) as (_ & _ & _ & _ & ->).
  unfold ns_view, ns_map; cbn [resources]; rewrite lookup_insert_eq; cbn [default id].
  rewrite lookup_fmap, lookup_insert_eq; cbn [fmap option_fmap option_map].
  unfold deref; cbn [heap]; rewrite lookup_insert_eq; reflexivity.
Qed.

(** X17: after a successful create, the get handler on that rule's path answers 200 with the created record. *)
Theorem CreateProxyRule_then_Get (st st' : State) (o0 o : obj) (path a b : string) :
  CreateProxyRule parseIPv6 st o0 = (st', Created o) ->
  path_parts path = [a; b; GetName o] ->
  (GetProxyRule st' "GET" path).2 = RObject 200 o.
Proof.
  intros Hc Ep; rewrite (GetProxyRule_response st' path a b (GetName o) Ep).
  rewrite (CreateProxyRule_created_lookup _ _ _ _ Hc); reflexivity.
Qed.

(** Update *)

Lemma assoc_map_set_eq (k : string) (v : value) (m : obj) :
  assoc k (map_set k v m) = Some v.
Proof.
  induction m as [|[k0 v0] m IH]; cbn [map_set assoc]; [rewrite String.eqb_refl; reflexivity|].
  destruct (String.eqb_spec k k0) as [<-|Hne]; cbn [assoc].
  - rewrite String.eqb_refl; reflexivity.
  - rewrite (proj2 (String.eqb_neq k k0) Hne); exact IH.
Qed.

Lemma getNested_meta (o o' mm mm' : obj) (k : string) :
  assoc "metadata" o = Some (VMap mm) -> assoc "metadata" o' = Some (VMap mm') ->
  assoc k mm = assoc k mm' ->
  getNestedString o ["metadata"; k] = getNestedString o' ["metadata"; k].
Proof.
  intros H1 H2 H3; unfold getNestedString, NestedString, NestedFieldNoCopy.
  cbn [nested_field_go]; rewrite H1, H2; cbn [nested_field_go]; rewrite H3; reflexivity.
Qed.

Lemma getNested_meta_eq (o o' : obj) (k : string) :
  assoc "metadata" o = assoc "metadata" o' ->
  getNestedString o ["metadata"; k] = getNestedString o' ["metadata"; k].
Proof.
  intros H; unfold getNestedString, NestedString, NestedFieldNoCopy.
  cbn [nested_field_go]; rewrite H; reflexivity.
Qed.

Lemma merge_metadata_keeps (x u o' : obj) :
  merge_metadata x u = Some o' ->
  assoc "spec" o' = assoc "spec" x /\ GetName o' = GetName x /\ GetNamespace o' = GetNamespace x.
Proof.
  unfold merge_metadata.
  destruct (assoc "metadata" u) as [v|]; [destruct v as [| | | | | |md]|];
    try (intros H; injection H as <-; auto; fail).
  destruct (assoc "metadata" x) as [v|] eqn:Ex; [destruct v as [| | | | | |em]|];
    try discriminate.
  intros H; injection H as <-.
  set (m2 := match assoc "annotations" md with
             | Some annotations => map_set "annotations" annotations
                 (match assoc "labels" md with
                  | Some labels => map_set "labels" labels em | None => em end)
             | None => match assoc "labels" md with
                  | Some labels => map_set "labels" labels em | None => em end end).
  assert (Hk : forall k, k <> "labels" -> k <> "annotations" -> assoc k m2 = assoc k em).
  { intros k Hl Ha; subst m2.
    destruct (assoc "annotations" md); destruct (assoc "labels" md);
      rewrite ?assoc_map_set_ne by assumption; reflexivity. }
  assert (Hm : assoc "metadata" (map_set "metadata" (VMap m2) x) = Some (VMap m2))
    by apply assoc_map_set_eq.
  split; [apply assoc_map_set_ne; discriminate|].
  unfold GetName, GetNamespace; split;
    (eapply getNested_meta; [exact Hm | exact Ex | apply Hk; discriminate]).
Qed.

Lemma UpdateProxyRule_updated_shape (st st' : State) (name : string) (updates o' : obj) :
  store_wf st ->
  UpdateProxyRule parseIPv6 st name updates = (st', Updated o') ->
  exists m l0,
    name <> "" /\
    resources st !! proxyRulesNamespace = Some m /\ m !! name = Some l0 /\
    merge_metadata (match assoc "spec" updates with
                    | Some spec => map_set "spec" spec (deref st l0)
                    | None => deref st l0 end) updates = Some o' /\
    ValidateProxyRuleUpdate parseIPv6 o' = [] /\
    checkDuplicateDomain st o' name = None /\
    is_Some (m !! GetName o') /\
    resources st' = <[proxyRulesNamespace := <[GetName o' := N.succ (next st)]> m]> (resources st) /\
    next st' = N.succ (N.succ (next st)) /\
    (forall l, (l < next st)%N -> heap st' !! l = heap st !! l) /\
    heap st' !! N.succ (next st) = Some o'.
Proof.
  intros Hwf; unfold UpdateProxyRule; intros Hc.
  destruct (String.eqb_spec name "") as [_|Hne]; [discriminate|].
  destruct (store_get st proxyRulesNamespace name) as [st1 ex] eqn:Eg.
  destruct ex as [l|]; [|discriminate].
  pose proof Eg as Eg'; unfold store_get in Eg'.
  destruct (resources st !! proxyRulesNamespace) as [m|] eqn:Em; [|discriminate].
  destruct (m !! name) as [l0|] eqn:El; [|discriminate].
  unfold alloc in Eg'; injection Eg' as <- <-.
  match type of Hc with
  | context [merge_metadata (deref ?s2 _) _] => remember s2 as st2 eqn:E2
  end.
  assert (S2 : resources st2 = resources st /\ next st2 = N.succ (next st) /\
               (forall l, (l < next st)%N -> heap st2 !! l = heap st !! l) /\
               deref st2 (next st) = match assoc "spec" updates with
                                     | Some spec => map_set "spec" spec (deref st l0)
                                     | None => deref st l0 end).
  { subst st2; destruct (assoc "spec" updates); unfold heap_write, deref; cbn [heap next resources];
      (split; [reflexivity | split; [reflexivity | split]]);
      try (intros l' Hl'; rewrite ?lookup_insert_ne by lia; reflexivity);
      rewrite !lookup_insert_eq; reflexivity. }
  clear E2; destruct S2 as (R2 & N2 & H2 & D2).
  destruct (merge_metadata (deref st2 (next st)) updates) as [merged|] eqn:Emg; [|discriminate].
  cbv zeta in Hc.
  assert (D3 : deref (heap_write st2 (next st) merged) (next st) = merged)
    by (unfold deref, heap_write; cbn [heap]; rewrite lookup_insert_eq; reflexivity).
  rewrite D3 in Hc.
  destruct (Nat.ltb_spec 0 (length (ValidateProxyRuleUpdate parseIPv6 merged))) as [_|Hv];
    [discriminate|].
  assert (F3 : frames (next st) st (heap_write st2 (next st) merged)).
  { split; [exact R2|]; intros l' Hl'; unfold heap_write; cbn [heap].
    rewrite lookup_insert_ne by lia; apply H2; exact Hl'. }
  destruct (checkDuplicateDomain (heap_write st2 (next st) merged) merged name)
    as [[d owner]|] eqn:Ecd; [discriminate|].
  unfold store_update in Hc; cbv zeta in Hc; unfold heap_write in Hc; cbn [resources] in Hc.
  rewrite R2, Em in Hc.
  destruct (m !! GetName merged) as [l1|] eqn:El1; [|discriminate].
  unfold alloc, set_resources in Hc; cbn [heap next resources fst snd] in Hc.
  injection Hc as <- Ho.
  unfold deref in Ho; cbn [heap] in Ho; rewrite N2, lookup_insert_eq in Ho; cbn [default id] in Ho.
  subst o'.
  exists m, l0; rewrite <- D2.
  repeat split; try assumption.
  - destruct (ValidateProxyRuleUpdate parseIPv6 merged); [reflexivity | cbn in Hv; lia].
  - unfold checkDuplicateDomain in Ecd |- *.
    rewrite (frame_list _ _ _ _ (store_wf_below st Hwf) F3) in Ecd; exact Ecd.
  - eexists; exact El1.
  - cbn [resources]; rewrite N2; reflexivity.
  - cbn [next]; rewrite N2; reflexivity.
  - intros l' Hl'; cbn [heap]; rewrite N2, !lookup_insert_ne by lia; apply H2; exact Hl'.
  - cbn [heap]; rewrite N2, lookup_insert_eq; reflexivity.
Qed.

(** X18: when the update handler answers Updated, the rule existed, its spec is the update's spec if given and the old one otherwise, its name and namespace are kept, and the result passes update validation. *)
Theorem UpdateProxyRule_updated (st st' : State) (name : string) (updates o' : obj) :
  store_wf st ->
  UpdateProxyRule parseIPv6 st name updates = (st', Updated o') ->
  exists old, ns_view st proxyRulesNamespace !! name = Some old /\
    assoc "spec" o' = match assoc "spec" updates with
                      | Some spec => Some spec
                      | None => assoc "spec" old end /\
    GetName o' = GetName old /\ GetNamespace o' = GetNamespace old /\
    ValidateProxyRuleUpdate parseIPv6 o' = [].
Proof.
  intros Hwf Hc.
  destruct (UpdateProxyRule_updated_shape _ _ _ _ _ Hwf Hc)
    as (m & l0 & _ & Em & El & Hmg & Hv & _).
  exists (deref st l0); split.
  { rewrite ns_view_lookup; unfold ns_map; rewrite Em; cbn [default id]; rewrite El; reflexivity. }
  destruct (merge_metadata_keeps _ _ _ Hmg) as (Hs & Hn & Hns).
  rewrite Hs, Hn, Hns.
  destruct (assoc "spec" updates) as [spec|].
  - unfold GetName, GetNamespace.
    rewrite !(getNested_meta_eq (map_set "spec" spec (deref st l0)) (deref st l0))
      by (apply assoc_map_set_ne; discriminate).
    rewrite assoc_map_set_eq; auto.
  - auto.
Qed.

Lemma view_above (st st' : State) :
  store_wf st -> (forall l, (l < next st)%N -> heap st' !! l = heap st !! l) ->
  store_view (mkState (heap st') (next st') (resources st)) = store_view st.
Proof.
  intros Hwf Hh; unfold store_view; cbn [resources].
  apply map_fmap_ext; intros ns m Hm; apply map_fmap_ext; intros name l Hl.
  unfold deref; cbn [heap]; rewrite Hh; [reflexivity | exact (Hwf ns m name l Hm Hl)].
Qed.

Lemma names_match_view (st : State) (ns n : string) (o : obj) :
  names_match st -> ns_view st ns !! n = Some o -> GetName o = n.
Proof.
  intros Hnm; rewrite ns_view_lookup; unfold ns_map.
  destruct (resources st !! ns) as [m|] eqn:Em; cbn [default id];
    [|rewrite lookup_empty; discriminate].
  destruct (m !! n) as [l|] eqn:El; [|discriminate].
  intros H; injection H as <-; exact (Hnm ns m n l Em El).
Qed.

Lemma GetName_meta (o : obj) :
  GetName o <> "" -> exists mm, assoc "metadata" o = Some (VMap mm).
Proof.
  unfold GetName, getNestedString, NestedString, NestedFieldNoCopy; cbn [nested_field_go].
  destruct (assoc "metadata" o) as [v|]; [destruct v as [| | | | | |mm]|];
    cbn [nested_field_go]; try (intros H; contradiction H; reflexivity).
  intros _; exists mm; reflexivity.
Qed.

Lemma UpdateProxyRule_store_view (st st' : State) (name : string) (updates o' : obj) :
  store_wf st -> names_match st ->
  UpdateProxyRule parseIPv6 st name updates = (st', Updated o') ->
  GetName o' = name /\
  store_view st' =
  <[proxyRulesNamespace := <[name := o']> (ns_view st proxyRulesNamespace)]> (store_view st).
Proof.
  intros Hwf Hnm Hc.
  destruct (UpdateProxyRule_updated_shape _ _ _ _ _ Hwf Hc)
    as (m & l0 & _ & Em & El & Hmg & _ & _ & _ & Hr & Hn & Hh & Ho).
  assert (Hname : GetName o' = name).
  { destruct (merge_metadata_keeps _ _ _ Hmg) as (_ & -> & _).
    rewrite <- (Hnm _ _ _ _ Em El).
    destruct (assoc "spec" updates) as [spec|]; [|reflexivity].
    apply getNested_meta_eq, assoc_map_set_ne; discriminate. }
  split; [exact Hname|].
  assert (Hst : st' = set_resources (mkState (heap st') (next st') (resources st))
                        (<[proxyRulesNamespace := <[name := N.succ (next st)]> m]>
                           (resources (mkState (heap st') (next st') (resources st)))))
    by (destruct st' as [h n r]; cbn in Hr |- *; rewrite Hr, Hname; reflexivity).
  rewrite Hst, view_set, view_above by assumption.
  f_equal; rewrite fmap_insert; unfold deref at 1; cbn [heap]; rewrite Ho; cbn [default id].
  f_equal; unfold ns_view, ns_map; rewrite Em; cbn [default id].
  apply map_fmap_ext; intros k l Hl; unfold deref; cbn [heap].
  rewrite Hh; [reflexivity | exact (Hwf _ _ _ _ Em Hl)].
Qed.

(** X19: when the update handler answers Updated, the record keeps the rule's name and the store replaces exactly that rule with it. *)
Theorem UpdateProxyRule_store (st st' : State) (name : string) (updates o' : obj) :
  store_wf st -> names_match st ->
  UpdateProxyRule parseIPv6 st name updates = (st', Updated o') ->
  GetName o' = name /\
  store_view st' =
  <[proxyRulesNamespace := <[name := o']> (ns_view st proxyRulesNamespace)]> (store_view st).
Proof. apply UpdateProxyRule_store_view.
Qed.

(** X25: in a store where every record sits under its own name, the update handler never panics. *)
Theorem UpdateProxyRule_never_panics (st : State) (name : string) (updates : obj) :
  names_match st -> (UpdateProxyRule parseIPv6 st name updates).2 <> Panic.
Proof.
  intros Hnm; unfold UpdateProxyRule.
  destruct (String.eqb_spec name "") as [_|Hne]; [discriminate|].
  destruct (store_get st proxyRulesNamespace name) as [st1 ex] eqn:Eg.
  destruct ex as [l|]; [|discriminate].
  pose proof Eg as Eg'; unfold store_get in Eg'.
  destruct (resources st !! proxyRulesNamespace) as [m|] eqn:Em; [|discriminate].
  destruct (m !! name) as [l0|] eqn:El; [|discriminate].
  unfold alloc in Eg'; injection Eg' as <- <-.
  assert (Hmeta : exists mm, assoc "metadata" (deref st l0) = Some (VMap mm))
    by (apply GetName_meta; rewrite (Hnm _ _ _ _ Em El); exact Hne).
  match goal with
  | |- context [merge_metadata (deref ?s2 _) _] => remember s2 as st2 eqn:E2
  end.
  assert (D2 : assoc "metadata" (deref st2 (next st)) = assoc "metadata" (deref st l0)).
  { subst st2; destruct (assoc "spec" updates); unfold heap_write, deref; cbn [heap];
      rewrite !lookup_insert_eq; cbn [default id]; [|reflexivity].
    apply assoc_map_set_ne; discriminate. }
  destruct (merge_metadata (deref st2 (next st)) updates) as [merged|] eqn:Emg.
  - cbv zeta.
    destruct (Nat.ltb 0 _); [discriminate|].
    destruct (checkDuplicateDomain _ _ name) as [[d owner]|]; [discriminate|].
    destruct (store_update _ _ _) as [st4 [l'|]]; discriminate.
  - exfalso; destruct Hmeta as [mm Hmm]; rewrite Hmm in D2.
    unfold merge_metadata in Emg; rewrite D2 in Emg.
    destruct (assoc "metadata" updates) as [v|]; [destruct v|]; discriminate Emg.
Qed.

(** Invariant *)

Lemma store_get_next (st : State) (ns name : string) :
  (next st <= next (store_get st ns name).1)%N.
Proof.
  unfold store_get; destruct (resources st !! ns) as [m|]; [destruct (m !! name)|];
    cbn; lia.
Qed.

Lemma store_create_next (st : State) (ns : string) (o : obj) :
  (next st <= next (store_create st ns o).1)%N.
Proof.
  unfold store_create; cbv zeta; rewrite ns_map_touch.
  destruct (ns_map st ns !! GetName o); cbn; lia.
Qed.

Lemma store_update_next (st : State) (ns : string) (o : obj) :
  (next st <= next (store_update st ns o).1)%N.
Proof.
  unfold store_update; destruct (resources st !! ns) as [m|]; [destruct (m !! GetName o)|];
    cbn; lia.
Qed.

Lemma CreateProxyRule_cases (st : State) (o0 : obj) :
  (next st <= next (CreateProxyRule parseIPv6 st o0).1)%N /\
  (is_failure (CreateProxyRule parseIPv6 st o0).2 = true \/
   exists o, (CreateProxyRule parseIPv6 st o0).2 = Created o).
Proof.
  unfold CreateProxyRule; cbv zeta.
  destruct (Nat.ltb 0 _); [cbn; split; [lia | left; reflexivity]|].
  pose proof (store_get_next st proxyRulesNamespace (GetName (create_defaults o0))) as N1.
  destruct (store_get st proxyRulesNamespace (GetName (create_defaults o0))) as [st1 ex].
  cbn [fst] in N1.
  destruct ex as [l|]; [cbn; split; [lia | left; reflexivity]|].
  destruct (checkDuplicateDomain st1 (create_defaults o0) "") as [[d owner]|];
    [cbn; split; [lia | left; reflexivity]|].
  pose proof (store_create_next st1 proxyRulesNamespace (create_defaults o0)) as N2.
  destruct (store_create st1 proxyRulesNamespace (create_defaults o0)) as [st2 [l|]];
    cbn [fst] in N2; cbn [fst snd]; (split; [lia|]); [right; eexists; reflexivity | left; reflexivity].
Qed.

Lemma UpdateProxyRule_cases (st : State) (name : string) (updates : obj) :
  (next st <= next (UpdateProxyRule parseIPv6 st name updates).1)%N /\
  (is_failure (UpdateProxyRule parseIPv6 st name updates).2 = true \/
   exists o, (UpdateProxyRule parseIPv6 st name updates).2 = Updated o).
Proof.
  unfold UpdateProxyRule.
  destruct (String.eqb name ""); [cbn; split; [lia | left; reflexivity]|].
  pose proof (store_get_next st proxyRulesNamespace name) as N1.
  destruct (store_get st proxyRulesNamespace name) as [st1 ex]; cbn [fst] in N1.
  destruct ex as [l|]; [|cbn; split; [lia | left; reflexivity]].
  match goal with
  | |- context [merge_metadata (deref ?s2 _) _] => remember s2 as st2 eqn:E2
  end.
  assert (N2 : (next st1 <= next st2)%N)
    by (subst st2; destruct (assoc "spec" updates); cbn; lia).
  destruct (merge_metadata (deref st2 l) updates) as [merged|];
    [|cbn; split; [lia | left; reflexivity]].
  cbv zeta.
  destruct (Nat.ltb 0 _); [cbn; split; [lia | left; reflexivity]|].
  destruct (checkDuplicateDomain _ _ name) as [[d owner]|];
    [cbn; split; [lia | left; reflexivity]|].
  pose proof (store_update_next (heap_write st2 l merged) proxyRulesNamespace
                (deref (heap_write st2 l merged) l)) as N3.
  destruct (store_update _ _ _) as [st4 [l'|]]; cbn [fst] in N3; cbn [fst snd next heap_write] in *;
    (split; [lia|]); [right; eexists; reflexivity | left; reflexivity].
Qed.

Lemma inv_frames (st st' : State) :
  store_inv st -> frames (next st) st st' -> (next st <= next st')%N -> store_inv st'.
Proof.
  intros [Hwf Hnm] [Hr Hh] Hn; split.
  - intros ns m name l; rewrite Hr; intros Hm Hl; pose proof (Hwf _ _ _ _ Hm Hl); lia.
  - intros ns m name l; rewrite Hr; intros Hm Hl; unfold deref.
    rewrite Hh by exact (Hwf _ _ _ _ Hm Hl); exact (Hnm _ _ _ _ Hm Hl).
Qed.

Lemma inv_extend (st st' : State) (ns k : string) (l : N) :
  store_inv st ->
  resources st' = <[ns := <[k := l]> (ns_map st ns)]> (resources st) ->
  (next st <= l)%N -> (l < next st')%N ->
  (forall l', (l' < next st)%N -> heap st' !! l' = heap st !! l') ->
  GetName (deref st' l) = k -> store_inv st'.
Proof.
  intros [Hwf Hnm] Hr Hl1 Hl2 Hh Hk.
  assert (Old : forall ns' m' name l', resources st !! ns' = Some m' -> m' !! name = Some l' ->
                (l' < next st')%N /\ GetName (deref st' l') = name).
  { intros ns' m' name l' Hm Hl; pose proof (Hwf _ _ _ _ Hm Hl); split; [lia|].
    unfold deref; rewrite Hh by assumption; exact (Hnm _ _ _ _ Hm Hl). }
  assert (All : forall ns' m' name l', resources st' !! ns' = Some m' -> m' !! name = Some l' ->
                (l' < next st')%N /\ GetName (deref st' l') = name).
  { intros ns' m' name l'; rewrite Hr; intros Hm Hl.
    apply lookup_insert_Some in Hm as [[<- <-]|[_ Hm]]; [|exact (Old _ _ _ _ Hm Hl)].
    apply lookup_insert_Some in Hl as [[<- <-]|[_ Hl]]; [split; assumption|].
    unfold ns_map in Hl; destruct (resources st !! ns) as [m0|] eqn:E0; cbn [default id] in Hl;
      [exact (Old _ _ _ _ E0 Hl) | rewrite lookup_empty in Hl; discriminate]. }
  split; intros ns' m' name l' Hm Hl; apply (All _ _ _ _ Hm Hl).
Qed.

Lemma inv_delete (st : State) (ns name : string) (m : gmap string N) :
  store_inv st -> resources st !! ns = Some m ->
  store_inv (set_resources st (<[ns := delete name m]> (resources st))).
Proof.
  intros [Hwf Hnm] Em.
  assert (All : forall ns' m' k l, <[ns := delete name m]> (resources st) !! ns' = Some m' ->
                m' !! k = Some l -> exists m0, resources st !! ns' = Some m0 /\ m0 !! k = Some l).
  { intros ns' m' k l Hm Hl; apply lookup_insert_Some in Hm as [[<- <-]|[_ Hm]];
      [|exists m'; auto].
    apply lookup_delete_Some in Hl as [_ Hl]; exists m; auto. }
  split; intros ns' m' k l Hm Hl; destruct (All _ _ _ _ Hm Hl) as (m0 & H0 & H1);
    [exact (Hwf _ _ _ _ H0 H1) | exact (Hnm _ _ _ _ H0 H1)].
Qed.

Lemma GetName_SetNamespace_NewProxyRule (name namespace domain destination : string) (port : Z) :
  GetName (SetNamespace (NewProxyRule name domain destination port) namespace) = name.
Proof. unfold NewProxyRule; destruct (0 <? port); reflexivity. Qed.

Lemma NewFakeDynamicClient_inv : store_inv NewFakeDynamicClient.
Proof.
  split; [exact NewFakeDynamicClient_wf|].
  intros ns m name l H; unfold NewFakeDynamicClient in H; cbn [resources] in H.
  rewrite lookup_empty in H; discriminate.
Qed.

Lemma SeedProxyRule_inv (st : State) (name namespace domain destination : string) (port : Z) :
  store_inv st -> store_inv (SeedProxyRule st name namespace domain destination port).
Proof.
  intros Hinv; apply (inv_extend st _ namespace name (next st) Hinv).
  - unfold SeedProxyRule, alloc, set_resources; cbn [resources next].
    rewrite insert_insert_eq; unfold ns_map at 1; cbn [resources].
    rewrite lookup_insert_eq; reflexivity.
  - reflexivity.
  - cbn; lia.
  - intros l' Hl'; cbn; apply lookup_insert_ne; lia.
  - unfold deref; cbn; rewrite lookup_insert_eq; apply GetName_SetNamespace_NewProxyRule.
Qed.

Lemma DeleteProxyRule_inv (st : State) (method path : string) :
  store_inv st -> store_inv (DeleteProxyRule st method path).1.
Proof.
  intros Hinv; unfold DeleteProxyRule.
  destruct (negb _); [exact Hinv|]; cbv zeta.
  destruct (negb (Nat.eqb _ 3)); [exact Hinv|].
  destruct (String.eqb _ ""); [exact Hinv|].
  unfold store_delete.
  destruct (resources st !! proxyRulesNamespace) as [m|] eqn:Em; [|exact Hinv].
  destruct (m !! _); [|exact Hinv].
  apply inv_delete; assumption.
Qed.

Lemma GetProxyRule_inv (st : State) (method path : string) :
  store_inv st -> store_inv (GetProxyRule st method path).1.
Proof.
  intros Hinv; unfold GetProxyRule.
  destruct (negb _); [exact Hinv|]; cbv zeta.
  destruct (negb (Nat.eqb _ 3)); [exact Hinv|].
  destruct (String.eqb _ ""); [exact Hinv|].
  set (n := nth 2 (path_parts path) "").
  pose proof (store_get_frames (next st) st proxyRulesNamespace n (N.le_refl _)) as F.
  pose proof (store_get_next st proxyRulesNamespace n) as N1.
  destruct (store_get st proxyRulesNamespace n) as [st1 [l|]]; cbn [fst] in *;
    exact (inv_frames _ _ Hinv F N1).
Qed.

Lemma CreateProxyRule_inv (st : State) (o0 : obj) :
  store_inv st -> store_inv (CreateProxyRule parseIPv6 st o0).1.
Proof.
  intros Hinv.
  destruct (CreateProxyRule_cases st o0) as [Hn [Hf|[o Ho]]];
    destruct (CreateProxyRule parseIPv6 st o0) as [st' r] eqn:Ec; cbn [fst snd] in *.
  - exact (inv_frames _ _ Hinv (CreateProxyRule_frames _ _ _ _ _ Ec Hf) Hn).
  - subst r; destruct (CreateProxyRule_created_shape _ _ _ _ Ec) as (_ & _ & _ & _ & ->).
    apply (inv_extend st _ proxyRulesNamespace (GetName o) (next st) Hinv);
      [reflexivity | reflexivity | cbn; lia | |].
    + intros l' Hl'; cbn; apply lookup_insert_ne; lia.
    + unfold deref; cbn; rewrite lookup_insert_eq; reflexivity.
Qed.

Lemma UpdateProxyRule_inv (st : State) (name : string) (updates : obj) :
  store_inv st -> store_inv (UpdateProxyRule parseIPv6 st name updates).1.
Proof.
  intros Hinv.
  destruct (UpdateProxyRule_cases st name updates) as [Hn [Hf|[o Ho]]];
    destruct (UpdateProxyRule parseIPv6 st name updates) as [st' r] eqn:Ec; cbn [fst snd] in *.
  - exact (inv_frames _ _ Hinv (UpdateProxyRule_frames _ _ _ _ _ _ Ec Hf) Hn).
  - subst r.
    destruct (UpdateProxyRule_updated_shape _ _ _ _ _ (proj1 Hinv) Ec)
      as (m & l0 & _ & Em & _ & _ & _ & _ & _ & Hr & Hn' & Hh & Ho).
    apply (inv_extend st st' proxyRulesNamespace (GetName o) (N.succ (next st)) Hinv).
    + rewrite Hr; unfold ns_map; rewrite Em; reflexivity.
    + lia.
    + rewrite Hn'; lia.
    + exact Hh.
    + unfold deref; rewrite Ho; reflexivity.
Qed.

(** X20: every handler and the seeding helper keep the store well formed and every record stored under its own name. *)
Theorem handlers_keep_store_inv (st : State) :
  store_inv st ->
  (forall o0, store_inv (CreateProxyRule parseIPv6 st o0).1) /\
  (forall name updates, store_inv (UpdateProxyRule parseIPv6 st name updates).1) /\
  (forall method path, store_inv (GetProxyRule st method path).1) /\
  (forall method path, store_inv (DeleteProxyRule st method path).1) /\
  (forall method, store_inv (GetProxyRules st method).1) /\
  (forall name namespace domain destination port,
     store_inv (SeedProxyRule st name namespace domain destination port)).
Proof.
  intros Hinv.
  split; [intros o0; exact (CreateProxyRule_inv st o0 Hinv)|].
  split; [intros name updates; exact (UpdateProxyRule_inv st name updates Hinv)|].
  split; [intros method path; exact (GetProxyRule_inv st method path Hinv)|].
  split; [intros method path; exact (DeleteProxyRule_inv st method path Hinv)|].
  split; [intros method; unfold GetProxyRules; destruct (negb _); exact Hinv|].
  intros name namespace domain destination port; exact (SeedProxyRule_inv st _ _ _ _ _ Hinv).
Qed.

(** Unique domains *)

Lemma ns_view_in_list (st : State) (ns n : string) (o : obj) :
  ns_view st ns !! n = Some o -> In o (store_list st ns).
Proof.
  rewrite ns_view_lookup; destruct (ns_map st ns !! n) as [l|] eqn:El; [|discriminate].
  intros H; injection H as <-; unfold store_list.
  apply in_map_iff; exists (n, l); split; [reflexivity|].
  apply list_elem_of_In, elem_of_map_to_list; exact El.
Qed.

Lemma unique_view (st st' : State) :
  store_view st' = store_view st -> unique_domains st -> unique_domains st'.
Proof.
  intros Hv Hu; unfold unique_domains; rewrite !(ns_view_store_view st'), Hv, <- !ns_view_store_view.
  exact Hu.
Qed.

Lemma unique_sub (st st' : State) :
  (forall n o, ns_view st' proxyRulesNamespace !! n = Some o ->
               ns_view st proxyRulesNamespace !! n = Some o) ->
  unique_domains st -> unique_domains st'.
Proof. intros Hs Hu n1 n2 o1 o2 d H1 H2; apply Hu; auto. Qed.

Lemma unique_insert (st st' : State) (k : string) (o : obj) :
  ns_view st' proxyRulesNamespace = <[k := o]> (ns_view st proxyRulesNamespace) ->
  unique_domains st ->
  (forall n2 o2 d, k <> n2 -> ns_view st proxyRulesNamespace !! n2 = Some o2 ->
     spec_domain o = NFound d -> spec_domain o2 = NFound d -> False) ->
  unique_domains st'.
Proof.
  intros Hv Hu Hno n1 n2 o1 o2 d H1 H2 D1 D2; rewrite Hv in H1, H2.
  apply lookup_insert_Some in H1 as [[<- <-]|[Hn1 H1]];
    apply lookup_insert_Some in H2 as [[<- <-]|[Hn2 H2]].
  - reflexivity.
  - exfalso; exact (Hno n2 o2 d Hn2 H2 D1 D2).
  - exfalso; exact (Hno n1 o1 d Hn1 H1 D2 D1).
  - exact (Hu n1 n2 o1 o2 d H1 H2 D1 D2).
Qed.

Lemma ns_view_of_view (st st' : State) (V : gmap string obj) :
  store_view st' = <[proxyRulesNamespace := V]> (store_view st) ->
  ns_view st' proxyRulesNamespace = V.
Proof. intros Hv; rewrite ns_view_store_view, Hv, lookup_insert_eq; reflexivity. Qed.

Lemma CreateProxyRule_unique (st : State) (o0 : obj) :
  store_inv st -> unique_domains st -> unique_domains (CreateProxyRule parseIPv6 st o0).1.
Proof.
  intros [Hwf Hnm] Hu.
  destruct (CreateProxyRule_cases st o0) as [_ [Hf|[o Ho]]];
    destruct (CreateProxyRule parseIPv6 st o0) as [st' r] eqn:Ec; cbn [fst snd] in *.
  - apply (unique_view st); [|exact Hu].
    exact (frame_view _ _ _ (store_wf_below st Hwf) (CreateProxyRule_frames _ _ _ _ _ Ec Hf)).
  - subst r.
    destruct (CreateProxyRule_created_shape _ _ _ _ Ec) as (_ & Hv & _ & Hcd & _).
    destruct (CreateProxyRule_created_view _ _ _ _ Hwf Ec) as (_ & _ & Hview).
    apply (unique_insert st st' (GetName o) o); [exact (ns_view_of_view _ _ _ Hview) | exact Hu|].
    intros n2 o2 d _ H2 D1 D2.
    unfold ValidateProxyRuleCreate in Hv; apply app_eq_nil in Hv as [_ Hv].
    destruct (validateSpec_domain_found o Hv) as [d0 [D0 Hd0]].
    rewrite D1 in D0; injection D0 as <-.
    destruct (proj2 (checkDuplicateDomain_iff st o "" d D1 Hd0)) as [x Hx]; [|rewrite Hcd in Hx; discriminate].
    exists o2; split; [exact (ns_view_in_list _ _ _ _ H2)|].
    split; [intros [Habs _]; apply Habs; reflexivity | exact D2].
Qed.

Lemma UpdateProxyRule_unique (st : State) (name : string) (updates : obj) :
  store_inv st -> unique_domains st -> unique_domains (UpdateProxyRule parseIPv6 st name updates).1.
Proof.
  intros [Hwf Hnm] Hu.
  destruct (UpdateProxyRule_cases st name updates) as [_ [Hf|[o Ho]]];
    destruct (UpdateProxyRule parseIPv6 st name updates) as [st' r] eqn:Ec; cbn [fst snd] in *.
  - apply (unique_view st); [|exact Hu].
    exact (frame_view _ _ _ (store_wf_below st Hwf) (UpdateProxyRule_frames _ _ _ _ _ _ Ec Hf)).
  - subst r.
    destruct (UpdateProxyRule_updated_shape _ _ _ _ _ Hwf Ec)
      as (m & l0 & Hne & _ & _ & _ & Hv & Hcd & _).
    destruct (UpdateProxyRule_store_view _ _ _ _ _ Hwf Hnm Ec) as (Hname & Hview).
    apply (unique_insert st st' name o); [exact (ns_view_of_view _ _ _ Hview) | exact Hu|].
    intros n2 o2 d Hn2 H2 D1 D2.
    destruct (validateSpec_domain_found o Hv) as [d0 [D0 Hd0]].
    rewrite D1 in D0; injection D0 as <-.
    destruct (proj2 (checkDuplicateDomain_iff st o name d D1 Hd0)) as [x Hx];
      [|rewrite Hcd in Hx; discriminate].
    exists o2; split; [exact (ns_view_in_list _ _ _ _ H2)|].
    split; [|exact D2].
    intros [_ Habs]; rewrite (names_match_view _ _ _ _ Hnm H2) in Habs; exact (Hn2 (eq_sym Habs)).
Qed.

Lemma DeleteProxyRule_unique (st : State) (method path : string) :
  unique_domains st -> unique_domains (DeleteProxyRule st method path).1.
Proof.
  intros Hu; unfold DeleteProxyRule.
  destruct (negb _); [exact Hu|]; cbv zeta.
  destruct (negb (Nat.eqb _ 3)); [exact Hu|].
  destruct (String.eqb _ ""); [exact Hu|].
  unfold store_delete.
  destruct (resources st !! proxyRulesNamespace) as [m|] eqn:Em; [|exact Hu].
  destruct (m !! _); [|exact Hu].
  apply (unique_sub st); [|exact Hu].
  intros k o; unfold ns_view, ns_map; cbn [fst resources set_resources]; rewrite lookup_insert_eq, Em.
  cbn [default id]; rewrite !lookup_fmap.
  destruct (decide (k = nth 2 (path_parts path) "")) as [->|Hne];
    [rewrite lookup_delete_eq; discriminate | rewrite lookup_delete_ne by congruence; exact id].
Qed.

(** X21: create, update and delete keep the domains of the stored rules pairwise distinct. *)
Theorem handlers_keep_unique_domains (st : State) :
  store_inv st -> unique_domains st ->
  (forall o0, unique_domains (CreateProxyRule parseIPv6 st o0).1) /\
  (forall name updates, unique_domains (UpdateProxyRule parseIPv6 st name updates).1) /\
  (forall method path, unique_domains (DeleteProxyRule st method path).1).
Proof.
  intros Hinv Hu; split; [|split].
  - intros o0; exact (CreateProxyRule_unique st o0 Hinv Hu).
  - intros name updates; exact (UpdateProxyRule_unique st name updates Hinv Hu).
  - intros method path; exact (DeleteProxyRule_unique st method path Hu).
Qed.

(** Compositions, listing, seeding *)

(** X22: deleting a rule right after creating it answers 204 and gives back the rules the store had before the create. *)
Theorem CreateProxyRule_then_Delete (st st' : State) (o0 o : obj) (path a b : string) :
  store_wf st ->
  CreateProxyRule parseIPv6 st o0 = (st', Created o) ->
  path_parts path = [a; b; GetName o] ->
  (DeleteProxyRule st' "DELETE" path).2 = RStatus 204 /\
  forall ns, ns_view (DeleteProxyRule st' "DELETE" path).1 ns = ns_view st ns.
Proof.
  intros Hwf Hc Ep.
  destruct (CreateProxyRule_created_view _ _ _ _ Hwf Hc) as (_ & Hn & Hview).
  pose proof (ns_view_of_view _ _ _ Hview) as Hv'.
  destruct (proj2 (DeleteProxyRule_result_cases st' path a b (GetName o) Ep) o)
    as (st'' & Hd & Hview'); [rewrite Hv', lookup_insert_eq; reflexivity|].
  rewrite Hd; cbn [fst snd]; split; [reflexivity|].
  intros ns; rewrite (ns_view_store_view st''), Hview', Hv', delete_insert_id by exact Hn.
  rewrite Hview, insert_insert_eq.
  destruct (decide (ns = proxyRulesNamespace)) as [->|Hne].
  - rewrite lookup_insert_eq; reflexivity.
  - rewrite lookup_insert_ne by congruence; symmetry; apply ns_view_store_view.
Qed.

(** X23: the list handler answers 200 with one item per stored rule, exactly the stored records, and keeps the store. *)
Theorem GetProxyRules_result (st : State) :
  exists items, GetProxyRules st "GET" = (st, RList 200 items) /\
    length items = size (ns_view st proxyRulesNamespace) /\
    (forall x, In x items <-> exists name, ns_view st proxyRulesNamespace !! name = Some x).
Proof.
  exists (store_list st proxyRulesNamespace); split; [reflexivity|split].
  - unfold store_list, ns_view; rewrite length_map, length_map_to_list, map_size_fmap; reflexivity.
  - intros x; split.
    + unfold store_list; intros Hin; apply in_map_iff in Hin as [[name l] [<- Hin]].
      apply list_elem_of_In, elem_of_map_to_list in Hin.
      exists name; rewrite ns_view_lookup, Hin; reflexivity.
    + intros [name H]; exact (ns_view_in_list _ _ _ _ H).
Qed.

Lemma view_extend (st st' : State) (ns k : string) (l : N) :
  store_wf st ->
  resources st' = <[ns := <[k := l]> (ns_map st ns)]> (resources st) ->
  (forall l', (l' < next st)%N -> heap st' !! l' = heap st !! l') ->
  store_view st' = <[ns := <[k := deref st' l]> (ns_view st ns)]> (store_view st).
Proof.
  intros Hwf Hr Hh.
  assert (Hst : st' = set_resources (mkState (heap st') (next st') (resources st))
                        (<[ns := <[k := l]> (ns_map st ns)]>
                           (resources (mkState (heap st') (next st') (resources st)))))
    by (destruct st' as [h n r]; cbn in Hr |- *; rewrite Hr; reflexivity).
  rewrite Hst at 1; rewrite view_set, view_above by assumption.
  f_equal; rewrite fmap_insert; f_equal.
  unfold ns_view, ns_map; destruct (resources st !! ns) as [m|] eqn:Em; cbn [default id].
  - apply map_fmap_ext; intros name l' Hl'; unfold deref; cbn [heap].
    rewrite Hh; [reflexivity | exact (Hwf _ _ _ _ Em Hl')].
  - rewrite !fmap_empty; reflexivity.
Qed.

(** X24: seeding a rule stores the namespaced [NewProxyRule] record under its name and changes nothing else. *)
Theorem SeedProxyRule_view (st : State) (name namespace domain destination : string) (port : Z) :
  store_wf st ->
  store_view (SeedProxyRule st name namespace domain destination port) =
  <[namespace := <[name := SetNamespace (NewProxyRule name domain destination port) namespace]>
                   (ns_view st namespace)]> (store_view st) /\
  GetName (SetNamespace (NewProxyRule name domain destination port) namespace) = name.
Proof.
  intros Hwf; split; [|apply GetName_SetNamespace_NewProxyRule].
  rewrite (view_extend st _ namespace name (next st) Hwf).
  - unfold deref at 1, SeedProxyRule, alloc, set_resources; cbn [heap].
    rewrite lookup_insert_eq; reflexivity.
  - unfold SeedProxyRule, alloc, set_resources; cbn [resources next].
    rewrite insert_insert_eq; unfold ns_map at 1; cbn [resources].
    rewrite lookup_insert_eq; reflexivity.
  - intros l' Hl'; cbn; apply lookup_insert_ne; lia.
Qed.

(** ** C8: the spec's domain grammar against [validateDomain] *)

Lemma lower_alnum_spec (c : ascii) : is_lower_alnum (ascii_lower c) = spec_alnum c.
Proof. destruct c as [[] [] [] [] [] [] [] []]; reflexivity. Qed.

Lemma lower_label_char_spec (c : ascii) :
  is_lower_alnum (ascii_lower c) || Ascii.eqb (ascii_lower c) "-" = spec_label_char c.
Proof. destruct c as [[] [] [] [] [] [] [] []]; reflexivity. Qed.

Lemma upper_alnum_spec (c : ascii) : spec_alnum (ascii_upper c) = spec_alnum c.
Proof. destruct c as [[] [] [] [] [] [] [] []]; reflexivity. Qed.

Lemma upper_label_char_spec (c : ascii) : spec_label_char (ascii_upper c) = spec_label_char c.
Proof. destruct c as [[] [] [] [] [] [] [] []]; reflexivity. Qed.

Lemma string_all_map (p : ascii -> bool) (f : ascii -> ascii) (s : string) :
  string_all p (string_map f s) = string_all (fun c => p (f c)) s.
Proof. induction s as [|c s IH]; [reflexivity | cbn [string_map string_all]; rewrite IH; reflexivity]. Qed.

Lemma string_last_map (f : ascii -> ascii) (s : string) :
  string_last (string_map f s) = option_map f (string_last s).
Proof.
  induction s as [|c s IH]; [reflexivity|].
  destruct s as [|c' s]; [reflexivity|].
  change (string_last (String (f c) (String (f c') (string_map f s))))
    with (string_last (String (f c') (string_map f s))).
  exact IH.
Qed.

Lemma split_on_map (f : ascii -> ascii) (s : string) :
  (forall c, f c = "."%char <-> c = "."%char) ->
  split_on "." (string_map f s) = map (string_map f) (split_on "." s).
Proof.
  intros Hf; induction s as [|a s IH]; [reflexivity|].
  change (string_map f (String a s)) with (String (f a) (string_map f s)).
  cbn [split_on]; rewrite IH.
  assert (E : Ascii.eqb (f a) "." = Ascii.eqb a ".").
  { destruct (Ascii.eqb_spec (f a) "."), (Ascii.eqb_spec a ".");
      try reflexivity; exfalso; firstorder. }
  rewrite E; destruct (Ascii.eqb a "."); [reflexivity|].
  destruct (split_on "." s); reflexivity.
Qed.

Lemma is_label_lower (l : string) : is_label (string_map ascii_lower l) = spec_label l.
Proof.
  destruct l as [|c l']; [reflexivity|].
  unfold is_label, spec_label; cbn [string_map].
  change (String (ascii_lower c) (string_map ascii_lower l'))
    with (string_map ascii_lower (String c l')).
  rewrite lower_alnum_spec, string_all_map, string_last_map.
  assert (Hall : string_all (fun c0 => is_lower_alnum (ascii_lower c0) || Ascii.eqb (ascii_lower c0) "-")
                   (String c l') = string_all spec_label_char (String c l')).
  { generalize (String c l'); intros s0; induction s0 as [|x s0 IH]; [reflexivity|].
    cbn [string_all]; rewrite lower_label_char_spec, IH; reflexivity. }
  rewrite Hall; destruct (string_last (String c l')); cbn [option_map];
    [rewrite lower_alnum_spec|]; reflexivity.
Qed.

Lemma spec_label_upper (l : string) : spec_label (string_map ascii_upper l) = spec_label l.
Proof.
  destruct l as [|c l']; [reflexivity|].
  unfold spec_label; cbn [string_map].
  change (String (ascii_upper c) (string_map ascii_upper l'))
    with (string_map ascii_upper (String c l')).
  rewrite upper_alnum_spec, string_all_map, string_last_map.
  assert (Hall : string_all (fun c0 => spec_label_char (ascii_upper c0)) (String c l')
                 = string_all spec_label_char (String c l')).
  { generalize (String c l'); intros s0; induction s0 as [|x s0 IH]; [reflexivity|].
    cbn [string_all]; rewrite upper_label_char_spec, IH; reflexivity. }
  rewrite Hall; destruct (string_last (String c l')); cbn [option_map];
    [rewrite upper_alnum_spec|]; reflexivity.
Qed.

Lemma spec_valid_domain_code (d : string) :
  spec_valid_domain d =
  Nat.leb (String.length d) 253 && dnsNameRegex_Match (strings_ToLower d).
Proof.
  unfold spec_valid_domain, dnsNameRegex_Match, strings_ToLower.
  rewrite (split_on_map ascii_lower d ascii_lower_dot).
  f_equal; induction (split_on "." d) as [|l r IH]; [reflexivity|].
  cbn [map forallb]; rewrite is_label_lower, IH; reflexivity.
Qed.

Lemma spec_valid_domain_upper (d : string) :
  spec_valid_domain (strings_ToUpper d) = spec_valid_domain d.
Proof.
  unfold spec_valid_domain, strings_ToUpper.
  rewrite length_string_map, (split_on_map ascii_upper d ascii_upper_dot).
  f_equal; induction (split_on "." d) as [|l r IH]; [reflexivity|].
  cbn [map forallb]; rewrite spec_label_upper, IH; reflexivity.
Qed.

Lemma spec_valid_domain_accepted (d : string) :
  spec_valid_domain d = true -> validateDomain d = [].
Proof.
  rewrite spec_valid_domain_code; intros H; apply andb_prop in H as [Hl Hr].
  apply Nat.leb_le in Hl.
  destruct (dnsName_lower_no_dots d Hr) as (H1 & H2 & H3).
  unfold validateDomain, maxDomainLength, slen; rewrite Hr, H1, H2, H3.
  destruct (Z.gtb_spec (Z.of_nat (String.length d)) 253); [lia | reflexivity].
Qed.

(** C8: every valid domain of the spec's grammar ([spec_valid_domain]:
    at most 253 characters, dot-separated labels
    [[a-z0-9]([-a-z0-9]*[a-z0-9])?] with letters of either case) gets no
    errors from [validateDomain], and neither does its upper-case form, so
    the two agree.  Such a domain is ASCII, where Go's [strings.ToUpper]
    and [strings.ToLower] take their ASCII path, the letter maps modelled
    here. *)
Theorem validateDomain_upper (d : string) :
  spec_valid_domain d = true ->
  validateDomain d = [] /\ validateDomain (strings_ToUpper d) = [] /\
  validateDomain (strings_ToUpper d) = validateDomain d.
Proof.
  intros H.
  assert (Hu : validateDomain (strings_ToUpper d) = [])
    by (apply spec_valid_domain_accepted; rewrite spec_valid_domain_upper; exact H).
  pose proof (spec_valid_domain_accepted d H) as Hd.
  rewrite Hu, Hd; auto.
Qed.

(** ** C10: the body checks of Create and Update *)

Lemma CreateProxyRule_readBody_cases (contentType : string) (body : list Byte.byte) :
  contentType = "application/json" \/ contentType = "application/json; charset=utf-8" ->
  CreateProxyRule_readBody "POST" contentType body =
  if Nat.eqb (length body) 0
  then inl (RError 400 "validation error on field 'body': request body is required")
  else if Z.of_nat (length body) >? MaxRequestBodySize
  then inl (RError 413 "request body too large (max 1048576 bytes)")
  else inr body.
Proof.
  intros Hct; unfold CreateProxyRule_readBody; rewrite String.eqb_refl; cbn [negb].
  replace (ValidateJSONRequest "POST" contentType) with (@None ValidationError)
    by (destruct Hct as [->| ->]; reflexivity).
  unfold ReadAll_MaxBytesReader, ValidateRequestBody.
  destruct (Z.leb_spec (Z.of_nat (length body)) MaxRequestBodySize) as [Hle|Hgt];
    cbv beta iota.
  - destruct (Nat.eqb (length body) 0); [reflexivity|].
    destruct (Z.gtb_spec (Z.of_nat (length body)) MaxRequestBodySize); [lia|reflexivity].
  - assert (E : length body <> 0%nat) by (unfold MaxRequestBodySize in Hgt; lia).
    rewrite (proj2 (Nat.eqb_neq _ _) E).
    destruct (Z.gtb_spec (Z.of_nat (length body)) MaxRequestBodySize); [reflexivity|lia].
Qed.

Lemma UpdateProxyRule_readBody_cases (st : State) (path a b name contentType : string)
    (o : obj) (body : list Byte.byte) :
  contentType = "application/json" \/ contentType = "application/json; charset=utf-8" ->
  path_parts path = [a; b; name] ->
  ns_view st proxyRulesNamespace !! name = Some o ->
  exists l, (UpdateProxyRule_readBody st "PUT" path contentType body).2 =
  if Nat.eqb (length body) 0
  then inl (RError 400 "validation error on field 'body': request body is required")
  else if Z.of_nat (length body) >? MaxRequestBodySize
  then inl (RError 413 "request body too large (max 1048576 bytes)")
  else inr (l, body).
Proof.
  intros Hct Hp Ho.
  pose proof (path_name_nonempty path a b name Hp) as Hn.
  pose proof (store_get_result st proxyRulesNamespace name) as Hg.
  unfold UpdateProxyRule_readBody; rewrite String.eqb_refl; cbn [negb].
  rewrite Hp; cbn [length nth Nat.eqb negb].
  destruct (String.eqb_spec name "") as [E|_]; [contradiction|].
  replace (ValidateJSONRequest "PUT" contentType) with (@None ValidationError)
    by (destruct Hct as [->| ->]; reflexivity).
  destruct (store_get st proxyRulesNamespace name) as [st1 [l|]].
  2: { rewrite Ho in Hg; discriminate Hg. }
  exists l.
  unfold ReadAll_MaxBytesReader, ValidateRequestBody.
  destruct (Z.leb_spec (Z.of_nat (length body)) MaxRequestBodySize) as [Hle|Hgt];
    cbv beta iota.
  - destruct (Nat.eqb (length body) 0); [reflexivity|].
    destruct (Z.gtb_spec (Z.of_nat (length body)) MaxRequestBodySize); [lia|reflexivity].
  - assert (E : length body <> 0%nat) by (unfold MaxRequestBodySize in Hgt; lia).
    rewrite (proj2 (Nat.eqb_neq _ _) E).
    destruct (Z.gtb_spec (Z.of_nat (length body)) MaxRequestBodySize); [reflexivity|lia].
Qed.

(** C10 (as amended): in [CreateProxyRule], and in [UpdateProxyRule] on a
    path naming a stored rule, a request whose Content-Type is accepted
    is rejected with the field error on "body" (400) when the body is
    empty; is rejected with 413 "request body too large (max 1048576
    bytes)", which is no field error, when the body has more than 1048576
    bytes (the [MaxBytesReader] that [ValidateJSONRequest] installs makes
    reading fail before [ValidateRequestBody] runs); and is passed on to
    the JSON decoding when the body has 1 to 1048576 bytes. *)
Theorem handlers_body_bounds (st : State) (path a b name contentType : string) (o : obj)
    (body : list Byte.byte) :
  contentType = "application/json" \/ contentType = "application/json; charset=utf-8" ->
  path_parts path = [a; b; name] ->
  ns_view st proxyRulesNamespace !! name = Some o ->
  (body = [] ->
   CreateProxyRule_readBody "POST" contentType body
   = inl (RError 400 "validation error on field 'body': request body is required") /\
   (UpdateProxyRule_readBody st "PUT" path contentType body).2
   = inl (RError 400 "validation error on field 'body': request body is required")) /\
  (MaxRequestBodySize < Z.of_nat (length body) ->
   CreateProxyRule_readBody "POST" contentType body
   = inl (RError 413 "request body too large (max 1048576 bytes)") /\
   (UpdateProxyRule_readBody st "PUT" path contentType body).2
   = inl (RError 413 "request body too large (max 1048576 bytes)")) /\
  (1 <= Z.of_nat (length body) <= MaxRequestBodySize ->
   CreateProxyRule_readBody "POST" contentType body = inr body /\
   exists l, (UpdateProxyRule_readBody st "PUT" path contentType body).2 = inr (l, body)).
Proof.
  intros Hct Hp Ho.
  rewrite (CreateProxyRule_readBody_cases contentType body Hct).
  destruct (UpdateProxyRule_readBody_cases st path a b name contentType o body Hct Hp Ho)
    as [l Hu]; rewrite Hu.
  split; [|split].
  - intros ->; split; reflexivity.
  - intros Hgt.
    assert (E : length body <> 0%nat) by (unfold MaxRequestBodySize in Hgt; lia).
    rewrite (proj2 (Nat.eqb_neq _ _) E).
    destruct (Z.gtb_spec (Z.of_nat (length body)) MaxRequestBodySize); [split; reflexivity|lia].
  - intros [H1 H2].
    assert (E : length body <> 0%nat) by lia.
    rewrite (proj2 (Nat.eqb_neq _ _) E).
    destruct (Z.gtb_spec (Z.of_nat (length body)) MaxRequestBodySize); [lia|].
    split; [reflexivity | exists l; reflexivity].
Qed.

End Extras.

(** ** Witnesses of the extra properties *)

Lemma example_store_inv : store_inv example_store.
Proof. apply SeedProxyRule_inv, NewFakeDynamicClient_inv. Qed.

Lemma example_store_wf : store_wf example_store.
Proof. exact (proj1 example_store_inv). Qed.

Lemma example_store_ns_view :
  ns_view example_store proxyRulesNamespace = <["rule1" := example_rule]> ∅.
Proof. vm_compute; reflexivity. Qed.

Lemma example_store_unique : unique_domains example_store.
Proof.
  intros n1 n2 o1 o2 d; rewrite example_store_ns_view.
  intros H1 H2 _ _.
  apply lookup_insert_Some in H1 as [[<- _]|[_ H1]]; [|rewrite lookup_empty in H1; discriminate].
  apply lookup_insert_Some in H2 as [[<- _]|[_ H2]]; [reflexivity|rewrite lookup_empty in H2; discriminate].
Qed.

Lemma example_create_rule2 :
  CreateProxyRule no_ipv6 example_store (create_request "rule2" "other.example.com" "10.0.0.51") =
  ((CreateProxyRule no_ipv6 example_store (create_request "rule2" "other.example.com" "10.0.0.51")).1,
   Created (create_defaults (create_request "rule2" "other.example.com" "10.0.0.51"))).
Proof. vm_compute; reflexivity. Qed.

Lemma example_update_rule1 :
  UpdateProxyRule no_ipv6 example_store "rule1" (update_request "example.com" "10.0.0.60") =
  ((UpdateProxyRule no_ipv6 example_store "rule1" (update_request "example.com" "10.0.0.60")).1,
   Updated (map_set "spec" (VMap [("domain", VString "example.com");
                                  ("destination", VString "10.0.0.60")]) example_rule)).
Proof. vm_compute; reflexivity. Qed.

Lemma validateDestination_name_witness :
  validateDestination no_ipv6 "backend.example.com" = [].
Proof.
  apply (proj2 (validateDestination_name no_ipv6 "backend.example.com"
                  (eq_refl _) (eq_refl _))).
  vm_compute; reflexivity.
Defined.

Lemma validateSpec_domain_destination_witness :
  validateSpec no_ipv6 (create_request "rule1" "example.com" "10.0.0.50") =
  validateDomain "example.com" ++ validateDestination no_ipv6 "10.0.0.50".
Proof.
  apply (validateSpec_domain_destination no_ipv6 _
           [("domain", VString "example.com"); ("destination", VString "10.0.0.50")]);
    reflexivity || discriminate.
Defined.

Lemma NewProxyRule_validation_witness :
  ValidateProxyRuleCreate no_ipv6 (NewProxyRule "rule1" "example.com" "10.0.0.50" 3000)
  = validatePort 3000.
Proof.
  apply (NewProxyRule_validation no_ipv6 "rule1" "example.com" "10.0.0.50" 3000);
    (vm_compute; reflexivity) || discriminate || (vm_compute; discriminate).
Defined.

Lemma CreateProxyRule_readBody_result_witness :
  CreateProxyRule_readBody "POST" "application/json" [Byte.x7b; Byte.x7d] =
  inr [Byte.x7b; Byte.x7d].
Proof. apply (CreateProxyRule_readBody_result "application/json"); reflexivity. Defined.

Lemma GetProxyRule_result_witness :
  (GetProxyRule example_store "GET" "/api/proxyrules/rule1").2 = RObject 200 example_rule /\
  store_view (GetProxyRule example_store "GET" "/api/proxyrules/rule1").1 = store_view example_store.
Proof.
  destruct (GetProxyRule_result example_store "/api/proxyrules/rule1" "api" "proxyrules" "rule1"
              example_store_wf (eq_refl _)) as [H1 H2].
  split; [rewrite H1, example_store_ns_view, lookup_insert_eq; reflexivity | exact H2].
Defined.

Lemma DeleteProxyRule_result_witness :
  exists st', DeleteProxyRule example_store "DELETE" "/api/proxyrules/rule1" = (st', RStatus 204) /\
    store_view st' = <[proxyRulesNamespace := ∅]> (store_view example_store).
Proof.
  destruct (proj2 (DeleteProxyRule_result example_store "/api/proxyrules/rule1" "api" "proxyrules"
                     "rule1" (eq_refl _)) example_rule) as (st' & H1 & H2).
  - rewrite example_store_ns_view, lookup_insert_eq; reflexivity.
  - exists st'; split; [exact H1|].
    rewrite H2, example_store_ns_view, delete_insert_id by apply lookup_empty; reflexivity.
Defined.

Lemma CreateProxyRule_created_witness :
  store_view (CreateProxyRule no_ipv6 example_store
                (create_request "rule2" "other.example.com" "10.0.0.51")).1 =
  <[proxyRulesNamespace :=
     <["rule2" := create_defaults (create_request "rule2" "other.example.com" "10.0.0.51")]>
       (ns_view example_store proxyRulesNamespace)]> (store_view example_store).
Proof.
  exact (proj2 (proj2 (CreateProxyRule_created no_ipv6 example_store _ _ _
                         example_store_wf example_create_rule2))).
Defined.

Lemma CreateProxyRule_succeeds_witness :
  (CreateProxyRule no_ipv6 example_store (create_request "rule2" "other.example.com" "10.0.0.51")).2
  = Created (create_defaults (create_request "rule2" "other.example.com" "10.0.0.51")).
Proof.
  apply CreateProxyRule_succeeds.
  - vm_compute; reflexivity.
  - vm_compute; reflexivity.
  - rewrite example_store_list; repeat constructor; vm_compute; discriminate.
Defined.

Lemma CreateProxyRule_again_witness :
  (CreateProxyRule no_ipv6
     (CreateProxyRule no_ipv6 example_store (create_request "rule2" "other.example.com" "10.0.0.51")).1
     (create_request "rule2" "other.example.com" "10.0.0.51")).2 = NameConflict "rule2".
Proof. exact (CreateProxyRule_again no_ipv6 example_store _ _ _ example_create_rule2). Defined.

Lemma CreateProxyRule_then_Get_witness :
  (GetProxyRule
     (CreateProxyRule no_ipv6 example_store (create_request "rule2" "other.example.com" "10.0.0.51")).1
     "GET" "/api/proxyrules/rule2").2
  = RObject 200 (create_defaults (create_request "rule2" "other.example.com" "10.0.0.51")).
Proof.
  exact (CreateProxyRule_then_Get no_ipv6 example_store _ _ _ "/api/proxyrules/rule2" "api" "proxyrules"
           example_create_rule2 (eq_refl _)).
Defined.

Lemma UpdateProxyRule_updated_witness :
  exists old, ns_view example_store proxyRulesNamespace !! "rule1" = Some old /\
    assoc "spec" (map_set "spec" (VMap [("domain", VString "example.com");
                                        ("destination", VString "10.0.0.60")]) example_rule)
    = Some (VMap [("domain", VString "example.com"); ("destination", VString "10.0.0.60")]).
Proof.
  destruct (UpdateProxyRule_updated no_ipv6 example_store _ "rule1" _ _ example_store_wf
              example_update_rule1) as (old & H1 & H2 & _).
  exists old; split; [exact H1 | exact H2].
Defined.

Lemma UpdateProxyRule_store_witness :
  store_view (UpdateProxyRule no_ipv6 example_store "rule1" (update_request "example.com" "10.0.0.60")).1
  = <[proxyRulesNamespace :=
       <["rule1" := map_set "spec" (VMap [("domain", VString "example.com");
                                          ("destination", VString "10.0.0.60")]) example_rule]>
         (ns_view example_store proxyRulesNamespace)]> (store_view example_store).
Proof.
  exact (proj2 (UpdateProxyRule_store no_ipv6 example_store _ "rule1" _ _ example_store_wf
                  (proj2 example_store_inv) example_update_rule1)).
Defined.

Lemma UpdateProxyRule_never_panics_witness :
  (UpdateProxyRule no_ipv6 example_store "rule1" [("metadata", VMap [("labels", VMap [])])]).2 <> Panic.
Proof. exact (UpdateProxyRule_never_panics no_ipv6 example_store "rule1" _ (proj2 example_store_inv)). Defined.

Lemma handlers_keep_store_inv_witness :
  store_inv (CreateProxyRule no_ipv6 example_store (create_request "rule2" "other.example.com" "10.0.0.51")).1.
Proof. exact (proj1 (handlers_keep_store_inv no_ipv6 example_store example_store_inv) _). Defined.

Lemma handlers_keep_unique_domains_witness :
  unique_domains (CreateProxyRule no_ipv6 example_store (create_request "rule2" "example.com" "10.0.0.51")).1.
Proof.
  exact (proj1 (handlers_keep_unique_domains no_ipv6 example_store example_store_inv
                  example_store_unique) _).
Defined.

Lemma CreateProxyRule_then_Delete_witness :
  (DeleteProxyRule
     (CreateProxyRule no_ipv6 example_store (create_request "rule2" "other.example.com" "10.0.0.51")).1
     "DELETE" "/api/proxyrules/rule2").2 = RStatus 204 /\
  ns_view (DeleteProxyRule
     (CreateProxyRule no_ipv6 example_store (create_request "rule2" "other.example.com" "10.0.0.51")).1
     "DELETE" "/api/proxyrules/rule2").1 proxyRulesNamespace
  = ns_view example_store proxyRulesNamespace.
Proof.
  destruct (CreateProxyRule_then_Delete no_ipv6 example_store _ _ _ "/api/proxyrules/rule2" "api"
              "proxyrules" example_store_wf example_create_rule2 (eq_refl _)) as [H1 H2].
  split; [exact H1 | apply H2].
Defined.

Lemma SeedProxyRule_view_witness :
  store_view (SeedProxyRule example_store "rule2" proxyRulesNamespace "other.example.com" "10.0.0.51" 0)
  = <[proxyRulesNamespace :=
       <["rule2" := SetNamespace (NewProxyRule "rule2" "other.example.com" "10.0.0.51" 0)
                      proxyRulesNamespace]> (ns_view example_store proxyRulesNamespace)]>
      (store_view example_store).
Proof. exact (proj1 (SeedProxyRule_view example_store _ _ _ _ _ example_store_wf)). Defined.

(** C8: the example domains of the spec and their upper-case forms. *)
Lemma validateDomain_upper_witness :
  validateDomain "example.com" = [] /\ validateDomain "api.example.com" = [] /\
  validateDomain (strings_ToUpper "my-api.example-site.com") = [] /\
  validateDomain (strings_ToUpper "my-api.example-site.com")
  = validateDomain "my-api.example-site.com".
Proof.
  split; [exact (proj1 (validateDomain_upper "example.com" (eq_refl _)))|].
  split; [exact (proj1 (validateDomain_upper "api.example.com" (eq_refl _)))|].
  exact (proj2 (validateDomain_upper "my-api.example-site.com" (eq_refl _))).
Defined.

(** C10: a two-byte body is passed on by Create and by Update of rule1. *)
Lemma handlers_body_bounds_witness :
  CreateProxyRule_readBody "POST" "application/json" [Byte.x7b; Byte.x7d] = inr [Byte.x7b; Byte.x7d] /\
  exists l, (UpdateProxyRule_readBody example_store "PUT" "/api/proxyrules/rule1" "application/json"
               [Byte.x7b; Byte.x7d]).2 = inr (l, [Byte.x7b; Byte.x7d]).
Proof.
  apply (proj2 (proj2 (handlers_body_bounds example_store "/api/proxyrules/rule1" "api" "proxyrules"
                         "rule1" "application/json" example_rule [Byte.x7b; Byte.x7d]
                         (or_introl eq_refl) eq_refl
                         ltac:(rewrite example_store_ns_view, lookup_insert_eq; reflexivity)))).
  cbn; unfold MaxRequestBodySize; lia.
Defined.

(** C10: a body of 1048577 bytes gets the field error from
    [ValidateRequestBody], but Create and Update never call it on that
    body: they answer 413 with no field error. *)
Lemma handlers_body_bounds_counterexample :
  ValidateRequestBody (repeat Byte.x20 (Z.to_nat 1048577))
  = Some (mkVE "body" "request body size exceeds maximum of 1048576 bytes") /\
  CreateProxyRule_readBody "POST" "application/json" (repeat Byte.x20 (Z.to_nat 1048577))
  = inl (RError 413 "request body too large (max 1048576 bytes)") /\
  (UpdateProxyRule_readBody example_store "PUT" "/api/proxyrules/rule1" "application/json"
     (repeat Byte.x20 (Z.to_nat 1048577))).2
  = inl (RError 413 "request body too large (max 1048576 bytes)").
Proof.
  assert (Hl : Z.of_nat (length (repeat Byte.x20 (Z.to_nat 1048577))) = 1048577)
    by (rewrite repeat_length; apply Z2Nat.id; lia).
  assert (Hn : Nat.eqb (length (repeat Byte.x20 (Z.to_nat 1048577))) 0 = false)
    by (apply Nat.eqb_neq; lia).
  split; [|split].
  - unfold ValidateRequestBody; rewrite Hn, Hl; reflexivity.
  - rewrite (CreateProxyRule_readBody_cases _ _ (or_introl eq_refl)), Hn, Hl; reflexivity.
  - destruct (UpdateProxyRule_readBody_cases example_store "/api/proxyrules/rule1" "api" "proxyrules"
                "rule1" "application/json" example_rule (repeat Byte.x20 (Z.to_nat 1048577))
                (or_introl eq_refl) eq_refl
                ltac:(rewrite example_store_ns_view, lookup_insert_eq; reflexivity)) as [l Hu].
    rewrite Hu, Hn, Hl; reflexivity.
Qed.
